(** * SMS.py: a student management system, embedded and verified

    The Python module keeps students, instructors, courses and enrollments as
    mutable objects that refer to each other.  Objects are compared and hashed
    by identity (no class defines [__eq__] or [__hash__]), so the embedding
    names every object by a reference and keeps the objects in stores; a
    method is a function from a state to an outcome that is a returned value,
    a raised exception, or a fault when a reference names no object. *)

From stdpp Require Import base gmap list strings.

Open Scope string_scope.
Open Scope list_scope.
Open Scope nat_scope.
Open Scope stdpp_scope.

(** ** Object layouts *)

(** The identity of an object. *)
Abbreviation loc := nat.

(** [Dict[K, V]]: insertion-ordered, one entry per key. *)
Section PyDict.
Context {K V : Type} `{EqDecision K}.

Definition PyDict := list (K * V).

(** [d[k] = v]: an existing key keeps its position, a new one goes last. *)
Fixpoint dict_set (k : K) (v : V) (d : PyDict) : PyDict :=
  match d with
  | [] => [(k, v)]
  | (k', v') :: r =>
      if decide (k' = k) then (k, v) :: r else (k', v') :: dict_set k v r
  end.

Fixpoint dict_get (k : K) (d : PyDict) : option V :=
  match d with
  | [] => None
  | (k', v') :: r => if decide (k' = k) then Some v' else dict_get k r
  end.

(** [list(d.keys())] *)
Definition dict_keys (d : PyDict) : list K := d.*1.

(** The representation invariant of a dictionary: no key twice. *)
Definition dict_wf (d : PyDict) : Prop := NoDup (dict_keys d).
End PyDict.
Arguments PyDict : clear implicits.

(** [class Person]: the fields [Student] and [Instructor] inherit. *)
Record Person := mkPerson {
  name : string;
  id_number : string
}.

(** [class Student(Person)]; the keys of [courses] are [Course] objects. *)
Record Student := mkStudent {
  Student_super :> Person;
  major : string;
  courses : PyDict loc (option string)
}.

(** [class Instructor(Person)] *)
Record Instructor := mkInstructor {
  Instructor_super :> Person;
  department : string
}.

(** [class Course]; [enrolled_students] refers to a list object, which the
    constructor may have received from its caller. *)
Record Course := mkCourse {
  course_name : string;
  course_id : string;
  enrolled_students : loc
}.

(** [class Enrollment] *)
Record Enrollment := mkEnrollment {
  student : loc;
  course : loc;
  grade : option string
}.

(** [class StudentManagementSystem]: the four lists its [__init__] creates.
    No method hands them out, so they are kept by value; their elements are
    references.  A caller who passes [self.students] itself to [Course(...)]
    makes one list of the two; such a shared list is outside this model,
    where a course's list is always an object of the list store. *)
Record StudentManagementSystem := mkSMS {
  sms_students : list loc;
  sms_instructors : list loc;
  sms_courses : list loc;
  sms_enrollments : list loc
}.

(** ** States, exceptions and the method monad *)

(** The live objects of each class, the list objects that courses refer to,
    and the registry. *)
Record State := mkState {
  student_objs : gmap nat Student;
  instructor_objs : gmap nat Instructor;
  course_objs : gmap nat Course;
  enrollment_objs : gmap nat Enrollment;
  list_objs : gmap nat (list nat);
  sms : StudentManagementSystem
}.

Inductive exn :=
  | ValueError (msg : string)
  | NameError (ident : string).

(** What a call does: return, raise (both with the state it leaves), or
    [Fault] when it follows a reference that names no object, which no
    Python heap contains. *)
Inductive outcome (A : Type) :=
  | Return (a : A) (σ : State)
  | Raise (e : exn) (σ : State)
  | Fault.
Arguments Return {A} a σ.
Arguments Raise {A} e σ.
Arguments Fault {A}.

Definition M (A : Type) : Type := State → outcome A.

Definition ret {A} (a : A) : M A := λ σ, Return a σ.

Definition bind {A B} (m : M A) (k : A → M B) : M B :=
  λ σ, match m σ with
       | Return a σ' => k a σ'
       | Raise e σ' => Raise e σ'
       | Fault => Fault
       end.

Declare Scope method_scope.
Delimit Scope method_scope with M.
Notation "x ← y ; z" := (bind y (λ x, z))
  (at level 20, y at level 100, z at level 200, only parsing) : method_scope.
Notation "x ;; z" := (bind x (λ _, z))
  (at level 100, z at level 200, only parsing, right associativity) : method_scope.
Open Scope method_scope.

Definition raise {A} (e : exn) : M A := λ σ, Raise e σ.

(** Reading an object through a reference. *)
Definition deref {A} (store : State → gmap nat A) (l : loc) : M A :=
  λ σ, match store σ !! l with
       | Some o => Return o σ
       | None => Fault
       end.

Definition get_student := deref student_objs.
Definition get_instructor := deref instructor_objs.
Definition get_course := deref course_objs.
Definition get_enrollment := deref enrollment_objs.
Definition get_list := deref list_objs.

Definition set_student_objs (f : gmap nat Student → gmap nat Student) (σ : State) :=
  mkState (f (student_objs σ)) (instructor_objs σ) (course_objs σ)
          (enrollment_objs σ) (list_objs σ) (sms σ).
Definition set_instructor_objs (f : gmap nat Instructor → gmap nat Instructor) (σ : State) :=
  mkState (student_objs σ) (f (instructor_objs σ)) (course_objs σ)
          (enrollment_objs σ) (list_objs σ) (sms σ).
Definition set_course_objs (f : gmap nat Course → gmap nat Course) (σ : State) :=
  mkState (student_objs σ) (instructor_objs σ) (f (course_objs σ))
          (enrollment_objs σ) (list_objs σ) (sms σ).
Definition set_enrollment_objs (f : gmap nat Enrollment → gmap nat Enrollment) (σ : State) :=
  mkState (student_objs σ) (instructor_objs σ) (course_objs σ)
          (f (enrollment_objs σ)) (list_objs σ) (sms σ).
Definition set_list_objs (f : gmap nat (list nat) → gmap nat (list nat)) (σ : State) :=
  mkState (student_objs σ) (instructor_objs σ) (course_objs σ)
          (enrollment_objs σ) (f (list_objs σ)) (sms σ).
Definition set_sms (f : StudentManagementSystem → StudentManagementSystem) (σ : State) :=
  mkState (student_objs σ) (instructor_objs σ) (course_objs σ)
          (enrollment_objs σ) (list_objs σ) (f (sms σ)).

(** Writing an attribute of an existing object. *)
Definition put_student (l : loc) (s : Student) : M unit :=
  λ σ, Return () (set_student_objs <[l := s]> σ).
Definition put_enrollment (l : loc) (e : Enrollment) : M unit :=
  λ σ, Return () (set_enrollment_objs <[l := e]> σ).
Definition put_list (l : loc) (xs : list loc) : M unit :=
  λ σ, Return () (set_list_objs <[l := xs]> σ).

(** Creating an object: its identity differs from every live one of its class. *)
Definition new_student (s : Student) : M loc :=
  λ σ, let l := fresh (dom (student_objs σ)) in
       Return l (set_student_objs <[l := s]> σ).
Definition new_instructor (i : Instructor) : M loc :=
  λ σ, let l := fresh (dom (instructor_objs σ)) in
       Return l (set_instructor_objs <[l := i]> σ).
Definition new_course (c : Course) : M loc :=
  λ σ, let l := fresh (dom (course_objs σ)) in
       Return l (set_course_objs <[l := c]> σ).
Definition new_enrollment (e : Enrollment) : M loc :=
  λ σ, let l := fresh (dom (enrollment_objs σ)) in
       Return l (set_enrollment_objs <[l := e]> σ).
Definition new_list (xs : list loc) : M loc :=
  λ σ, let l := fresh (dom (list_objs σ)) in
       Return l (set_list_objs <[l := xs]> σ).

(** [xs.append(x)] on the list object [l]. *)
Definition list_append (l : loc) (x : loc) : M unit :=
  xs ← get_list l; put_list l (xs ++ [x]).

(** [x in xs]: the elements are objects without [__eq__], so [==] is [is]. *)
Definition py_in (x : loc) (xs : list loc) : bool := bool_decide (x ∈ xs).

(** [xs.remove(x)] drops the first element equal to [x]; [None] when there
    is none, where Python raises [ValueError]. *)
Fixpoint py_remove (x : loc) (xs : list loc) : option (list loc) :=
  match xs with
  | [] => None
  | y :: r => if decide (y = x) then Some r else cons y <$> py_remove x r
  end.

Definition list_remove (l : loc) (x : loc) : M unit :=
  xs ← get_list l;
  match py_remove x xs with
  | Some xs' => put_list l xs'
  | None => raise (ValueError "list.remove(x): x not in list")
  end.

(** ** The classes' methods *)

(** [Student.__init__(name, id_number, major)] *)
Definition Student_init (name id_number major : string) : M loc :=
  new_student (mkStudent (mkPerson name id_number) major []).

(** [Instructor.__init__(name, id_number, department)] *)
Definition Instructor_init (name id_number department : string) : M loc :=
  new_instructor (mkInstructor (mkPerson name id_number) department).

(** [Course.__init__(course_name, course_id, enrolled_students=None)]: a list
    handed in is kept as it is, not copied. *)
Definition Course_init (course_name course_id : string)
    (enrolled_students : option loc) : M loc :=
  l ← match enrolled_students with
      | Some l => ret l
      | None => new_list []
      end;
  new_course (mkCourse course_name course_id l).

(** [Student.add_course(self, enrol)] *)
Definition Student_add_course (self enrol : loc) : M unit :=
  me ← get_student self;
  e ← get_enrollment enrol;
  es ← get_student (student e);
  if decide (id_number me = id_number es) then
    put_student self
      (mkStudent (Student_super me) (major me)
                 (dict_set (course e) (grade e) (courses me)))
  else ret ().

(** [Course.enrollment(self, enrol)] *)
Definition Course_enrollment (self enrol : loc) : M unit :=
  me ← get_course self;
  e ← get_enrollment enrol;
  ec ← get_course (course e);
  if decide (course_name me = course_name ec) then
    list_append (enrolled_students me) (student e)
  else ret ().

(** [Enrollment.__init__(self, student, course, grade=None)] *)
Definition Enrollment_init (student' course' : loc) (grade' : option string) : M loc :=
  self ← new_enrollment (mkEnrollment student' course' grade');
  me ← get_enrollment self;
  Course_enrollment (course me) self;;
  me ← get_enrollment self;
  Student_add_course (student me) self;;
  ret self.

Definition grade_system : list string := ["A"; "B"; "C"; "D"; "E"; "F"].

(** [Enrollment.assign_grade(self, grade)] *)
Definition Enrollment_assign_grade (self : loc) (grade : string) : M unit :=
  if bool_decide (grade ∈ grade_system) then
    me ← get_enrollment self;
    put_enrollment self (mkEnrollment (student me) (course me) (Some grade));;
    me ← get_enrollment self;
    st ← get_student (student me);
    put_student (student me)
      (mkStudent (Student_super st) (major st)
                 (dict_set (course me) (Some grade) (courses st)))
  else raise (ValueError "Invalid grading system").

(** [Course.add_student(self, student)] *)
Definition Course_add_student (self student : loc) : M unit :=
  me ← get_course self;
  xs ← get_list (enrolled_students me);
  if py_in student xs then
    st ← get_student student;
    me ← get_course self;
    raise (ValueError ("Student ID " +:+ id_number st +:+
                       " is already enrolled in course " +:+ course_name me))
  else
    Enrollment_init student self None;;
    ret ().

(** The [for std in ...: if std.id_number == student_id: return std] loop that
    [Course.find_enrolled_student] and [find_student] share; [None] when the
    loop runs to its end. *)
Fixpoint scan_students (xs : list loc) (student_id : string) : M (option loc) :=
  match xs with
  | [] => ret None
  | std :: rest =>
      s ← get_student std;
      if decide (id_number s = student_id) then ret (Some std)
      else scan_students rest student_id
  end.

(** [Course.find_enrolled_student(self, student_id)]; Python's [None] is [None]. *)
Definition Course_find_enrolled_student (self : loc) (student_id : string)
    : M (option loc) :=
  me ← get_course self;
  xs ← get_list (enrolled_students me);
  scan_students xs student_id.

(** [Course.remove_student(self, student_id)]; a [Student] object is always
    true in [if std_enrolled:], the class has neither [__bool__] nor [__len__]. *)
Definition Course_remove_student (self : loc) (student_id : string) : M unit :=
  std_enrolled ← Course_find_enrolled_student self student_id;
  match std_enrolled with
  | Some std =>
      me ← get_course self;
      list_remove (enrolled_students me) std
  | None => ret ()
  end.

(** [StudentManagementSystem.__init__(self)] *)
Definition SMS_init : M unit :=
  λ σ, Return () (set_sms (λ _, mkSMS [] [] [] []) σ).

Definition get_sms : M StudentManagementSystem := λ σ, Return (sms σ) σ.

(** [StudentManagementSystem.add_student(self, student)] *)
Definition SMS_add_student (student : loc) : M unit :=
  me ← get_sms;
  if negb (py_in student (sms_students me)) then
    λ σ, Return () (set_sms (λ r, mkSMS (sms_students r ++ [student])
                      (sms_instructors r) (sms_courses r) (sms_enrollments r)) σ)
  else ret ().

(** [StudentManagementSystem.find_student(self, student_id)] *)
Definition SMS_find_student (student_id : string) : M loc :=
  me ← get_sms;
  found ← scan_students (sms_students me) student_id;
  match found with
  | Some std => ret std
  | None => raise (ValueError ("No student record found for ID: " +:+ student_id))
  end.

(** [StudentManagementSystem.add_instructor(self, instructor)] *)
Definition SMS_add_instructor (instructor : loc) : M unit :=
  me ← get_sms;
  if negb (py_in instructor (sms_instructors me)) then
    λ σ, Return () (set_sms (λ r, mkSMS (sms_students r)
                      (sms_instructors r ++ [instructor])
                      (sms_courses r) (sms_enrollments r)) σ)
  else ret ().

(** [StudentManagementSystem.add_course(self, course)] *)
Definition SMS_add_course (course : loc) : M unit :=
  me ← get_sms;
  if negb (py_in course (sms_courses me)) then
    λ σ, Return () (set_sms (λ r, mkSMS (sms_students r) (sms_instructors r)
                      (sms_courses r ++ [course]) (sms_enrollments r)) σ)
  else ret ().

(** The loop of [find_course]; [None] when it runs to its end. *)
Fixpoint scan_courses (xs : list loc) (course_id' : string) : M (option loc) :=
  match xs with
  | [] => ret None
  | crs :: rest =>
      c ← get_course crs;
      if decide (course_id c = course_id') then ret (Some crs)
      else scan_courses rest course_id'
  end.

(** [StudentManagementSystem.find_course(self, course_id)] *)
Definition SMS_find_course (course_id' : string) : M loc :=
  me ← get_sms;
  found ← scan_courses (sms_courses me) course_id';
  match found with
  | Some crs => ret crs
  | None => raise (ValueError ("No course record found for ID: " +:+ course_id'))
  end.

(** Evaluating a name that no enclosing scope binds. *)
Definition unbound_name {A} (x : string) : M A :=
  raise (NameError ("name '" +:+ x +:+ "' is not defined")).

(** [StudentManagementSystem.enroll_student(self, student_id, course_id)].
    The argument of [find_course] is the name [crs], as the source has it:
    the method binds [self], [student_id], [course_id] and [student_found],
    the module binds its imports and its six classes, and [crs] is a local
    of [find_course] alone, so the name is unbound here. *)
Definition SMS_enroll_student (student_id course_id : string) : M unit :=
  student_found ← SMS_find_student student_id;
  crs ← unbound_name "crs";
  course_found ← SMS_find_course crs;
  enrol_obj ← Enrollment_init student_found course_found None;
  λ σ, Return () (set_sms (λ r, mkSMS (sms_students r) (sms_instructors r)
                    (sms_courses r) (sms_enrollments r ++ [enrol_obj])) σ).

(** [StudentManagementSystem.students_in_course(self, course_id)]: the
    result is the course's own list object. *)
Definition SMS_students_in_course (course_id : string) : M loc :=
  course_found ← SMS_find_course course_id;
  c ← get_course course_found;
  ret (enrolled_students c).

(** [StudentManagementSystem.student_courses(self, student_id)]: the result
    is a new list, given by value. *)
Definition SMS_student_courses (student_id : string) : M (list loc) :=
  student_found ← SMS_find_student student_id;
  s ← get_student student_found;
  ret (dict_keys (courses s)).

(** ** The remaining methods of the registry *)

Definition put_instructor (l : loc) (i : Instructor) : M unit :=
  λ σ, Return () (set_instructor_objs <[l := i]> σ).
Definition put_course (l : loc) (c : Course) : M unit :=
  λ σ, Return () (set_course_objs <[l := c]> σ).

(** [StudentManagementSystem.remove_student(self, student_id)] *)
Definition SMS_remove_student (student_id : string) : M unit :=
  std ← SMS_find_student student_id;
  me ← get_sms;
  match py_remove std (sms_students me) with
  | Some xs' =>
      λ σ, Return () (set_sms (λ r, mkSMS xs' (sms_instructors r)
                        (sms_courses r) (sms_enrollments r)) σ)
  | None => raise (ValueError "list.remove(x): x not in list")
  end.

(** [StudentManagementSystem.update_student(self, student_id, name=None,
    major=None)] *)
Definition SMS_update_student (student_id : string) (name' major' : option string)
    : M unit :=
  student_found ← SMS_find_student student_id;
  match name' with
  | Some n =>
      st ← get_student student_found;
      put_student student_found
        (mkStudent (mkPerson n (id_number st)) (major st) (courses st))
  | None => ret ()
  end;;
  match major' with
  | Some m =>
      st ← get_student student_found;
      put_student student_found (mkStudent (Student_super st) m (courses st))
  | None => ret ()
  end.

(** The loop of [find_instructor]; [None] when it runs to its end. *)
Fixpoint scan_instructors (xs : list loc) (instructor_id : string)
    : M (option loc) :=
  match xs with
  | [] => ret None
  | inst :: rest =>
      i ← get_instructor inst;
      if decide (id_number i = instructor_id) then ret (Some inst)
      else scan_instructors rest instructor_id
  end.

(** [StudentManagementSystem.find_instructor(self, instructor_id)] *)
Definition SMS_find_instructor (instructor_id : string) : M loc :=
  me ← get_sms;
  found ← scan_instructors (sms_instructors me) instructor_id;
  match found with
  | Some inst => ret inst
  | None =>
      raise (ValueError ("No instructor record found for ID: " +:+ instructor_id))
  end.

(** [StudentManagementSystem.remove_instructor(self, instructor_id)] *)
Definition SMS_remove_instructor (instructor_id : string) : M unit :=
  inst_obj ← SMS_find_instructor instructor_id;
  me ← get_sms;
  match py_remove inst_obj (sms_instructors me) with
  | Some xs' =>
      λ σ, Return () (set_sms (λ r, mkSMS (sms_students r) xs'
                        (sms_courses r) (sms_enrollments r)) σ)
  | None => raise (ValueError "list.remove(x): x not in list")
  end.

(** [StudentManagementSystem.update_instructor(self, instructor_id, name=None,
    department=None)] *)
Definition SMS_update_instructor (instructor_id : string)
    (name' department' : option string) : M unit :=
  instructor_found ← SMS_find_instructor instructor_id;
  match name' with
  | Some n =>
      i ← get_instructor instructor_found;
      put_instructor instructor_found
        (mkInstructor (mkPerson n (id_number i)) (department i))
  | None => ret ()
  end;;
  match department' with
  | Some d =>
      i ← get_instructor instructor_found;
      put_instructor instructor_found (mkInstructor (Instructor_super i) d)
  | None => ret ()
  end.

(** [StudentManagementSystem.remove_course(self, course_id)] *)
Definition SMS_remove_course (course_id : string) : M unit :=
  course_found ← SMS_find_course course_id;
  me ← get_sms;
  match py_remove course_found (sms_courses me) with
  | Some xs' =>
      λ σ, Return () (set_sms (λ r, mkSMS (sms_students r) (sms_instructors r)
                        xs' (sms_enrollments r)) σ)
  | None => raise (ValueError "list.remove(x): x not in list")
  end.

(** [StudentManagementSystem.update_course(self, course_id, course_name=None)] *)
Definition SMS_update_course (course_id' : string) (course_name' : option string)
    : M unit :=
  course_found ← SMS_find_course course_id';
  match course_name' with
  | Some n =>
      c ← get_course course_found;
      put_course course_found (mkCourse n (course_id c) (enrolled_students c))
  | None => ret ()
  end.

(** The loop of [find_enrollment]: [and] looks at the course only when the
    student's ID has matched. *)
Fixpoint scan_enrollments (xs : list loc) (course_id' student_id : string)
    : M (option loc) :=
  match xs with
  | [] => ret None
  | enrol :: rest =>
      e ← get_enrollment enrol;
      st ← get_student (student e);
      if decide (id_number st = student_id) then
        co ← get_course (course e);
        if decide (course_id co = course_id') then ret (Some enrol)
        else scan_enrollments rest course_id' student_id
      else scan_enrollments rest course_id' student_id
  end.

(** [StudentManagementSystem.find_enrollment(self, course_id, student_id)] *)
Definition SMS_find_enrollment (course_id student_id : string) : M loc :=
  me ← get_sms;
  found ← scan_enrollments (sms_enrollments me) course_id student_id;
  match found with
  | Some enrol => ret enrol
  | None =>
      raise (ValueError ("StudentID " +:+ student_id +:+
                         " is not enrolled in courseID " +:+ course_id))
  end.

(** [StudentManagementSystem.assign_grade(self, course_id, student_id, grade)] *)
Definition SMS_assign_grade (course_id student_id grade : string) : M unit :=
  enrollment_found ← SMS_find_enrollment course_id student_id;
  Enrollment_assign_grade enrollment_found grade.

(** ** Vocabulary of the statements *)

(** The ID a reference to a student carries, when it names one. *)
Definition student_id_of (σ : State) (s : loc) : option string :=
  (λ S : Student, id_number S) <$> student_objs σ !! s.

Definition course_id_of (σ : State) (c : loc) : option string :=
  course_id <$> course_objs σ !! c.

(** The IDs along a list of students (of courses), in order. *)
Definition student_ids (σ : State) (xs : list loc) : option (list string) :=
  mapM (student_id_of σ) xs.

Definition course_ids (σ : State) (xs : list loc) : option (list string) :=
  mapM (course_id_of σ) xs.

(** How often [x] occurs in [xs]. *)
Definition occurrences {A} `{EqDecision A} (x : A) (xs : list A) : nat :=
  length (filter (λ y, y = x) xs).


(** A student with the three given strings and no courses yet. *)
Definition a_student (name id_number major : string) : Student :=
  mkStudent (mkPerson name id_number) major [].

(** [x] names a student whose ID is not [sid]. *)
Definition carries_other_id (σ : State) (sid : string) (x : loc) : Prop :=
  ∃ st : Student, student_objs σ !! x = Some st ∧ id_number st ≠ sid.

(** [x] names a course whose ID is not [cid]. *)
Definition course_has_other_id (σ : State) (cid : string) (x : loc) : Prop :=
  ∃ co : Course, course_objs σ !! x = Some co ∧ course_id co ≠ cid.

(** The state [Enrollment.__init__] leaves: the new record, the student at
    the end of the course's list, the course in the student's dictionary. *)
Definition enrolled (σ : State) (s c : loc) (g : option string)
    (S : Student) (C : Course) (xs : list loc) : State :=
  mkState
    (<[s := mkStudent (Student_super S) (major S) (dict_set c g (courses S))]>
       (student_objs σ))
    (instructor_objs σ)
    (course_objs σ)
    (<[fresh (dom (enrollment_objs σ)) := mkEnrollment s c g]> (enrollment_objs σ))
    (<[enrolled_students C := xs ++ [s]]> (list_objs σ))
    (sms σ).

(** The state a method leaves, whether it returns or raises. *)
Definition state_after {A} (m : M A) (σ : State) : State :=
  match m σ with
  | Return _ σ' | Raise _ σ' => σ'
  | Fault => σ
  end.

Definition with_student (s : loc) (r : StudentManagementSystem) :=
  mkSMS (sms_students r ++ [s]) (sms_instructors r) (sms_courses r)
        (sms_enrollments r).
Definition with_instructor (i : loc) (r : StudentManagementSystem) :=
  mkSMS (sms_students r) (sms_instructors r ++ [i]) (sms_courses r)
        (sms_enrollments r).
Definition with_course (c : loc) (r : StudentManagementSystem) :=
  mkSMS (sms_students r) (sms_instructors r) (sms_courses r ++ [c])
        (sms_enrollments r).

(** ** A small campus to run the methods on *)

Definition ada : Student := a_student "Ada" "S1" "CS".
Definition grace : Student := a_student "Grace" "S2" "Maths".
(** Another student object that carries Ada's ID. *)
Definition ada_twin : Student := a_student "Ada B." "S1" "Physics".
Definition algorithms : Course := mkCourse "Algorithms" "C1" 20.

(** Nobody is enrolled, nothing is registered: students 1, 2 and 3, course
    10, whose list is object 20. *)
Definition campus : State :=
  mkState {[1 := ada; 2 := grace; 3 := ada_twin]} ∅ {[10 := algorithms]} ∅
          {[20 := []]} (mkSMS [] [] [] []).

(** The same with [enrolled] in the list of course 10. *)
Definition campus_with (enrolled : list loc) : State :=
  mkState (student_objs campus) ∅ (course_objs campus) ∅
          {[20 := enrolled]} (mkSMS [] [] [] []).

(** Ada is in the course with grade A on her record, and is enrolled again
    with no grade. *)
Definition campus_graded : State :=
  mkState {[1 := mkStudent (mkPerson "Ada" "S1") "CS" [(10, Some "A")]]} ∅
          {[10 := algorithms]} {[0 := mkEnrollment 1 10 (Some "A")]}
          {[20 := [1]]} (mkSMS [] [] [] []).

(** Students 1 and 2, instructor 5 and course 10 are registered. *)
Definition campus_registered : State :=
  mkState (student_objs campus)
          {[5 := mkInstructor (mkPerson "Alan" "I1") "CS"]}
          (course_objs campus) ∅ (list_objs campus)
          (mkSMS [1; 2] [5] [10] []).

(** Ada is enrolled in course 10; students 1 and 2 and the course are
    registered. *)
Definition campus_term : State :=
  mkState {[1 := mkStudent (mkPerson "Ada" "S1") "CS" [(10, None)]; 2 := grace]} ∅
          {[10 := algorithms]} {[0 := mkEnrollment 1 10 None]}
          {[20 := [1]]} (mkSMS [1; 2] [] [10] [0]).

(** No object and an empty registry. *)
Definition nothing : State := mkState ∅ ∅ ∅ ∅ ∅ (mkSMS [] [] [] []).

(** The scenario of the specification: [Student("Ada", "S1", "CS")],
    [Course("Algorithms", "C1")], then [add_student] of the one to the
    other; the result is the two objects. *)
Definition ada_joins_algorithms : M (loc * loc) :=
  a ← Student_init "Ada" "S1" "CS";
  c ← Course_init "Algorithms" "C1" None;
  Course_add_student c a;;
  ret (a, c).

(** Every student's dictionary satisfies its representation invariant. *)
Definition dicts_wf (σ : State) : Prop :=
  ∀ s (st : Student), student_objs σ !! s = Some st → dict_wf (courses st).

(** ** Vocabulary of the further properties *)

(** The registry with its list of students replaced. *)
Definition students_set (xs : list loc) (r : StudentManagementSystem) :=
  mkSMS xs (sms_instructors r) (sms_courses r) (sms_enrollments r).
Definition instructors_set (xs : list loc) (r : StudentManagementSystem) :=
  mkSMS (sms_students r) xs (sms_courses r) (sms_enrollments r).
Definition courses_set (xs : list loc) (r : StudentManagementSystem) :=
  mkSMS (sms_students r) (sms_instructors r) xs (sms_enrollments r).

(** Students 1 and 3, who share the ID S1, and student 2 are registered, in
    the order 2, 1, 3. *)
Definition campus_twins : State :=
  mkState (student_objs campus) ∅ (course_objs campus) ∅ (list_objs campus)
          (mkSMS [2; 1; 3] [] [10] []).

(** What [update_student] makes of a student: the given fields replaced, the
    ID and the dictionary kept. *)
Definition updated_student (n m : option string) (st : Student) : Student :=
  mkStudent (mkPerson (default (name st) n) (id_number st))
            (default (major st) m) (courses st).

Definition updated_instructor (n d : option string) (i : Instructor) : Instructor :=
  mkInstructor (mkPerson (default (name i) n) (id_number i))
               (default (department i) d).

Definition updated_course (n : option string) (c : Course) : Course :=
  mkCourse (default (course_name c) n) (course_id c) (enrolled_students c).

(** [x] names an enrollment that [find_enrollment(cid, sid)] passes over: its
    student does not carry [sid], or its course does not carry [cid]. *)
Definition other_enrollment (σ : State) (cid sid : string) (x : loc) : Prop :=
  ∃ (e : Enrollment) (st : Student),
    enrollment_objs σ !! x = Some e ∧
    student_objs σ !! student e = Some st ∧
    (id_number st ≠ sid ∨
     ∃ co : Course, course_objs σ !! course e = Some co ∧ course_id co ≠ cid).

(** The state [Enrollment.assign_grade] leaves when the grade is valid. *)
Definition graded (σ : State) (e : loc) (g : string)
    (en : Enrollment) (st : Student) : State :=
  mkState
    (<[student en := mkStudent (Student_super st) (major st)
                       (dict_set (course en) (Some g) (courses st))]>
       (student_objs σ))
    (instructor_objs σ)
    (course_objs σ)
    (<[e := mkEnrollment (student en) (course en) (Some g)]> (enrollment_objs σ))
    (list_objs σ)
    (sms σ).

(** Two courses made one after the other, with the list (or no list) given
    to both constructors, and the student enrolled in the first. *)
Definition two_courses (n1 i1 n2 i2 : string) (given : option loc) (s : loc)
    : M (loc * loc) :=
  c1 ← Course_init n1 i1 given;
  c2 ← Course_init n2 i2 given;
  Course_add_student c1 s;;
  ret (c1, c2).

(** [x] names an instructor whose ID is not [iid]. *)
Definition instructor_has_other_id (σ : State) (iid : string) (x : loc) : Prop :=
  ∃ i : Instructor, instructor_objs σ !! x = Some i ∧ id_number i ≠ iid.

(** Instructors 5 and 6 are registered; 7 is not. *)
Definition campus_staff : State :=
  mkState (student_objs campus)
          {[5 := mkInstructor (mkPerson "Alan" "I1") "CS";
            6 := mkInstructor (mkPerson "Emmy" "I2") "Maths";
            7 := mkInstructor (mkPerson "Kurt" "I3") "Logic"]}
          (course_objs campus) ∅ (list_objs campus)
          (mkSMS [] [5; 6] [] []).

(** ** Sequences of calls *)

(** [m] leaves the part [f] of the state as it found it, whether it returns
    or raises. *)
Definition keeps {F A} (f : State → F) (m : M A) : Prop :=
  ∀ σ, match m σ with
       | Return _ σ' | Raise _ σ' => f σ' = f σ
       | Fault => True
       end.

(** A call whose result the caller drops. *)
Definition void {A} (m : M A) : M unit := _ ← m; ret ().

(** The calls a user of the module can make on existing objects: the four
    constructors and every method of the five classes, except the
    [__init__] of the registry and the string conversions. *)
Inductive call :=
  | new_Student (n i m : string)
  | new_Instructor (n i d : string)
  | new_Course (n i : string) (given : option loc)
  | new_Enrollment (s c : loc) (g : option string)
  | call_Student_add_course (s e : loc)
  | call_Course_enrollment (c e : loc)
  | call_Course_add_student (c s : loc)
  | call_Course_find_enrolled_student (c : loc) (sid : string)
  | call_Course_remove_student (c : loc) (sid : string)
  | call_Enrollment_assign_grade (e : loc) (g : string)
  | call_add_student (s : loc)
  | call_find_student (sid : string)
  | call_remove_student (sid : string)
  | call_update_student (sid : string) (n m : option string)
  | call_add_instructor (i : loc)
  | call_find_instructor (iid : string)
  | call_remove_instructor (iid : string)
  | call_update_instructor (iid : string) (n d : option string)
  | call_add_course (c : loc)
  | call_find_course (cid : string)
  | call_remove_course (cid : string)
  | call_update_course (cid : string) (n : option string)
  | call_enroll_student (sid cid : string)
  | call_find_enrollment (cid sid : string)
  | call_assign_grade (cid sid g : string)
  | call_students_in_course (cid : string)
  | call_student_courses (sid : string).

Definition perform (c : call) : M unit :=
  match c with
  | new_Student n i m => void (Student_init n i m)
  | new_Instructor n i d => void (Instructor_init n i d)
  | new_Course n i given => void (Course_init n i given)
  | new_Enrollment s c g => void (Enrollment_init s c g)
  | call_Student_add_course s e => Student_add_course s e
  | call_Course_enrollment c e => Course_enrollment c e
  | call_Course_add_student c s => Course_add_student c s
  | call_Course_find_enrolled_student c sid =>
      void (Course_find_enrolled_student c sid)
  | call_Course_remove_student c sid => Course_remove_student c sid
  | call_Enrollment_assign_grade e g => Enrollment_assign_grade e g
  | call_add_student s => SMS_add_student s
  | call_find_student sid => void (SMS_find_student sid)
  | call_remove_student sid => SMS_remove_student sid
  | call_update_student sid n m => SMS_update_student sid n m
  | call_add_instructor i => SMS_add_instructor i
  | call_find_instructor iid => void (SMS_find_instructor iid)
  | call_remove_instructor iid => SMS_remove_instructor iid
  | call_update_instructor iid n d => SMS_update_instructor iid n d
  | call_add_course c => SMS_add_course c
  | call_find_course cid => void (SMS_find_course cid)
  | call_remove_course cid => SMS_remove_course cid
  | call_update_course cid n => SMS_update_course cid n
  | call_enroll_student sid cid => SMS_enroll_student sid cid
  | call_find_enrollment cid sid => void (SMS_find_enrollment cid sid)
  | call_assign_grade cid sid g => SMS_assign_grade cid sid g
  | call_students_in_course cid => void (SMS_students_in_course cid)
  | call_student_courses sid => void (SMS_student_courses sid)
  end.

(** The calls made one after the other, the caller going on after an
    exception with the state the exception left. *)
Definition perform_all (calls : list call) (σ : State) : State :=
  foldl (λ σ c, state_after (perform c) σ) σ calls.

(** A call other than the three that [Enrollment.__init__] is made of and
    that the module means to be reached through [Course.add_student]. *)
Definition by_the_book (c : call) : bool :=
  match c with
  | new_Enrollment _ _ _ | call_Student_add_course _ _
  | call_Course_enrollment _ _ => false
  | _ => true
  end.

(** No list object holds an element twice. *)
Definition lists_NoDup (σ : State) : Prop :=
  ∀ l xs, list_objs σ !! l = Some xs → NoDup xs.

(** None of the registry's lists of students, instructors and courses holds
    an object twice. *)
Definition registry_NoDup (σ : State) : Prop :=
  NoDup (sms_students (sms σ)) ∧
  NoDup (sms_instructors (sms σ)) ∧
  NoDup (sms_courses (sms σ)).

(** The registry's list of enrollments. *)
Definition registered_enrollments (σ : State) : list loc :=
  sms_enrollments (sms σ).

(** A day of calls on the small campus. *)
Definition busy_day : list call :=
  [call_add_student 1; call_add_student 2; call_add_course 10;
   call_Course_add_student 10 1; call_enroll_student "S1" "C1";
   call_enroll_student "S2" "C1"; call_Course_add_student 10 1;
   call_add_student 1; call_assign_grade "C1" "S1" "A";
   call_Course_remove_student 10 "S1"; call_Course_add_student 10 1;
   call_remove_student "S2"; new_Course "Logic" "C2" None;
   call_update_student "S1" (Some "Ada L.") None].

(** The calls that write to the registry's lists of students, instructors
    and courses. *)
Definition touches_registry (c : call) : bool :=
  match c with
  | call_add_student _ | call_remove_student _
  | call_add_instructor _ | call_remove_instructor _
  | call_add_course _ | call_remove_course _ => true
  | _ => false
  end.

(** The calls that write to a list object or make one. *)
Definition touches_lists (c : call) : bool :=
  match c with
  | new_Course _ _ None | new_Enrollment _ _ _ | call_Student_add_course _ _
  | call_Course_enrollment _ _ | call_Course_add_student _ _
  | call_Course_remove_student _ _ => true
  | _ => false
  end.


(** ** Properties of dictionaries and lists *)

Section PyDict_facts.
Context {K V : Type} `{EqDecision K}.
Implicit Types (d : PyDict K V) (k : K) (v : V).

Lemma dict_get_set d k v : dict_get k (dict_set k v d) = Some v.
Proof.
  induction d as [|[k' v'] r IH]; simpl.
  - by rewrite decide_True.
  - destruct (decide (k' = k)) as [->|Hne]; simpl.
    + by rewrite decide_True.
    + by rewrite decide_False.
Qed.

Lemma dict_get_set_ne d k k' v :
  k' ≠ k → dict_get k' (dict_set k v d) = dict_get k' d.
Proof.
  intros Hne. induction d as [|[k0 v0] r IH]; simpl.
  - by rewrite decide_False.
  - destruct (decide (k0 = k)) as [->|Hk]; simpl.
    + by rewrite !decide_False.
    + destruct (decide (k0 = k')); [done|apply IH].
Qed.

Lemma dict_keys_set_old d k v :
  k ∈ dict_keys d → dict_keys (dict_set k v d) = dict_keys d.
Proof.
  unfold dict_keys. induction d as [|[k' v'] r IH]; simpl.
  - by intros ?%elem_of_nil.
  - intros Hin. destruct (decide (k' = k)) as [->|Hne]; simpl; [done|].
    f_equal. apply IH. apply elem_of_cons in Hin as [?|?]; [congruence|done].
Qed.

Lemma dict_keys_set_new d k v :
  k ∉ dict_keys d → dict_keys (dict_set k v d) = dict_keys d ++ [k].
Proof.
  unfold dict_keys. induction d as [|[k' v'] r IH]; simpl; [done|].
  intros Hin. apply not_elem_of_cons in Hin as [Hne Hin].
  rewrite decide_False by done. simpl. f_equal. by apply IH.
Qed.

Lemma dict_set_key_in d k v : k ∈ dict_keys (dict_set k v d).
Proof.
  destruct (decide (k ∈ dict_keys d)).
  - by rewrite dict_keys_set_old.
  - rewrite dict_keys_set_new by done. set_solver.
Qed.

Lemma dict_set_wf d k v : dict_wf d → dict_wf (dict_set k v d).
Proof.
  unfold dict_wf. intros Hwf. destruct (decide (k ∈ dict_keys d)).
  - by rewrite dict_keys_set_old.
  - rewrite dict_keys_set_new by done.
    apply NoDup_app. split_and!; [done| |apply NoDup_singleton].
    intros x Hx ->%list_elem_of_singleton. done.
Qed.

Lemma dict_wf_empty : dict_wf ([] : PyDict K V).
Proof. apply NoDup_nil_2. Qed.
End PyDict_facts.

Section occurrences_facts.
Context {A : Type} `{EqDecision A}.
Implicit Types (x : A) (xs : list A).

Lemma occurrences_app x xs ys :
  occurrences x (xs ++ ys) = occurrences x xs + occurrences x ys.
Proof. unfold occurrences. by rewrite filter_app, length_app. Qed.

Lemma occurrences_absent x xs : x ∉ xs → occurrences x xs = 0.
Proof.
  unfold occurrences. induction xs as [|y r IH]; [done|].
  intros [Hne Hin]%not_elem_of_cons.
  rewrite filter_cons_False by congruence. by apply IH.
Qed.

Lemma occurrences_present x xs : x ∈ xs → 1 ≤ occurrences x xs.
Proof.
  unfold occurrences. induction xs as [|y r IH]; [by intros ?%elem_of_nil|].
  destruct (decide (y = x)) as [->|Hne].
  - intros _. rewrite filter_cons_True by done. simpl. lia.
  - intros [?|Hin]%elem_of_cons; [congruence|].
    rewrite filter_cons_False by done. by apply IH.
Qed.

Lemma occurrences_single x : occurrences x [x] = 1.
Proof. unfold occurrences. by rewrite filter_cons_True. Qed.

Lemma occurrences_NoDup x xs : NoDup xs → x ∈ xs → occurrences x xs = 1.
Proof.
  induction 1 as [|y r Hy Hr IH]; [by intros ?%elem_of_nil|].
  intros Hin. change (y :: r) with ([y] ++ r). rewrite occurrences_app.
  destruct (decide (y = x)) as [->|Hne].
  - rewrite occurrences_single, (occurrences_absent x r) by done. lia.
  - apply elem_of_cons in Hin as [?|Hin]; [congruence|].
    rewrite IH by done. rewrite (occurrences_absent x [y]); [lia|].
    intros ?%list_elem_of_singleton. congruence.
Qed.
End occurrences_facts.

(** ** Running the methods *)

Lemma bind_Return {A B} (m : M A) (k : A → M B) σ a σ' :
  m σ = Return a σ' → bind m k σ = k a σ'.
Proof. unfold bind. by intros ->. Qed.

Lemma bind_Raise {A B} (m : M A) (k : A → M B) σ e σ' :
  m σ = Raise e σ' → bind m k σ = Raise e σ'.
Proof. unfold bind. by intros ->. Qed.

Lemma deref_Some {A} (store : State → gmap nat A) l σ o :
  store σ !! l = Some o → deref store l σ = Return o σ.
Proof. unfold deref. by intros ->. Qed.

(** One step of a method: the outcome of its first command is known. *)
Ltac mstep H := rewrite (bind_Return _ _ _ _ _ H).
Ltac mread H := rewrite (bind_Return _ _ _ _ _ (deref_Some _ _ _ _ H)).

Lemma Course_enrollment_runs σ c e C E xs :
  course_objs σ !! c = Some C →
  enrollment_objs σ !! e = Some E →
  course E = c →
  list_objs σ !! enrolled_students C = Some xs →
  Course_enrollment c e σ
  = Return () (set_list_objs <[enrolled_students C := xs ++ [student E]]> σ).
Proof.
  intros HC HE <- Hxs. unfold Course_enrollment, get_course, get_enrollment.
  mread HC. mread HE. mread HC. rewrite decide_True by done.
  unfold list_append, get_list. by mread Hxs.
Qed.

Lemma Student_add_course_runs σ s e S E :
  student_objs σ !! s = Some S →
  enrollment_objs σ !! e = Some E →
  student E = s →
  Student_add_course s e σ
  = Return () (set_student_objs
      <[s := mkStudent (Student_super S) (major S)
                       (dict_set (course E) (grade E) (courses S))]> σ).
Proof.
  intros HS HE <-. unfold Student_add_course, get_student, get_enrollment.
  mread HS. mread HE. mread HS. by rewrite decide_True.
Qed.

Lemma Enrollment_init_runs σ s c g S C xs :
  student_objs σ !! s = Some S →
  course_objs σ !! c = Some C →
  list_objs σ !! enrolled_students C = Some xs →
  Enrollment_init s c g σ
  = Return (fresh (dom (enrollment_objs σ))) (enrolled σ s c g S C xs).
Proof.
  intros HS HC Hxs. unfold Enrollment_init.
  set (e := fresh (dom (enrollment_objs σ))).
  set (E := mkEnrollment s c g).
  assert (new_enrollment E σ = Return e (set_enrollment_objs <[e := E]> σ))
    as Hnew by done.
  mstep Hnew.
  assert (enrollment_objs (set_enrollment_objs <[e := E]> σ) !! e = Some E)
    as HE by apply lookup_insert_eq.
  unfold get_enrollment at 1. mread HE.
  set (σ1 := set_enrollment_objs <[e := E]> σ) in *.
  mstep (Course_enrollment_runs σ1 c e C E xs HC HE eq_refl Hxs).
  set (σ2 := set_list_objs _ σ1).
  unfold get_enrollment. mread (HE : enrollment_objs σ2 !! e = Some E).
  by mstep (Student_add_course_runs σ2 s e S E HS HE eq_refl).
Qed.

Lemma Course_add_student_runs σ c s C S xs :
  course_objs σ !! c = Some C →
  list_objs σ !! enrolled_students C = Some xs →
  student_objs σ !! s = Some S →
  s ∉ xs →
  Course_add_student c s σ = Return () (enrolled σ s c None S C xs).
Proof.
  intros HC Hxs HS Hin. unfold Course_add_student.
  unfold get_course, get_list. mread HC. mread Hxs.
  unfold py_in. rewrite bool_decide_eq_false_2 by done.
  by mstep (Enrollment_init_runs _ _ _ None _ _ _ HS HC Hxs).
Qed.

Lemma Course_add_student_raises σ c s (C : Course) (S : Student) xs :
  course_objs σ !! c = Some C →
  list_objs σ !! enrolled_students C = Some xs →
  student_objs σ !! s = Some S →
  s ∈ xs →
  Course_add_student c s σ
  = Raise (ValueError ("Student ID " +:+ id_number S +:+
                       " is already enrolled in course " +:+ course_name C)) σ.
Proof.
  intros HC Hxs HS Hin. unfold Course_add_student.
  unfold get_course, get_list, get_student. mread HC. mread Hxs.
  unfold py_in. rewrite bool_decide_eq_true_2 by done.
  mread HS. by mread HC.
Qed.

(** The invariant of the dictionaries holds at creation and is kept by every
    write the methods make. *)
Lemma dicts_wf_nothing : dicts_wf nothing.
Proof. intros s st Hs. simpl in Hs. by rewrite lookup_empty in Hs. Qed.

Lemma Student_init_dicts_wf σ n i m :
  dicts_wf σ → dicts_wf (state_after (Student_init n i m) σ).
Proof.
  intros Hwf s st. unfold state_after, Student_init, new_student. simpl.
  intros [[_ <-]|[_ Hs]]%lookup_insert_Some; [apply dict_wf_empty|by eapply Hwf].
Qed.

Lemma enrolled_dicts_wf σ s c g (st : Student) (co : Course) xs :
  dicts_wf σ → student_objs σ !! s = Some st →
  dicts_wf (enrolled σ s c g st co xs).
Proof.
  intros Hwf Hs s' st'. simpl.
  intros [[_ <-]|[_ Hs']]%lookup_insert_Some; [|by eapply Hwf].
  simpl. apply dict_set_wf. by eapply Hwf.
Qed.

(** The scenario runs as the specification says: the course lists Ada, and
    Ada's dictionary maps the course to no grade; grading the enrollment
    with A then puts A there. *)
Example ada_joins_algorithms_runs :
  ∃ σ,
    ada_joins_algorithms nothing = Return (0, 0) σ ∧
    list_objs σ !! 0 = Some [0] ∧
    courses <$> student_objs σ !! 0 = Some [(0, None)] ∧
    enrollment_objs σ !! 0 = Some (mkEnrollment 0 0 None) ∧
    courses <$> student_objs (state_after (Enrollment_assign_grade 0 "A") σ) !! 0
    = Some [(0, Some "A")].
Proof. eexists. split; [vm_compute; reflexivity|]. by vm_compute. Qed.

(** ** Enrolling through [Course.add_student] *)

(** C2: when student [s] is not in the list of course [c],
    [c.add_student(s)] returns, and afterwards [s] occurs exactly once in
    [c.enrolled_students] and [c] exactly once among the keys of
    [s.courses]. *)
Theorem Course_add_student_links σ c s (co : Course) (st : Student) xs :
  course_objs σ !! c = Some co →
  list_objs σ !! enrolled_students co = Some xs →
  student_objs σ !! s = Some st →
  dict_wf (courses st) →
  s ∉ xs →
  ∃ σ' xs' (st' : Student),
    Course_add_student c s σ = Return () σ' ∧
    course_objs σ' !! c = Some co ∧
    list_objs σ' !! enrolled_students co = Some xs' ∧
    student_objs σ' !! s = Some st' ∧
    xs' = xs ++ [s] ∧
    occurrences s xs' = 1 ∧
    occurrences c (dict_keys (courses st')) = 1.
Proof.
  intros Hc Hxs Hs Hwf Hnew.
  eexists _, _, _. split; [by apply (Course_add_student_runs σ c s co st xs)|].
  simpl. rewrite !lookup_insert_eq. split_and!; try done.
  - rewrite occurrences_app, occurrences_absent, occurrences_single; done.
  - simpl. apply occurrences_NoDup; [by apply dict_set_wf|apply dict_set_key_in].
Qed.

Lemma Course_add_student_links_witness :
  (course_objs campus !! 10 = Some algorithms ∧
   list_objs campus !! 20 = Some [] ∧
   student_objs campus !! 1 = Some ada ∧
   dict_wf (courses ada) ∧
   1 ∉ ([] : list loc)) ∧
  ∃ σ' xs' (st' : Student),
    Course_add_student 10 1 campus = Return () σ' ∧
    course_objs σ' !! 10 = Some algorithms ∧
    list_objs σ' !! 20 = Some xs' ∧
    student_objs σ' !! 1 = Some st' ∧
    xs' = [] ++ [1] ∧
    occurrences 1 xs' = 1 ∧
    occurrences 10 (dict_keys (courses st')) = 1.
Proof.
  assert (course_objs campus !! 10 = Some algorithms) as H1 by reflexivity.
  assert (list_objs campus !! 20 = Some []) as H2 by reflexivity.
  assert (student_objs campus !! 1 = Some ada) as H3 by reflexivity.
  assert (dict_wf (courses ada)) as H4 by apply dict_wf_empty.
  assert (1 ∉ ([] : list loc)) as H5 by apply not_elem_of_nil.
  split; [done|].
  exact (Course_add_student_links campus 10 1 algorithms ada [] H1 H2 H3 H4 H5).
Defined.

(** C4: when student [s] is already in the list of course [c],
    [c.add_student(s)] raises the duplicate-enrollment [ValueError] and the
    state it leaves is the state it found: the list keeps its length and
    nothing else changes either. *)
Theorem Course_add_student_duplicate σ c s (co : Course) (st : Student) xs :
  course_objs σ !! c = Some co →
  list_objs σ !! enrolled_students co = Some xs →
  student_objs σ !! s = Some st →
  s ∈ xs →
  ∃ σ',
    Course_add_student c s σ
    = Raise (ValueError ("Student ID " +:+ id_number st +:+
                         " is already enrolled in course " +:+ course_name co)) σ' ∧
    σ' = σ ∧
    length <$> list_objs σ' !! enrolled_students co = Some (length xs).
Proof.
  intros Hc Hxs Hs Hin. exists σ. split_and!; [|done|by rewrite Hxs].
  by apply (Course_add_student_raises σ c s co st xs).
Qed.

Lemma Course_add_student_duplicate_witness :
  (course_objs (campus_with [1]) !! 10 = Some algorithms ∧
   list_objs (campus_with [1]) !! 20 = Some [1] ∧
   student_objs (campus_with [1]) !! 1 = Some ada ∧
   1 ∈ [1]) ∧
  ∃ σ',
    Course_add_student 10 1 (campus_with [1])
    = Raise (ValueError "Student ID S1 is already enrolled in course Algorithms") σ' ∧
    σ' = campus_with [1] ∧
    length <$> list_objs σ' !! 20 = Some 1.
Proof.
  assert (course_objs (campus_with [1]) !! 10 = Some algorithms) as H1 by reflexivity.
  assert (list_objs (campus_with [1]) !! 20 = Some [1]) as H2 by reflexivity.
  assert (student_objs (campus_with [1]) !! 1 = Some ada) as H3 by reflexivity.
  assert (1 ∈ [1]) as H4 by apply list_elem_of_here.
  split; [done|].
  exact (Course_add_student_duplicate (campus_with [1]) 10 1 algorithms ada [1]
           H1 H2 H3 H4).
Defined.

(** ** Constructing an [Enrollment] directly *)

(** C9: [Enrollment(s, c, g)] checks nothing: when [s] is already in the list
    of [c], the construction returns, [s] is appended once more (it now
    occurs at least twice), and [s.courses[c]] is [g], whatever grade was
    stored there before. *)
Theorem Enrollment_init_no_duplicate_check σ s c g (st : Student) (co : Course) xs :
  student_objs σ !! s = Some st →
  course_objs σ !! c = Some co →
  list_objs σ !! enrolled_students co = Some xs →
  s ∈ xs →
  ∃ e σ' (st' : Student),
    Enrollment_init s c g σ = Return e σ' ∧
    enrollment_objs σ !! e = None ∧
    enrollment_objs σ' !! e = Some (mkEnrollment s c g) ∧
    list_objs σ' !! enrolled_students co = Some (xs ++ [s]) ∧
    occurrences s (xs ++ [s]) = occurrences s xs + 1 ∧
    2 ≤ occurrences s (xs ++ [s]) ∧
    student_objs σ' !! s = Some st' ∧
    dict_get c (courses st') = Some g.
Proof.
  intros Hs Hc Hxs Hin.
  eexists _, _, _. split; [by apply (Enrollment_init_runs σ s c g st co xs)|].
  simpl. rewrite !lookup_insert_eq.
  pose proof (occurrences_present s xs Hin) as Hocc.
  rewrite occurrences_app, occurrences_single.
  split_and!; try done; try lia.
  - apply not_elem_of_dom, is_fresh.
  - simpl. apply dict_get_set.
Qed.

Lemma Enrollment_init_no_duplicate_check_witness :
  (student_objs campus_graded !! 1
     = Some (mkStudent (mkPerson "Ada" "S1") "CS" [(10, Some "A")]) ∧
   course_objs campus_graded !! 10 = Some algorithms ∧
   list_objs campus_graded !! 20 = Some [1] ∧
   1 ∈ [1]) ∧
  ∃ e σ' (st' : Student),
    Enrollment_init 1 10 None campus_graded = Return e σ' ∧
    enrollment_objs campus_graded !! e = None ∧
    enrollment_objs σ' !! e = Some (mkEnrollment 1 10 None) ∧
    list_objs σ' !! 20 = Some ([1] ++ [1]) ∧
    occurrences 1 ([1] ++ [1]) = occurrences 1 [1] + 1 ∧
    2 ≤ occurrences 1 ([1] ++ [1]) ∧
    student_objs σ' !! 1 = Some st' ∧
    dict_get 10 (courses st') = Some None.
Proof.
  assert (student_objs campus_graded !! 1
          = Some (mkStudent (mkPerson "Ada" "S1") "CS" [(10, Some "A")]))
    as H1 by reflexivity.
  assert (course_objs campus_graded !! 10 = Some algorithms) as H2 by reflexivity.
  assert (list_objs campus_graded !! 20 = Some [1]) as H3 by reflexivity.
  assert (1 ∈ [1]) as H4 by apply list_elem_of_here.
  split; [done|].
  exact (Enrollment_init_no_duplicate_check campus_graded 1 10 None _ algorithms [1]
           H1 H2 H3 H4).
Defined.

(** ** The duplicate check of [Course.add_student] goes by identity *)

(** C10 as stated fails when the second student is in the course already:
    course 10 lists student 3, students 1 and 3 are distinct objects with the
    ID S1, [add_student] of 1 returns, and [add_student] of 3 then raises the
    duplicate-enrollment [ValueError]. *)
Lemma Course_add_student_second_already_enrolled :
  student_objs (campus_with [3]) !! 1 = Some ada ∧
  student_objs (campus_with [3]) !! 3 = Some ada_twin ∧
  1 ≠ 3 ∧
  id_number ada = id_number ada_twin ∧
  ∃ σ1,
    Course_add_student 10 1 (campus_with [3]) = Return () σ1 ∧
    Course_add_student 10 3 σ1
    = Raise (ValueError "Student ID S1 is already enrolled in course Algorithms") σ1.
Proof.
  split_and!; [done..|]. eexists. split; vm_compute; reflexivity.
Qed.

(** C10, amended: for two distinct student objects [s1] and [s2] with one
    ID, and [s2] not yet in the list of course [c]: after [c.add_student(s1)]
    (which returns, or raises because [s1] was in the list already),
    [c.add_student(s2)] returns and appends [s2], so that the list holds both
    [s1] and [s2], which carry the same ID. *)
Theorem Course_add_student_checks_identity σ c (co : Course) xs s1 s2
    (st1 st2 : Student) :
  course_objs σ !! c = Some co →
  list_objs σ !! enrolled_students co = Some xs →
  student_objs σ !! s1 = Some st1 →
  student_objs σ !! s2 = Some st2 →
  s1 ≠ s2 →
  id_number st1 = id_number st2 →
  s2 ∉ xs →
  ∃ σ1 xs1 σ2,
    (Course_add_student c s1 σ = Return () σ1 ∨
     ∃ e, Course_add_student c s1 σ = Raise e σ1) ∧
    list_objs σ1 !! enrolled_students co = Some xs1 ∧
    Course_add_student c s2 σ1 = Return () σ2 ∧
    list_objs σ2 !! enrolled_students co = Some (xs1 ++ [s2]) ∧
    s1 ∈ xs1 ++ [s2] ∧ s2 ∈ xs1 ++ [s2] ∧
    student_id_of σ2 s1 = Some (id_number st1) ∧
    student_id_of σ2 s2 = Some (id_number st1).
Proof.
  intros Hc Hxs Hs1 Hs2 Hne Hid Hnew2.
  destruct (decide (s1 ∈ xs)) as [Hin1|Hnew1].
  - exists σ, xs. eexists. split_and!.
    + right. eexists. by apply (Course_add_student_raises σ c s1 co st1 xs).
    + done.
    + by apply (Course_add_student_runs σ c s2 co st2 xs).
    + simpl. by rewrite lookup_insert_eq.
    + apply elem_of_app. by left.
    + apply elem_of_app. right. apply list_elem_of_here.
    + unfold student_id_of. simpl. rewrite lookup_insert_ne by done.
      by rewrite Hs1.
    + unfold student_id_of. simpl. rewrite lookup_insert_eq. simpl.
      by rewrite Hid.
  - set (σ1 := enrolled σ s1 c None st1 co xs).
    assert (student_objs σ1 !! s2 = Some st2) as Hs2'.
    { simpl. by rewrite lookup_insert_ne. }
    assert (list_objs σ1 !! enrolled_students co = Some (xs ++ [s1])) as Hxs'.
    { simpl. by rewrite lookup_insert_eq. }
    assert (s2 ∉ xs ++ [s1]) as Hnew2'.
    { intros [?|?%list_elem_of_singleton]%elem_of_app; [done|congruence]. }
    exists σ1, (xs ++ [s1]). eexists. split_and!.
    + left. by apply (Course_add_student_runs σ c s1 co st1 xs).
    + done.
    + by apply (Course_add_student_runs σ1 c s2 co st2 (xs ++ [s1])).
    + simpl. by rewrite lookup_insert_eq.
    + apply elem_of_app. left. apply elem_of_app. right. apply list_elem_of_here.
    + apply elem_of_app. right. apply list_elem_of_here.
    + unfold student_id_of. simpl. rewrite lookup_insert_ne by done.
      by rewrite lookup_insert_eq.
    + unfold student_id_of. simpl. rewrite lookup_insert_eq. simpl.
      by rewrite Hid.
Qed.

Lemma Course_add_student_checks_identity_witness :
  (course_objs campus !! 10 = Some algorithms ∧
   list_objs campus !! 20 = Some [] ∧
   student_objs campus !! 1 = Some ada ∧
   student_objs campus !! 3 = Some ada_twin ∧
   1 ≠ 3 ∧
   id_number ada = id_number ada_twin ∧
   3 ∉ ([] : list loc)) ∧
  ∃ σ1 xs1 σ2,
    (Course_add_student 10 1 campus = Return () σ1 ∨
     ∃ e, Course_add_student 10 1 campus = Raise e σ1) ∧
    list_objs σ1 !! 20 = Some xs1 ∧
    Course_add_student 10 3 σ1 = Return () σ2 ∧
    list_objs σ2 !! 20 = Some (xs1 ++ [3]) ∧
    1 ∈ xs1 ++ [3] ∧ 3 ∈ xs1 ++ [3] ∧
    student_id_of σ2 1 = Some "S1" ∧
    student_id_of σ2 3 = Some "S1".
Proof.
  assert (course_objs campus !! 10 = Some algorithms) as H1 by reflexivity.
  assert (list_objs campus !! 20 = Some []) as H2 by reflexivity.
  assert (student_objs campus !! 1 = Some ada) as H3 by reflexivity.
  assert (student_objs campus !! 3 = Some ada_twin) as H4 by reflexivity.
  assert (1 ≠ 3) as H5 by lia.
  assert (id_number ada = id_number ada_twin) as H6 by reflexivity.
  assert (3 ∉ ([] : list loc)) as H7 by apply not_elem_of_nil.
  split; [done|].
  exact (Course_add_student_checks_identity campus 10 algorithms [] 1 3 ada ada_twin
           H1 H2 H3 H4 H5 H6 H7).
Defined.

(** ** Grading *)

(** C3: for an enrollment [e] and a string [g]: when [g] is one of A to F,
    [e.assign_grade(g)] returns and both [e.grade] and
    [e.student.courses[e.course]] are [g]; otherwise it raises the
    invalid-grade [ValueError] and leaves the state, so [e.grade] and
    [e.student.courses] too, as it found it. *)
Theorem Enrollment_assign_grade_spec σ e (en : Enrollment) (st : Student) g :
  enrollment_objs σ !! e = Some en →
  student_objs σ !! student en = Some st →
  (g ∈ ["A"; "B"; "C"; "D"; "E"; "F"] →
   ∃ σ' (en' : Enrollment) (st' : Student),
     Enrollment_assign_grade e g σ = Return () σ' ∧
     enrollment_objs σ' !! e = Some en' ∧
     student en' = student en ∧ course en' = course en ∧
     grade en' = Some g ∧
     student_objs σ' !! student en = Some st' ∧
     dict_get (course en) (courses st') = Some (Some g)) ∧
  (g ∉ ["A"; "B"; "C"; "D"; "E"; "F"] →
   Enrollment_assign_grade e g σ = Raise (ValueError "Invalid grading system") σ).
Proof.
  intros He Hs. split; intros Hg; unfold Enrollment_assign_grade.
  - rewrite bool_decide_eq_true_2 by done.
    unfold get_enrollment. mread He.
    set (en' := mkEnrollment (student en) (course en) (Some g)).
    assert (put_enrollment e en' σ
            = Return () (set_enrollment_objs <[e := en']> σ)) as Hput by done.
    mstep Hput. set (σ1 := set_enrollment_objs _ σ).
    assert (enrollment_objs σ1 !! e = Some en') as He' by apply lookup_insert_eq.
    mread He'. unfold get_student.
    mread (Hs : student_objs σ1 !! student en' = Some st).
    eexists _, en', _. split; [reflexivity|].
    simpl. rewrite !lookup_insert_eq. split_and!; try done.
    simpl. apply dict_get_set.
  - by rewrite bool_decide_eq_false_2.
Qed.

Lemma Enrollment_assign_grade_spec_witness :
  (enrollment_objs campus_graded !! 0 = Some (mkEnrollment 1 10 (Some "A")) ∧
   student_objs campus_graded !! 1
     = Some (mkStudent (mkPerson "Ada" "S1") "CS" [(10, Some "A")]) ∧
   "B" ∈ ["A"; "B"; "C"; "D"; "E"; "F"] ∧
   "Z" ∉ ["A"; "B"; "C"; "D"; "E"; "F"]) ∧
  (∃ σ' (en' : Enrollment) (st' : Student),
     Enrollment_assign_grade 0 "B" campus_graded = Return () σ' ∧
     enrollment_objs σ' !! 0 = Some en' ∧
     student en' = 1 ∧ course en' = 10 ∧
     grade en' = Some "B" ∧
     student_objs σ' !! 1 = Some st' ∧
     dict_get 10 (courses st') = Some (Some "B")) ∧
  Enrollment_assign_grade 0 "Z" campus_graded
  = Raise (ValueError "Invalid grading system") campus_graded.
Proof.
  assert (enrollment_objs campus_graded !! 0 = Some (mkEnrollment 1 10 (Some "A")))
    as H1 by reflexivity.
  assert (student_objs campus_graded !! 1
          = Some (mkStudent (mkPerson "Ada" "S1") "CS" [(10, Some "A")]))
    as H2 by reflexivity.
  assert ("B" ∈ ["A"; "B"; "C"; "D"; "E"; "F"]) as H3 by compute_done.
  assert ("Z" ∉ ["A"; "B"; "C"; "D"; "E"; "F"]) as H4 by compute_done.
  split; [done|].
  split.
  - exact (proj1 (Enrollment_assign_grade_spec campus_graded 0 _ _ "B" H1 H2) H3).
  - exact (proj2 (Enrollment_assign_grade_spec campus_graded 0 _ _ "Z" H1 H2) H4).
Defined.

(** ** Scanning a list for an ID *)

Lemma scan_students_none σ xs sid :
  Forall (carries_other_id σ sid) xs → scan_students xs sid σ = Return None σ.
Proof.
  induction 1 as [|x r (st & Hx & Hne) _ IH]; [done|].
  simpl. unfold get_student. mread Hx. by rewrite decide_False.
Qed.

Lemma scan_students_found σ l1 s l2 (st : Student) sid :
  Forall (carries_other_id σ sid) l1 →
  student_objs σ !! s = Some st →
  id_number st = sid →
  scan_students (l1 ++ s :: l2) sid σ = Return (Some s) σ.
Proof.
  intros Hl1 Hs Hid. induction Hl1 as [|x r (st' & Hx & Hne) _ IH]; simpl.
  - unfold get_student. mread Hs. by rewrite decide_True.
  - unfold get_student. mread Hx. by rewrite decide_False.
Qed.

Lemma scan_courses_none σ xs cid :
  Forall (course_has_other_id σ cid) xs → scan_courses xs cid σ = Return None σ.
Proof.
  induction 1 as [|x r (co & Hx & Hne) _ IH]; [done|].
  simpl. unfold get_course. mread Hx. by rewrite decide_False.
Qed.

Lemma scan_courses_found σ l1 c l2 (co : Course) cid :
  Forall (course_has_other_id σ cid) l1 →
  course_objs σ !! c = Some co →
  course_id co = cid →
  scan_courses (l1 ++ c :: l2) cid σ = Return (Some c) σ.
Proof.
  intros Hl1 Hc Hid. induction Hl1 as [|x r (co' & Hx & Hne) _ IH]; simpl.
  - unfold get_course. mread Hc. by rewrite decide_True.
  - unfold get_course. mread Hx. by rewrite decide_False.
Qed.

(** An ID outside the IDs of a list is carried by none of its students. *)
Lemma student_ids_absent σ xs ids sid :
  student_ids σ xs = Some ids → sid ∉ ids → Forall (carries_other_id σ sid) xs.
Proof.
  unfold student_ids. intros H%mapM_Some_1.
  induction H as [|x i r ids' Hx _ IH]; intros Hsid; [done|].
  apply not_elem_of_cons in Hsid as [Hne Hsid]. constructor; [|by apply IH].
  unfold student_id_of in Hx. destruct (student_objs σ !! x) as [st|] eqn:E; [|done].
  exists st. split; [done|]. simpl in Hx. congruence.
Qed.

(** An ID among the IDs of a list is carried by a first student. *)
Lemma student_ids_present σ xs ids sid :
  student_ids σ xs = Some ids → sid ∈ ids →
  ∃ l1 s l2 (st : Student),
    xs = l1 ++ s :: l2 ∧ Forall (carries_other_id σ sid) l1 ∧
    student_objs σ !! s = Some st ∧ id_number st = sid.
Proof.
  unfold student_ids. intros H%mapM_Some_1.
  induction H as [|x i r ids' Hx _ IH]; intros Hsid; [by apply elem_of_nil in Hsid|].
  unfold student_id_of in Hx. destruct (student_objs σ !! x) as [st|] eqn:E; [|done].
  simpl in Hx. destruct (decide (id_number st = sid)) as [Heq|Hne].
  - exists [], x, r, st. by split_and!.
  - apply elem_of_cons in Hsid as [?|Hsid]; [congruence|].
    destruct (IH Hsid) as (l1 & s & l2 & st' & -> & Hl1 & Hs & Hid).
    exists (x :: l1), s, l2, st'. split_and!; try done.
    constructor; [|done]. by exists st.
Qed.

(** With pairwise distinct IDs, every student of the list is the first one
    with its ID. *)
Lemma student_ids_NoDup σ xs ids s :
  student_ids σ xs = Some ids → NoDup ids → s ∈ xs →
  ∃ l1 l2 (st : Student),
    xs = l1 ++ s :: l2 ∧ student_objs σ !! s = Some st ∧
    Forall (carries_other_id σ (id_number st)) l1.
Proof.
  unfold student_ids. intros H%mapM_Some_1.
  induction H as [|x i r ids' Hx Hr IH]; intros Hnd Hs; [by apply elem_of_nil in Hs|].
  apply NoDup_cons in Hnd as [Hi Hnd].
  unfold student_id_of in Hx. destruct (student_objs σ !! x) as [st|] eqn:E; [|done].
  simpl in Hx. destruct (decide (x = s)) as [->|Hne].
  - exists [], r, st. by split_and!.
  - apply elem_of_cons in Hs as [?|Hs]; [congruence|].
    destruct (IH Hnd Hs) as (l1 & l2 & st' & -> & Hs' & Hl1).
    exists (x :: l1), l2, st'. split_and!; try done.
    constructor; [|done]. exists st. split; [done|].
    intros Heq. apply Hi. injection Hx as <-. rewrite Heq.
    apply Forall2_app_inv_l in Hr as (k1 & k2 & _ & Hk2 & ->).
    apply Forall2_cons_inv_l in Hk2 as (j & k3 & Hj & _ & ->).
    unfold student_id_of in Hj. rewrite Hs' in Hj. injection Hj as <-.
    apply elem_of_app. right. apply list_elem_of_here.
Qed.

Lemma course_ids_absent σ xs ids cid :
  course_ids σ xs = Some ids → cid ∉ ids → Forall (course_has_other_id σ cid) xs.
Proof.
  unfold course_ids. intros H%mapM_Some_1.
  induction H as [|x i r ids' Hx _ IH]; intros Hcid; [done|].
  apply not_elem_of_cons in Hcid as [Hne Hcid]. constructor; [|by apply IH].
  unfold course_id_of in Hx. destruct (course_objs σ !! x) as [co|] eqn:E; [|done].
  exists co. split; [done|]. simpl in Hx. congruence.
Qed.

Lemma py_remove_first x l1 l2 :
  x ∉ l1 → py_remove x (l1 ++ x :: l2) = Some (l1 ++ l2).
Proof.
  induction l1 as [|y r IH]; simpl.
  - by rewrite decide_True.
  - intros [Hne Hin]%not_elem_of_cons. rewrite decide_False by done.
    by rewrite IH.
Qed.

Lemma carries_other_id_not_in σ sid l (s : loc) (st : Student) :
  Forall (carries_other_id σ sid) l →
  student_objs σ !! s = Some st → id_number st = sid → s ∉ l.
Proof.
  intros Hl Hs Hid Hin. rewrite Forall_forall in Hl.
  destruct (Hl s Hin) as (st' & Hs' & Hne). congruence.
Qed.

Lemma Course_find_enrolled_student_found σ c (co : Course) l1 s l2
    (st : Student) sid :
  course_objs σ !! c = Some co →
  list_objs σ !! enrolled_students co = Some (l1 ++ s :: l2) →
  Forall (carries_other_id σ sid) l1 →
  student_objs σ !! s = Some st →
  id_number st = sid →
  Course_find_enrolled_student c sid σ = Return (Some s) σ.
Proof.
  intros Hc Hxs Hl1 Hs Hid.
  unfold Course_find_enrolled_student, get_course, get_list.
  mread Hc. mread Hxs. by apply (scan_students_found σ l1 s l2 st).
Qed.

Lemma Course_find_enrolled_student_none σ c (co : Course) xs sid :
  course_objs σ !! c = Some co →
  list_objs σ !! enrolled_students co = Some xs →
  Forall (carries_other_id σ sid) xs →
  Course_find_enrolled_student c sid σ = Return None σ.
Proof.
  intros Hc Hxs Hall.
  unfold Course_find_enrolled_student, get_course, get_list.
  mread Hc. mread Hxs. by apply scan_students_none.
Qed.

(** ** Removing a student from a course *)

(** C6: [c.remove_student(sid)] returns.  When no student of the list
    carries [sid] the state stays as it is, and the list with it; when one
    does, the first such student is taken out: the course's list is then the
    old one without that entry, one shorter (and, the old list having no
    duplicates, without the student), and every other list object is as it
    was.  Either way the course object, the student objects, with their
    [courses] dictionaries, and the enrollment records are the same as
    before. *)
Theorem Course_remove_student_spec σ c (co : Course) xs ids sid :
  course_objs σ !! c = Some co →
  list_objs σ !! enrolled_students co = Some xs →
  student_ids σ xs = Some ids →
  ∃ σ',
    Course_remove_student c sid σ = Return () σ' ∧
    course_objs σ' !! c = Some co ∧
    student_objs σ' = student_objs σ ∧
    enrollment_objs σ' = enrollment_objs σ ∧
    (∀ l, l ≠ enrolled_students co → list_objs σ' !! l = list_objs σ !! l) ∧
    (sid ∉ ids →
     σ' = σ ∧ list_objs σ' !! enrolled_students co = Some xs) ∧
    (sid ∈ ids →
     ∃ l1 s l2 (st : Student),
       xs = l1 ++ s :: l2 ∧
       Forall (carries_other_id σ sid) l1 ∧
       student_objs σ !! s = Some st ∧ id_number st = sid ∧
       σ' = set_list_objs <[enrolled_students co := l1 ++ l2]> σ ∧
       list_objs σ' !! enrolled_students co = Some (l1 ++ l2) ∧
       length (l1 ++ l2) + 1 = length xs ∧
       (NoDup xs → s ∉ l1 ++ l2)).
Proof.
  intros Hc Hxs Hids. unfold Course_remove_student.
  destruct (decide (sid ∈ ids)) as [Hin|Hout].
  - destruct (student_ids_present σ xs ids sid Hids Hin)
      as (l1 & s & l2 & st & -> & Hl1 & Hs & Hid).
    assert (s ∉ l1) as Hfirst by by eapply carries_other_id_not_in.
    exists (set_list_objs <[enrolled_students co := l1 ++ l2]> σ).
    split_and!; try done.
    + mstep (Course_find_enrolled_student_found σ c co l1 s l2 st sid
               Hc Hxs Hl1 Hs Hid).
      unfold get_course. mread Hc. unfold list_remove, get_list. mread Hxs.
      by rewrite py_remove_first.
    + intros l Hl. simpl. by rewrite lookup_insert_ne.
    + intros _. exists l1, s, l2, st. split_and!; try done.
      * simpl. apply lookup_insert_eq.
      * rewrite !length_app. simpl. lia.
      * intros Hnd Hs'. apply NoDup_app in Hnd as (_ & Hdis & Hnd).
        apply NoDup_cons in Hnd as [Hs2 _].
        apply elem_of_app in Hs' as [?|?]; [|done].
        apply (Hdis s); [done|apply list_elem_of_here].
  - exists σ. split_and!; try done.
    by mstep (Course_find_enrolled_student_none σ c co xs sid Hc Hxs
                (student_ids_absent σ xs ids sid Hids Hout)).
Qed.

Lemma Course_remove_student_spec_witness :
  (course_objs (campus_with [2; 1]) !! 10 = Some algorithms ∧
   list_objs (campus_with [2; 1]) !! 20 = Some [2; 1] ∧
   student_ids (campus_with [2; 1]) [2; 1] = Some ["S2"; "S1"] ∧
   "S1" ∈ ["S2"; "S1"] ∧
   ("S9" ∉ ["S2"; "S1"]) ∧
   NoDup [2; 1]) ∧
  (∃ σ',
     Course_remove_student 10 "S1" (campus_with [2; 1]) = Return () σ' ∧
     course_objs σ' !! 10 = Some algorithms ∧
     student_objs σ' = student_objs (campus_with [2; 1]) ∧
     enrollment_objs σ' = enrollment_objs (campus_with [2; 1]) ∧
     ∃ l1 s l2 (st : Student),
       [2; 1] = l1 ++ s :: l2 ∧
       student_objs (campus_with [2; 1]) !! s = Some st ∧ id_number st = "S1" ∧
       list_objs σ' !! 20 = Some (l1 ++ l2) ∧
       length (l1 ++ l2) + 1 = length [2; 1] ∧
       s ∉ l1 ++ l2) ∧
  (∃ σ',
     Course_remove_student 10 "S9" (campus_with [2; 1]) = Return () σ' ∧
     σ' = campus_with [2; 1] ∧
     list_objs σ' !! 20 = Some [2; 1]).
Proof.
  assert (course_objs (campus_with [2; 1]) !! 10 = Some algorithms) as H1
    by reflexivity.
  assert (list_objs (campus_with [2; 1]) !! 20 = Some [2; 1]) as H2 by reflexivity.
  assert (student_ids (campus_with [2; 1]) [2; 1] = Some ["S2"; "S1"]) as H3
    by reflexivity.
  assert ("S1" ∈ ["S2"; "S1"]) as H4 by compute_done.
  assert ("S9" ∉ ["S2"; "S1"]) as H5 by compute_done.
  assert (NoDup [2; 1]) as H6 by compute_done.
  split; [done|]. split.
  - destruct (Course_remove_student_spec (campus_with [2; 1]) 10 algorithms [2; 1]
                ["S2"; "S1"] "S1" H1 H2 H3)
      as (σ' & Hrun & Hco & Hst & Hen & _ & _ & Hfound).
    destruct (Hfound H4)
      as (l1 & s & l2 & st & Hsplit & _ & Hs & Hid & _ & Hlist & Hlen & Hgone).
    exists σ'. split_and!; try done.
    exists l1, s, l2, st. split_and!; try done. by apply Hgone.
  - destruct (Course_remove_student_spec (campus_with [2; 1]) 10 algorithms [2; 1]
                ["S2"; "S1"] "S9" H1 H2 H3)
      as (σ' & Hrun & _ & _ & _ & _ & Hsame & _).
    destruct (Hsame H5) as [Heq Hlist].
    exists σ'. by split_and!.
Defined.

(** ** The registry: adding and finding *)

Lemma SMS_add_student_present σ s :
  s ∈ sms_students (sms σ) → SMS_add_student s σ = Return () σ.
Proof.
  intros Hin. unfold SMS_add_student, get_sms, bind, py_in.
  by rewrite bool_decide_eq_true_2.
Qed.

Lemma SMS_add_student_new σ s :
  s ∉ sms_students (sms σ) →
  SMS_add_student s σ = Return () (set_sms (with_student s) σ).
Proof.
  intros Hin. unfold SMS_add_student, get_sms, bind, py_in.
  by rewrite bool_decide_eq_false_2.
Qed.

Lemma SMS_add_instructor_present σ i :
  i ∈ sms_instructors (sms σ) → SMS_add_instructor i σ = Return () σ.
Proof.
  intros Hin. unfold SMS_add_instructor, get_sms, bind, py_in.
  by rewrite bool_decide_eq_true_2.
Qed.

Lemma SMS_add_instructor_new σ i :
  i ∉ sms_instructors (sms σ) →
  SMS_add_instructor i σ = Return () (set_sms (with_instructor i) σ).
Proof.
  intros Hin. unfold SMS_add_instructor, get_sms, bind, py_in.
  by rewrite bool_decide_eq_false_2.
Qed.

Lemma SMS_add_course_present σ c :
  c ∈ sms_courses (sms σ) → SMS_add_course c σ = Return () σ.
Proof.
  intros Hin. unfold SMS_add_course, get_sms, bind, py_in.
  by rewrite bool_decide_eq_true_2.
Qed.

Lemma SMS_add_course_new σ c :
  c ∉ sms_courses (sms σ) →
  SMS_add_course c σ = Return () (set_sms (with_course c) σ).
Proof.
  intros Hin. unfold SMS_add_course, get_sms, bind, py_in.
  by rewrite bool_decide_eq_false_2.
Qed.



Lemma SMS_find_student_found σ l1 s l2 (st : Student) sid :
  sms_students (sms σ) = l1 ++ s :: l2 →
  Forall (carries_other_id σ sid) l1 →
  student_objs σ !! s = Some st →
  id_number st = sid →
  SMS_find_student sid σ = Return s σ.
Proof.
  intros Hreg Hl1 Hs Hid. unfold SMS_find_student.
  assert (get_sms σ = Return (sms σ) σ) as Hget by done. mstep Hget.
  rewrite Hreg. by mstep (scan_students_found σ l1 s l2 st sid Hl1 Hs Hid).
Qed.

Lemma SMS_find_student_none σ sid :
  Forall (carries_other_id σ sid) (sms_students (sms σ)) →
  SMS_find_student sid σ
  = Raise (ValueError ("No student record found for ID: " +:+ sid)) σ.
Proof.
  intros Hall. unfold SMS_find_student.
  assert (get_sms σ = Return (sms σ) σ) as Hget by done. mstep Hget.
  by mstep (scan_students_none σ _ sid Hall).
Qed.

Lemma SMS_find_course_found σ l1 c l2 (co : Course) cid :
  sms_courses (sms σ) = l1 ++ c :: l2 →
  Forall (course_has_other_id σ cid) l1 →
  course_objs σ !! c = Some co →
  course_id co = cid →
  SMS_find_course cid σ = Return c σ.
Proof.
  intros Hreg Hl1 Hc Hid. unfold SMS_find_course.
  assert (get_sms σ = Return (sms σ) σ) as Hget by done. mstep Hget.
  rewrite Hreg. by mstep (scan_courses_found σ l1 c l2 co cid Hl1 Hc Hid).
Qed.

Lemma SMS_find_course_none σ cid :
  Forall (course_has_other_id σ cid) (sms_courses (sms σ)) →
  SMS_find_course cid σ
  = Raise (ValueError ("No course record found for ID: " +:+ cid)) σ.
Proof.
  intros Hall. unfold SMS_find_course.
  assert (get_sms σ = Return (sms σ) σ) as Hget by done. mstep Hget.
  by mstep (scan_courses_none σ _ cid Hall).
Qed.




(** C7: [add_student], [add_instructor] and [add_course] of the registry
    never raise; called with an object that is in the collection already
    they return and leave the state, so the collection, as it is; and
    calling one twice with the same object gives what calling it once
    gives. *)
Theorem SMS_add_idempotent σ x :
  (x ∈ sms_students (sms σ) → SMS_add_student x σ = Return () σ) ∧
  (x ∈ sms_instructors (sms σ) → SMS_add_instructor x σ = Return () σ) ∧
  (x ∈ sms_courses (sms σ) → SMS_add_course x σ = Return () σ) ∧
  SMS_add_student x σ = Return () (state_after (SMS_add_student x) σ) ∧
  SMS_add_instructor x σ = Return () (state_after (SMS_add_instructor x) σ) ∧
  SMS_add_course x σ = Return () (state_after (SMS_add_course x) σ) ∧
  (SMS_add_student x;; SMS_add_student x) σ = SMS_add_student x σ ∧
  (SMS_add_instructor x;; SMS_add_instructor x) σ = SMS_add_instructor x σ ∧
  (SMS_add_course x;; SMS_add_course x) σ = SMS_add_course x σ.
Proof.
  split_and!.
  - apply SMS_add_student_present.
  - apply SMS_add_instructor_present.
  - apply SMS_add_course_present.
  - unfold state_after.
    destruct (decide (x ∈ sms_students (sms σ))) as [Hin|Hout].
    + by rewrite SMS_add_student_present.
    + by rewrite SMS_add_student_new.
  - unfold state_after.
    destruct (decide (x ∈ sms_instructors (sms σ))) as [Hin|Hout].
    + by rewrite SMS_add_instructor_present.
    + by rewrite SMS_add_instructor_new.
  - unfold state_after.
    destruct (decide (x ∈ sms_courses (sms σ))) as [Hin|Hout].
    + by rewrite SMS_add_course_present.
    + by rewrite SMS_add_course_new.
  - destruct (decide (x ∈ sms_students (sms σ))) as [Hin|Hout].
    + mstep (SMS_add_student_present σ x Hin). done.
    + mstep (SMS_add_student_new σ x Hout).
      rewrite SMS_add_student_present, SMS_add_student_new; [done..|].
      simpl. apply elem_of_app. right. apply list_elem_of_here.
  - destruct (decide (x ∈ sms_instructors (sms σ))) as [Hin|Hout].
    + mstep (SMS_add_instructor_present σ x Hin). done.
    + mstep (SMS_add_instructor_new σ x Hout).
      rewrite SMS_add_instructor_present, SMS_add_instructor_new; [done..|].
      simpl. apply elem_of_app. right. apply list_elem_of_here.
  - destruct (decide (x ∈ sms_courses (sms σ))) as [Hin|Hout].
    + mstep (SMS_add_course_present σ x Hin). done.
    + mstep (SMS_add_course_new σ x Hout).
      rewrite SMS_add_course_present, SMS_add_course_new; [done..|].
      simpl. apply elem_of_app. right. apply list_elem_of_here.
Qed.

Lemma SMS_add_idempotent_witness :
  (1 ∈ sms_students (sms campus_registered) ∧
   5 ∈ sms_instructors (sms campus_registered) ∧
   10 ∈ sms_courses (sms campus_registered)) ∧
  SMS_add_student 1 campus_registered = Return () campus_registered ∧
  SMS_add_instructor 5 campus_registered = Return () campus_registered ∧
  SMS_add_course 10 campus_registered = Return () campus_registered.
Proof.
  assert (1 ∈ sms_students (sms campus_registered)) as H1 by compute_done.
  assert (5 ∈ sms_instructors (sms campus_registered)) as H2 by compute_done.
  assert (10 ∈ sms_courses (sms campus_registered)) as H3 by compute_done.
  split; [done|].
  split_and!.
  - exact (proj1 (SMS_add_idempotent campus_registered 1) H1).
  - exact (proj1 (proj2 (SMS_add_idempotent campus_registered 5)) H2).
  - exact (proj1 (proj2 (proj2 (SMS_add_idempotent campus_registered 10))) H3).
Defined.

(** ** The relationship queries *)

(** C8: [students_in_course(cid)] returns the [enrolled_students] list of
    the first registered course with the ID [cid], and
    [student_courses(sid)] returns the keys of the [courses] dictionary of
    the first registered student with the ID [sid]; when no registered
    course (student) carries the ID, the query raises the not-found
    [ValueError] of [find_course] ([find_student]) and returns no list. *)
Theorem SMS_relationship_queries σ :
  (∀ cid l1 c l2 (co : Course),
     sms_courses (sms σ) = l1 ++ c :: l2 →
     Forall (course_has_other_id σ cid) l1 →
     course_objs σ !! c = Some co →
     course_id co = cid →
     SMS_students_in_course cid σ = Return (enrolled_students co) σ) ∧
  (∀ sid l1 s l2 (st : Student),
     sms_students (sms σ) = l1 ++ s :: l2 →
     Forall (carries_other_id σ sid) l1 →
     student_objs σ !! s = Some st →
     id_number st = sid →
     SMS_student_courses sid σ = Return (dict_keys (courses st)) σ) ∧
  (∀ cid ids,
     course_ids σ (sms_courses (sms σ)) = Some ids →
     cid ∉ ids →
     SMS_students_in_course cid σ
     = Raise (ValueError ("No course record found for ID: " +:+ cid)) σ) ∧
  (∀ sid ids,
     student_ids σ (sms_students (sms σ)) = Some ids →
     sid ∉ ids →
     SMS_student_courses sid σ
     = Raise (ValueError ("No student record found for ID: " +:+ sid)) σ).
Proof.
  split_and!.
  - intros cid l1 c l2 co Hreg Hl1 Hc Hid. unfold SMS_students_in_course.
    mstep (SMS_find_course_found σ l1 c l2 co cid Hreg Hl1 Hc Hid).
    unfold get_course. by mread Hc.
  - intros sid l1 s l2 st Hreg Hl1 Hs Hid. unfold SMS_student_courses.
    mstep (SMS_find_student_found σ l1 s l2 st sid Hreg Hl1 Hs Hid).
    unfold get_student. by mread Hs.
  - intros cid ids Hids Hcid. unfold SMS_students_in_course.
    apply bind_Raise, SMS_find_course_none. by apply (course_ids_absent σ _ ids).
  - intros sid ids Hids Hsid. unfold SMS_student_courses.
    apply bind_Raise, SMS_find_student_none. by apply (student_ids_absent σ _ ids).
Qed.

Lemma SMS_relationship_queries_witness :
  (sms_courses (sms campus_term) = [] ++ [10] ∧
   Forall (course_has_other_id campus_term "C1") [] ∧
   course_objs campus_term !! 10 = Some algorithms ∧
   course_id algorithms = "C1" ∧
   sms_students (sms campus_term) = [] ++ [1; 2] ∧
   Forall (carries_other_id campus_term "S1") [] ∧
   student_objs campus_term !! 1
     = Some (mkStudent (mkPerson "Ada" "S1") "CS" [(10, None)]) ∧
   course_ids campus_term (sms_courses (sms campus_term)) = Some ["C1"] ∧
   ("C9" ∉ ["C1"]) ∧
   student_ids campus_term (sms_students (sms campus_term)) = Some ["S1"; "S2"] ∧
   "S9" ∉ ["S1"; "S2"]) ∧
  SMS_students_in_course "C1" campus_term = Return 20 campus_term ∧
  list_objs campus_term !! 20 = Some [1] ∧
  SMS_student_courses "S1" campus_term = Return [10] campus_term ∧
  SMS_students_in_course "C9" campus_term
  = Raise (ValueError "No course record found for ID: C9") campus_term ∧
  SMS_student_courses "S9" campus_term
  = Raise (ValueError "No student record found for ID: S9") campus_term.
Proof.
  assert (sms_courses (sms campus_term) = [] ++ [10]) as H1 by reflexivity.
  assert (Forall (course_has_other_id campus_term "C1") []) as H2 by constructor.
  assert (course_objs campus_term !! 10 = Some algorithms) as H3 by reflexivity.
  assert (course_id algorithms = "C1") as H4 by reflexivity.
  assert (sms_students (sms campus_term) = [] ++ [1; 2]) as H5 by reflexivity.
  assert (Forall (carries_other_id campus_term "S1") []) as H6 by constructor.
  assert (student_objs campus_term !! 1
          = Some (mkStudent (mkPerson "Ada" "S1") "CS" [(10, None)]))
    as H7 by reflexivity.
  assert (course_ids campus_term (sms_courses (sms campus_term)) = Some ["C1"])
    as H8 by reflexivity.
  assert ("C9" ∉ ["C1"]) as H9 by compute_done.
  assert (student_ids campus_term (sms_students (sms campus_term))
          = Some ["S1"; "S2"]) as H10 by reflexivity.
  assert ("S9" ∉ ["S1"; "S2"]) as H11 by compute_done.
  split; [by split_and!|].
  destruct (SMS_relationship_queries campus_term) as (Hsic & Hsc & Hnoc & Hnos).
  split_and!.
  - exact (Hsic "C1" [] 10 [] algorithms H1 H2 H3 H4).
  - reflexivity.
  - exact (Hsc "S1" [] 1 [2] _ H5 H6 H7 eq_refl).
  - exact (Hnoc "C9" ["C1"] H8 H9).
  - exact (Hnos "S9" ["S1"; "S2"] H10 H11).
Defined.

(** ** Enrolling through the registry *)

(** Scanning reads the state and leaves it as it is. *)
Lemma scan_students_pure xs sid σ :
  (∃ r, scan_students xs sid σ = Return r σ) ∨ scan_students xs sid σ = Fault.
Proof.
  induction xs as [|x rest IH]; simpl.
  - left. by exists None.
  - unfold bind, get_student, deref. destruct (student_objs σ !! x) as [st|]; [|by right].
    destruct (decide (id_number st = sid)); [|done].
    left. by exists (Some x).
Qed.

Lemma SMS_find_student_pure sid σ :
  (∃ s, SMS_find_student sid σ = Return s σ) ∨
  (∃ e, SMS_find_student sid σ = Raise e σ) ∨
  SMS_find_student sid σ = Fault.
Proof.
  unfold SMS_find_student.
  assert (get_sms σ = Return (sms σ) σ) as Hget by done. mstep Hget.
  destruct (scan_students_pure (sms_students (sms σ)) sid σ) as [[r Hr]|Hf].
  - mstep Hr. destruct r as [s|]; [left; by exists s|right; left; by eexists].
  - right. right. unfold bind. by rewrite Hf.
Qed.

(** When the student resolves, the call stops at the unbound name. *)
Lemma SMS_enroll_student_NameError σ sid cid s :
  SMS_find_student sid σ = Return s σ →
  SMS_enroll_student sid cid σ = Raise (NameError "name 'crs' is not defined") σ.
Proof. intros Hs. unfold SMS_enroll_student. by mstep Hs. Qed.

(** C1, as the code has it: [enroll_student] never returns and never changes
    the state, on any registry and any two IDs; and on the registry where
    student S1 and course C1 both resolve it raises [NameError], with the
    enrollment list as empty as before. *)
Theorem SMS_enroll_student_never_enrolls :
  (∀ σ sid cid,
     (∃ e, SMS_enroll_student sid cid σ = Raise e σ) ∨
     SMS_enroll_student sid cid σ = Fault) ∧
  SMS_find_student "S1" campus_registered = Return 1 campus_registered ∧
  SMS_find_course "C1" campus_registered = Return 10 campus_registered ∧
  SMS_enroll_student "S1" "C1" campus_registered
  = Raise (NameError "name 'crs' is not defined") campus_registered ∧
  sms_enrollments (sms campus_registered) = [].
Proof.
  split_and!; try (vm_compute; reflexivity).
  intros σ sid cid.
  destruct (SMS_find_student_pure sid σ) as [[s Hs]|[[e He]|Hf]].
  - left. eexists. by apply (SMS_enroll_student_NameError σ sid cid s).
  - left. exists e. by apply bind_Raise.
  - right. unfold SMS_enroll_student, bind. by rewrite Hf.
Qed.

(** ** Further properties: looking up and removing by ID *)

Lemma student_ids_app σ l1 l2 ids :
  student_ids σ (l1 ++ l2) = Some ids →
  ∃ i1 i2, ids = i1 ++ i2 ∧ student_ids σ l1 = Some i1 ∧ student_ids σ l2 = Some i2.
Proof.
  unfold student_ids. intros H%mapM_Some_1.
  apply Forall2_app_inv_l in H as (i1 & i2 & H1 & H2 & ->).
  exists i1, i2. split_and!; [done|by apply mapM_Some_2..].
Qed.

Lemma student_ids_cons σ s l ids :
  student_ids σ (s :: l) = Some ids →
  ∃ i il, ids = i :: il ∧ student_id_of σ s = Some i ∧ student_ids σ l = Some il.
Proof.
  unfold student_ids. intros H%mapM_Some_1.
  apply Forall2_cons_inv_l in H as (i & il & Hi & Hl & ->).
  exists i, il. split_and!; [done..|by apply mapM_Some_2].
Qed.

Lemma student_ids_app_2 σ l1 l2 i1 i2 :
  student_ids σ l1 = Some i1 → student_ids σ l2 = Some i2 →
  student_ids σ (l1 ++ l2) = Some (i1 ++ i2).
Proof.
  unfold student_ids. intros H1%mapM_Some_1 H2%mapM_Some_1.
  apply mapM_Some_2. by apply Forall2_app.
Qed.

(** The IDs along a list depend on the student objects alone. *)
Lemma student_ids_ext σ σ' xs :
  student_objs σ' = student_objs σ → student_ids σ' xs = student_ids σ xs.
Proof. intros H. unfold student_ids, student_id_of. by rewrite H. Qed.

Lemma carries_other_id_ext σ σ' sid xs :
  student_objs σ' = student_objs σ →
  Forall (carries_other_id σ sid) xs → Forall (carries_other_id σ' sid) xs.
Proof.
  intros H Hall. eapply Forall_impl; [exact Hall|].
  intros x (st & Hx & Hne). exists st. by rewrite H.
Qed.

(** X1: [Course.find_enrolled_student] raises nothing and writes nothing:
    it returns [None] when no student of the course's list carries the ID,
    and otherwise the first student of the list that does. *)
Theorem Course_find_enrolled_student_spec σ c (co : Course) xs ids sid :
  course_objs σ !! c = Some co →
  list_objs σ !! enrolled_students co = Some xs →
  student_ids σ xs = Some ids →
  (sid ∉ ids → Course_find_enrolled_student c sid σ = Return None σ) ∧
  (sid ∈ ids →
   ∃ l1 s l2 (st : Student),
     xs = l1 ++ s :: l2 ∧
     Forall (carries_other_id σ sid) l1 ∧
     student_objs σ !! s = Some st ∧ id_number st = sid ∧
     Course_find_enrolled_student c sid σ = Return (Some s) σ).
Proof.
  intros Hc Hxs Hids. split; intros Hsid.
  - apply (Course_find_enrolled_student_none σ c co xs sid Hc Hxs).
    by apply (student_ids_absent σ xs ids).
  - destruct (student_ids_present σ xs ids sid Hids Hsid)
      as (l1 & s & l2 & st & -> & Hl1 & Hs & Hid).
    exists l1, s, l2, st. split_and!; try done.
    by apply (Course_find_enrolled_student_found σ c co l1 s l2 st).
Qed.

Lemma Course_find_enrolled_student_spec_witness :
  (course_objs (campus_with [2; 1; 3]) !! 10 = Some algorithms ∧
   list_objs (campus_with [2; 1; 3]) !! 20 = Some [2; 1; 3] ∧
   student_ids (campus_with [2; 1; 3]) [2; 1; 3] = Some ["S2"; "S1"; "S1"] ∧
   ("S9" ∉ ["S2"; "S1"; "S1"]) ∧
   "S1" ∈ ["S2"; "S1"; "S1"]) ∧
  Course_find_enrolled_student 10 "S9" (campus_with [2; 1; 3])
  = Return None (campus_with [2; 1; 3]) ∧
  ∃ l1 s l2,
    [2; 1; 3] = l1 ++ s :: l2 ∧
    Forall (carries_other_id (campus_with [2; 1; 3]) "S1") l1 ∧
    Course_find_enrolled_student 10 "S1" (campus_with [2; 1; 3])
    = Return (Some s) (campus_with [2; 1; 3]).
Proof.
  assert (course_objs (campus_with [2; 1; 3]) !! 10 = Some algorithms) as H1
    by reflexivity.
  assert (list_objs (campus_with [2; 1; 3]) !! 20 = Some [2; 1; 3]) as H2
    by reflexivity.
  assert (student_ids (campus_with [2; 1; 3]) [2; 1; 3]
          = Some ["S2"; "S1"; "S1"]) as H3 by reflexivity.
  assert ("S9" ∉ ["S2"; "S1"; "S1"]) as H4 by compute_done.
  assert ("S1" ∈ ["S2"; "S1"; "S1"]) as H5 by compute_done.
  split; [done|].
  destruct (Course_find_enrolled_student_spec (campus_with [2; 1; 3]) 10 algorithms
              [2; 1; 3] ["S2"; "S1"; "S1"] "S9" H1 H2 H3) as [Hnone _].
  destruct (Course_find_enrolled_student_spec (campus_with [2; 1; 3]) 10 algorithms
              [2; 1; 3] ["S2"; "S1"; "S1"] "S1" H1 H2 H3) as [_ Hsome].
  split; [exact (Hnone H4)|].
  destruct (Hsome H5) as (l1 & s & l2 & st & Hsplit & Hl1 & _ & _ & Hrun).
  by exists l1, s, l2.
Defined.

Lemma SMS_remove_student_found σ l1 s l2 (st : Student) sid :
  sms_students (sms σ) = l1 ++ s :: l2 →
  Forall (carries_other_id σ sid) l1 →
  student_objs σ !! s = Some st →
  id_number st = sid →
  SMS_remove_student sid σ = Return () (set_sms (students_set (l1 ++ l2)) σ).
Proof.
  intros Hreg Hl1 Hs Hid. unfold SMS_remove_student.
  mstep (SMS_find_student_found σ l1 s l2 st sid Hreg Hl1 Hs Hid).
  assert (get_sms σ = Return (sms σ) σ) as Hget by done. mstep Hget.
  rewrite Hreg, py_remove_first; [done|].
  by eapply carries_other_id_not_in.
Qed.

(** X2: [remove_student] of the registry raises the not-found [ValueError]
    of [find_student], with the state untouched, when no registered student
    carries the ID; otherwise it returns and takes the first registered
    student with the ID out of the registry's list of students.  It removes
    no record with it: the registry's other three lists, the student
    objects with their [courses] dictionaries, the course objects and the
    enrollment records stay as they are. *)
Theorem SMS_remove_student_spec σ ids sid :
  student_ids σ (sms_students (sms σ)) = Some ids →
  (sid ∉ ids →
   SMS_remove_student sid σ
   = Raise (ValueError ("No student record found for ID: " +:+ sid)) σ) ∧
  (sid ∈ ids →
   ∃ l1 s l2 (st : Student) σ',
     sms_students (sms σ) = l1 ++ s :: l2 ∧
     Forall (carries_other_id σ sid) l1 ∧
     student_objs σ !! s = Some st ∧ id_number st = sid ∧
     SMS_remove_student sid σ = Return () σ' ∧
     sms_students (sms σ') = l1 ++ l2 ∧
     sms σ' = students_set (l1 ++ l2) (sms σ) ∧
     student_objs σ' = student_objs σ ∧
     course_objs σ' = course_objs σ ∧
     enrollment_objs σ' = enrollment_objs σ).
Proof.
  intros Hids. split; intros Hsid.
  - unfold SMS_remove_student. apply bind_Raise, SMS_find_student_none.
    by apply (student_ids_absent σ _ ids).
  - destruct (student_ids_present σ _ ids sid Hids Hsid)
      as (l1 & s & l2 & st & Hreg & Hl1 & Hs & Hid).
    exists l1, s, l2, st, (set_sms (students_set (l1 ++ l2)) σ).
    split_and!; try done.
    by apply (SMS_remove_student_found σ l1 s l2 st).
Qed.

Lemma SMS_remove_student_spec_witness :
  (student_ids campus_term (sms_students (sms campus_term)) = Some ["S1"; "S2"] ∧
   ("S9" ∉ ["S1"; "S2"]) ∧
   "S1" ∈ ["S1"; "S2"]) ∧
  SMS_remove_student "S9" campus_term
  = Raise (ValueError "No student record found for ID: S9") campus_term ∧
  ∃ l1 s l2 σ',
    sms_students (sms campus_term) = l1 ++ s :: l2 ∧
    SMS_remove_student "S1" campus_term = Return () σ' ∧
    sms_students (sms σ') = l1 ++ l2 ∧
    sms_enrollments (sms σ') = [0] ∧
    student_objs σ' = student_objs campus_term ∧
    enrollment_objs σ' = enrollment_objs campus_term.
Proof.
  assert (student_ids campus_term (sms_students (sms campus_term))
          = Some ["S1"; "S2"]) as H1 by reflexivity.
  assert ("S9" ∉ ["S1"; "S2"]) as H2 by compute_done.
  assert ("S1" ∈ ["S1"; "S2"]) as H3 by compute_done.
  split; [done|].
  destruct (SMS_remove_student_spec campus_term ["S1"; "S2"] "S9" H1)
    as [Hnone _].
  destruct (SMS_remove_student_spec campus_term ["S1"; "S2"] "S1" H1)
    as [_ Hsome].
  split; [exact (Hnone H2)|].
  destruct (Hsome H3)
    as (l1 & s & l2 & st & σ' & Hreg & _ & _ & _ & Hrun & Hlist & Hsms & Hst & _ & Hen).
  exists l1, s, l2, σ'. split_and!; try done. by rewrite Hsms.
Defined.

(** X3: in a registry whose students carry pairwise distinct IDs,
    [remove_student(sid)] of a registered ID returns, after it
    [find_student(sid)] raises the not-found [ValueError], and every other
    registered student is still found by its own ID. *)
Theorem SMS_remove_student_then_find σ ids sid :
  student_ids σ (sms_students (sms σ)) = Some ids →
  NoDup ids →
  sid ∈ ids →
  let σ' := state_after (SMS_remove_student sid) σ in
  SMS_remove_student sid σ = Return () σ' ∧
  SMS_find_student sid σ'
  = Raise (ValueError ("No student record found for ID: " +:+ sid)) σ' ∧
  (∀ s (st : Student),
     s ∈ sms_students (sms σ) →
     student_objs σ !! s = Some st →
     id_number st ≠ sid →
     SMS_find_student (id_number st) σ' = Return s σ').
Proof.
  intros Hids Hnd Hsid σ'. subst σ'. unfold state_after.
  destruct (student_ids_present σ _ ids sid Hids Hsid)
    as (l1 & s & l2 & st & Hreg & Hl1 & Hs & Hid).
  rewrite (SMS_remove_student_found σ l1 s l2 st sid Hreg Hl1 Hs Hid).
  set (σ' := set_sms (students_set (l1 ++ l2)) σ).
  rewrite Hreg in Hids.
  apply student_ids_app in Hids as (i1 & i2' & -> & Hi1 & Hi2').
  apply student_ids_cons in Hi2' as (i & i2 & -> & Hi & Hi2).
  assert (i = sid) as ->.
  { unfold student_id_of in Hi. rewrite Hs in Hi. simpl in Hi. congruence. }
  apply NoDup_app in Hnd as (Hnd1 & Hdis & Hnd2).
  apply NoDup_cons in Hnd2 as [Hsid2 Hnd2].
  assert (sid ∉ i1) as Hsid1.
  { intros Hin. apply (Hdis sid Hin), list_elem_of_here. }
  assert (student_ids σ' (l1 ++ l2) = Some (i1 ++ i2)) as Hids'.
  { rewrite (student_ids_ext σ σ') by done. by apply student_ids_app_2. }
  assert (NoDup (i1 ++ i2)) as Hnd'.
  { apply NoDup_app. split_and!; [done| |done].
    intros x Hx1 Hx2. apply (Hdis x Hx1). by apply list_elem_of_further. }
  split_and!; [done| |].
  - apply SMS_find_student_none. simpl.
    apply (student_ids_absent σ' _ (i1 ++ i2)); [done|].
    intros [?|?]%elem_of_app; done.
  - intros s' st' Hin Hs' Hne.
    assert (s' ∈ l1 ++ l2) as Hin'.
    { rewrite Hreg in Hin. apply elem_of_app in Hin as [?|Hin].
      - apply elem_of_app. by left.
      - apply elem_of_cons in Hin as [->|?]; [congruence|].
        apply elem_of_app. by right. }
    destruct (student_ids_NoDup σ' (l1 ++ l2) (i1 ++ i2) s' Hids' Hnd' Hin')
      as (k1 & k2 & st'' & Hsplit & Hst'' & Hk1).
    assert (st'' = st') as -> by (simpl in Hst''; congruence).
    by apply (SMS_find_student_found σ' k1 s' k2 st').
Qed.

Lemma SMS_remove_student_then_find_witness :
  (student_ids campus_registered (sms_students (sms campus_registered))
   = Some ["S1"; "S2"] ∧
   NoDup ["S1"; "S2"] ∧
   "S1" ∈ ["S1"; "S2"] ∧
   2 ∈ sms_students (sms campus_registered) ∧
   student_objs campus_registered !! 2 = Some grace ∧
   id_number grace ≠ "S1") ∧
  SMS_remove_student "S1" campus_registered
  = Return () (state_after (SMS_remove_student "S1") campus_registered) ∧
  SMS_find_student "S1" (state_after (SMS_remove_student "S1") campus_registered)
  = Raise (ValueError "No student record found for ID: S1")
          (state_after (SMS_remove_student "S1") campus_registered) ∧
  SMS_find_student "S2" (state_after (SMS_remove_student "S1") campus_registered)
  = Return 2 (state_after (SMS_remove_student "S1") campus_registered).
Proof.
  assert (student_ids campus_registered (sms_students (sms campus_registered))
          = Some ["S1"; "S2"]) as H1 by reflexivity.
  assert (NoDup ["S1"; "S2"]) as H2 by compute_done.
  assert ("S1" ∈ ["S1"; "S2"]) as H3 by compute_done.
  assert (2 ∈ sms_students (sms campus_registered)) as H4 by compute_done.
  assert (student_objs campus_registered !! 2 = Some grace) as H5 by reflexivity.
  assert (id_number grace ≠ "S1") as H6 by compute_done.
  split; [done|].
  destruct (SMS_remove_student_then_find campus_registered ["S1"; "S2"] "S1"
              H1 H2 H3) as (Hrun & Hgone & Hrest).
  split_and!; [exact Hrun|exact Hgone|exact (Hrest 2 grace H4 H5 H6)].
Defined.

(** X4: IDs need not be unique in the registry.  When two registered
    students carry the ID, [find_student] returns the one that comes first;
    [remove_student] takes that one out of the list and leaves the other,
    which [find_student] returns from then on. *)
Theorem SMS_find_student_shared_id σ l1 s1 l2 s2 l3 (st1 st2 : Student) sid :
  sms_students (sms σ) = l1 ++ s1 :: l2 ++ s2 :: l3 →
  Forall (carries_other_id σ sid) l1 →
  Forall (carries_other_id σ sid) l2 →
  student_objs σ !! s1 = Some st1 → id_number st1 = sid →
  student_objs σ !! s2 = Some st2 → id_number st2 = sid →
  SMS_find_student sid σ = Return s1 σ ∧
  ∃ σ',
    SMS_remove_student sid σ = Return () σ' ∧
    sms_students (sms σ') = l1 ++ l2 ++ s2 :: l3 ∧
    SMS_find_student sid σ' = Return s2 σ'.
Proof.
  intros Hreg Hl1 Hl2 Hs1 Hid1 Hs2 Hid2. split.
  - by apply (SMS_find_student_found σ l1 s1 (l2 ++ s2 :: l3) st1).
  - exists (set_sms (students_set (l1 ++ l2 ++ s2 :: l3)) σ). split_and!.
    + by apply (SMS_remove_student_found σ l1 s1 (l2 ++ s2 :: l3) st1).
    + done.
    + apply (SMS_find_student_found _ (l1 ++ l2) s2 l3 st2); try done.
      * simpl. by rewrite <- app_assoc.
      * apply Forall_app. split; by eapply carries_other_id_ext.
Qed.

Lemma SMS_find_student_shared_id_witness :
  (sms_students (sms campus_twins) = [2] ++ 1 :: [] ++ 3 :: [] ∧
   Forall (carries_other_id campus_twins "S1") [2] ∧
   Forall (carries_other_id campus_twins "S1") [] ∧
   student_objs campus_twins !! 1 = Some ada ∧ id_number ada = "S1" ∧
   student_objs campus_twins !! 3 = Some ada_twin ∧ id_number ada_twin = "S1") ∧
  SMS_find_student "S1" campus_twins = Return 1 campus_twins ∧
  ∃ σ',
    SMS_remove_student "S1" campus_twins = Return () σ' ∧
    sms_students (sms σ') = [2] ++ [] ++ 3 :: [] ∧
    SMS_find_student "S1" σ' = Return 3 σ'.
Proof.
  assert (sms_students (sms campus_twins) = [2] ++ 1 :: [] ++ 3 :: []) as H1
    by reflexivity.
  assert (Forall (carries_other_id campus_twins "S1") [2]) as H2.
  { constructor; [|constructor]. exists grace. split; [reflexivity|compute_done]. }
  assert (Forall (carries_other_id campus_twins "S1") []) as H3 by constructor.
  assert (student_objs campus_twins !! 1 = Some ada) as H4 by reflexivity.
  assert (id_number ada = "S1") as H5 by reflexivity.
  assert (student_objs campus_twins !! 3 = Some ada_twin) as H6 by reflexivity.
  assert (id_number ada_twin = "S1") as H7 by reflexivity.
  split; [done|].
  exact (SMS_find_student_shared_id campus_twins [2] 1 [] 3 [] ada ada_twin "S1"
           H1 H2 H3 H4 H5 H6 H7).
Defined.

(** ** Further properties: updating a student *)

Lemma SMS_update_student_found σ l1 s l2 (st : Student) sid n m :
  sms_students (sms σ) = l1 ++ s :: l2 →
  Forall (carries_other_id σ sid) l1 →
  student_objs σ !! s = Some st →
  id_number st = sid →
  ∃ σ',
    SMS_update_student sid n m σ = Return () σ' ∧
    student_objs σ' = <[s := updated_student n m st]> (student_objs σ) ∧
    instructor_objs σ' = instructor_objs σ ∧
    course_objs σ' = course_objs σ ∧
    enrollment_objs σ' = enrollment_objs σ ∧
    list_objs σ' = list_objs σ ∧
    sms σ' = sms σ ∧
    (n = None → m = None → σ' = σ).
Proof.
  intros Hreg Hl1 Hs Hid. unfold SMS_update_student.
  mstep (SMS_find_student_found σ l1 s l2 st sid Hreg Hl1 Hs Hid).
  destruct st as [[nm idn] mj cs].
  destruct n as [n|], m as [m|].
  - eexists. split.
    + unfold bind, get_student, deref, put_student, ret. simpl. rewrite Hs. simpl.
      rewrite lookup_insert_eq. reflexivity.
    + simpl. rewrite insert_insert_eq. split_and!; try done; intros; discriminate.
  - eexists. split.
    + unfold bind, get_student, deref, put_student, ret. simpl. rewrite Hs.
      reflexivity.
    + simpl. split_and!; try done; intros; discriminate.
  - eexists. split.
    + unfold bind, get_student, deref, put_student, ret. simpl. rewrite Hs.
      reflexivity.
    + simpl. split_and!; try done; intros; discriminate.
  - exists σ. split; [done|]. split_and!; try done.
    by rewrite insert_id.
Qed.

(** X5: [update_student] raises the not-found [ValueError] of
    [find_student], writing nothing, when no registered student carries the
    ID.  Otherwise it returns and changes the first registered student with
    the ID, and nothing else: the name and the major become the values
    given, a field not given keeps its value, the ID and the [courses]
    dictionary stay, and with neither field given the state is untouched. *)
Theorem SMS_update_student_spec σ ids sid n m :
  student_ids σ (sms_students (sms σ)) = Some ids →
  (sid ∉ ids →
   SMS_update_student sid n m σ
   = Raise (ValueError ("No student record found for ID: " +:+ sid)) σ) ∧
  (sid ∈ ids →
   ∃ l1 s l2 (st : Student) σ',
     sms_students (sms σ) = l1 ++ s :: l2 ∧
     Forall (carries_other_id σ sid) l1 ∧
     student_objs σ !! s = Some st ∧ id_number st = sid ∧
     SMS_update_student sid n m σ = Return () σ' ∧
     student_objs σ' = <[s := updated_student n m st]> (student_objs σ) ∧
     instructor_objs σ' = instructor_objs σ ∧
     course_objs σ' = course_objs σ ∧
     enrollment_objs σ' = enrollment_objs σ ∧
     list_objs σ' = list_objs σ ∧
     sms σ' = sms σ ∧
     (n = None → m = None → σ' = σ)).
Proof.
  intros Hids. split; intros Hsid.
  - unfold SMS_update_student. apply bind_Raise, SMS_find_student_none.
    by apply (student_ids_absent σ _ ids).
  - destruct (student_ids_present σ _ ids sid Hids Hsid)
      as (l1 & s & l2 & st & Hreg & Hl1 & Hs & Hid).
    destruct (SMS_update_student_found σ l1 s l2 st sid n m Hreg Hl1 Hs Hid)
      as (σ' & H).
    by exists l1, s, l2, st, σ'.
Qed.

Lemma SMS_update_student_spec_witness :
  (student_ids campus_term (sms_students (sms campus_term)) = Some ["S1"; "S2"] ∧
   ("S9" ∉ ["S1"; "S2"]) ∧
   "S1" ∈ ["S1"; "S2"]) ∧
  SMS_update_student "S9" (Some "Eve") None campus_term
  = Raise (ValueError "No student record found for ID: S9") campus_term ∧
  ∃ s (st : Student) σ',
    student_objs campus_term !! s = Some st ∧ id_number st = "S1" ∧
    SMS_update_student "S1" None (Some "Maths") campus_term = Return () σ' ∧
    student_objs σ'
    = <[s := updated_student None (Some "Maths") st]> (student_objs campus_term) ∧
    list_objs σ' = list_objs campus_term ∧
    sms σ' = sms campus_term.
Proof.
  assert (student_ids campus_term (sms_students (sms campus_term))
          = Some ["S1"; "S2"]) as H1 by reflexivity.
  assert ("S9" ∉ ["S1"; "S2"]) as H2 by compute_done.
  assert ("S1" ∈ ["S1"; "S2"]) as H3 by compute_done.
  split; [done|].
  destruct (SMS_update_student_spec campus_term ["S1"; "S2"] "S9" (Some "Eve") None H1)
    as [Hnone _].
  destruct (SMS_update_student_spec campus_term ["S1"; "S2"] "S1" None (Some "Maths") H1)
    as [_ Hsome].
  split; [exact (Hnone H2)|].
  destruct (Hsome H3)
    as (l1 & s & l2 & st & σ' & _ & _ & Hs & Hid & Hrun & Hobjs & _ & _ & _ & Hl & Hsms & _).
  by exists s, st, σ'.
Defined.

(** A scan sees the student objects through their IDs only. *)
Lemma scan_students_same_ids σ σ' xs sid r :
  (∀ x, student_id_of σ' x = student_id_of σ x) →
  scan_students xs sid σ = Return r σ →
  scan_students xs sid σ' = Return r σ'.
Proof.
  intros Hsame. induction xs as [|x rest IH]; simpl.
  - unfold ret. by intros [= <-].
  - unfold bind, get_student, deref. specialize (Hsame x).
    unfold student_id_of in Hsame.
    destruct (student_objs σ !! x) as [st|]; [|done].
    destruct (student_objs σ' !! x) as [st'|]; [|done].
    simpl in Hsame. injection Hsame as Hsame. rewrite Hsame.
    destruct (decide (id_number st = sid)); [|exact IH].
    unfold ret. by intros [= <-].
Qed.

Lemma SMS_find_student_same_ids σ σ' sid :
  (∀ x, student_id_of σ' x = student_id_of σ x) →
  sms σ' = sms σ →
  (∀ r, SMS_find_student sid σ = Return r σ → SMS_find_student sid σ' = Return r σ') ∧
  (∀ e, SMS_find_student sid σ = Raise e σ → SMS_find_student sid σ' = Raise e σ').
Proof.
  intros Hids Hsms. unfold SMS_find_student.
  assert (get_sms σ = Return (sms σ) σ) as Hget by done.
  assert (get_sms σ' = Return (sms σ) σ') as Hget'.
  { unfold get_sms. by rewrite Hsms. }
  mstep Hget. mstep Hget'.
  destruct (scan_students_pure (sms_students (sms σ)) sid σ) as [[r Hr]|Hf].
  - mstep Hr. mstep (scan_students_same_ids σ σ' _ sid r Hids Hr).
    destruct r as [s|]; split; intros ?; unfold ret, raise; congruence.
  - unfold bind at 1 3. rewrite Hf. by split.
Qed.

(** X6: [update_student] cannot change an ID: whatever its arguments and
    whether it returns or raises, every student carries afterwards the ID it
    carried before, the registry's lists are the same, and [find_student]
    of any ID returns, or raises, exactly what it did before. *)
Theorem SMS_update_student_keeps_ids σ ids sid n m :
  student_ids σ (sms_students (sms σ)) = Some ids →
  let σ' := state_after (SMS_update_student sid n m) σ in
  sms σ' = sms σ ∧
  (∀ x, student_id_of σ' x = student_id_of σ x) ∧
  (∀ sid' r, SMS_find_student sid' σ = Return r σ →
             SMS_find_student sid' σ' = Return r σ') ∧
  (∀ sid' e, SMS_find_student sid' σ = Raise e σ →
             SMS_find_student sid' σ' = Raise e σ').
Proof.
  intros Hids σ'.
  assert (sms σ' = sms σ ∧ ∀ x, student_id_of σ' x = student_id_of σ x)
    as [Hsms Hsame].
  { subst σ'. unfold state_after. destruct (decide (sid ∈ ids)) as [Hin|Hout].
    - destruct (student_ids_present σ _ ids sid Hids Hin)
        as (l1 & s & l2 & st & Hreg & Hl1 & Hs & Hid).
      destruct (SMS_update_student_found σ l1 s l2 st sid n m Hreg Hl1 Hs Hid)
        as (σ1 & -> & Hobjs & _ & _ & _ & _ & Hsms & _).
      split; [done|]. intros x. unfold student_id_of. rewrite Hobjs.
      destruct (decide (s = x)) as [<-|Hne].
      + by rewrite lookup_insert_eq, Hs.
      + by rewrite lookup_insert_ne.
    - unfold SMS_update_student.
      rewrite (bind_Raise _ _ _ _ _
                 (SMS_find_student_none σ sid
                    (student_ids_absent σ _ ids sid Hids Hout))).
      done. }
  split_and!; [done..| |].
  - intros sid'. by apply SMS_find_student_same_ids.
  - intros sid'. by apply SMS_find_student_same_ids.
Qed.

Lemma SMS_update_student_keeps_ids_witness :
  (student_ids campus_term (sms_students (sms campus_term)) = Some ["S1"; "S2"] ∧
   SMS_find_student "S1" campus_term = Return 1 campus_term) ∧
  SMS_find_student "S1"
    (state_after (SMS_update_student "S1" (Some "Ada L.") (Some "Maths")) campus_term)
  = Return 1
    (state_after (SMS_update_student "S1" (Some "Ada L.") (Some "Maths")) campus_term).
Proof.
  assert (student_ids campus_term (sms_students (sms campus_term))
          = Some ["S1"; "S2"]) as H1 by reflexivity.
  assert (SMS_find_student "S1" campus_term = Return 1 campus_term) as H2
    by reflexivity.
  split; [done|].
  destruct (SMS_update_student_keeps_ids campus_term ["S1"; "S2"] "S1"
              (Some "Ada L.") (Some "Maths") H1) as (_ & _ & Hfind & _).
  exact (Hfind "S1" 1 H2).
Defined.

(** ** Further properties: removing and renaming a course *)

Lemma course_ids_present σ xs ids cid :
  course_ids σ xs = Some ids → cid ∈ ids →
  ∃ l1 c l2 (co : Course),
    xs = l1 ++ c :: l2 ∧ Forall (course_has_other_id σ cid) l1 ∧
    course_objs σ !! c = Some co ∧ course_id co = cid.
Proof.
  unfold course_ids. intros H%mapM_Some_1.
  induction H as [|x i r ids' Hx _ IH]; intros Hcid; [by apply elem_of_nil in Hcid|].
  unfold course_id_of in Hx. destruct (course_objs σ !! x) as [co|] eqn:E; [|done].
  simpl in Hx. destruct (decide (course_id co = cid)) as [Heq|Hne].
  - exists [], x, r, co. by split_and!.
  - apply elem_of_cons in Hcid as [?|Hcid]; [congruence|].
    destruct (IH Hcid) as (l1 & c & l2 & co' & -> & Hl1 & Hc & Hid).
    exists (x :: l1), c, l2, co'. split_and!; try done.
    constructor; [|done]. by exists co.
Qed.

Lemma course_has_other_id_not_in σ cid l (c : loc) (co : Course) :
  Forall (course_has_other_id σ cid) l →
  course_objs σ !! c = Some co → course_id co = cid → c ∉ l.
Proof.
  intros Hl Hc Hid Hin. rewrite Forall_forall in Hl.
  destruct (Hl c Hin) as (co' & Hc' & Hne). congruence.
Qed.

Lemma SMS_remove_course_found σ l1 c l2 (co : Course) cid :
  sms_courses (sms σ) = l1 ++ c :: l2 →
  Forall (course_has_other_id σ cid) l1 →
  course_objs σ !! c = Some co →
  course_id co = cid →
  SMS_remove_course cid σ = Return () (set_sms (courses_set (l1 ++ l2)) σ).
Proof.
  intros Hreg Hl1 Hc Hid. unfold SMS_remove_course.
  mstep (SMS_find_course_found σ l1 c l2 co cid Hreg Hl1 Hc Hid).
  assert (get_sms σ = Return (sms σ) σ) as Hget by done. mstep Hget.
  rewrite Hreg, py_remove_first; [done|].
  by eapply course_has_other_id_not_in.
Qed.

(** X7: [remove_course] raises the not-found [ValueError] of [find_course],
    writing nothing, when no registered course carries the ID.  Otherwise it
    returns and takes the first registered course with the ID out of the
    registry's list, without any cascade: the course object, its list of
    students, every student's [courses] dictionary and every enrollment
    record stay as they are; and when no later registered course carries
    the ID, [students_in_course] of it raises from then on. *)
Theorem SMS_remove_course_spec σ ids cid :
  course_ids σ (sms_courses (sms σ)) = Some ids →
  (cid ∉ ids →
   SMS_remove_course cid σ
   = Raise (ValueError ("No course record found for ID: " +:+ cid)) σ) ∧
  (cid ∈ ids →
   ∃ l1 c l2 (co : Course) σ',
     sms_courses (sms σ) = l1 ++ c :: l2 ∧
     Forall (course_has_other_id σ cid) l1 ∧
     course_objs σ !! c = Some co ∧ course_id co = cid ∧
     SMS_remove_course cid σ = Return () σ' ∧
     sms σ' = courses_set (l1 ++ l2) (sms σ) ∧
     student_objs σ' = student_objs σ ∧
     course_objs σ' = course_objs σ ∧
     list_objs σ' = list_objs σ ∧
     enrollment_objs σ' = enrollment_objs σ ∧
     (Forall (course_has_other_id σ cid) l2 →
      SMS_students_in_course cid σ'
      = Raise (ValueError ("No course record found for ID: " +:+ cid)) σ')).
Proof.
  intros Hids. split; intros Hcid.
  - unfold SMS_remove_course. apply bind_Raise, SMS_find_course_none.
    by apply (course_ids_absent σ _ ids).
  - destruct (course_ids_present σ _ ids cid Hids Hcid)
      as (l1 & c & l2 & co & Hreg & Hl1 & Hc & Hid).
    exists l1, c, l2, co, (set_sms (courses_set (l1 ++ l2)) σ).
    split_and!; try done.
    + by apply (SMS_remove_course_found σ l1 c l2 co).
    + intros Hl2. unfold SMS_students_in_course.
      apply bind_Raise, SMS_find_course_none. simpl.
      apply Forall_app. by split.
Qed.

Lemma SMS_remove_course_spec_witness :
  (course_ids campus_term (sms_courses (sms campus_term)) = Some ["C1"] ∧
   ("C9" ∉ ["C1"]) ∧
   "C1" ∈ ["C1"]) ∧
  SMS_remove_course "C9" campus_term
  = Raise (ValueError "No course record found for ID: C9") campus_term ∧
  ∃ σ',
    SMS_remove_course "C1" campus_term = Return () σ' ∧
    student_objs σ' = student_objs campus_term ∧
    list_objs σ' = list_objs campus_term ∧
    enrollment_objs σ' = enrollment_objs campus_term.
Proof.
  assert (course_ids campus_term (sms_courses (sms campus_term)) = Some ["C1"])
    as H1 by reflexivity.
  assert ("C9" ∉ ["C1"]) as H2 by compute_done.
  assert ("C1" ∈ ["C1"]) as H3 by compute_done.
  split; [done|].
  destruct (SMS_remove_course_spec campus_term ["C1"] "C9" H1) as [Hnone _].
  destruct (SMS_remove_course_spec campus_term ["C1"] "C1" H1) as [_ Hsome].
  split; [exact (Hnone H2)|].
  destruct (Hsome H3)
    as (l1 & c & l2 & co & σ' & _ & _ & _ & _ & Hrun & _ & Hst & _ & Hl & Hen & _).
  by exists σ'.
Defined.

Lemma SMS_update_course_found σ l1 c l2 (co : Course) cid n :
  sms_courses (sms σ) = l1 ++ c :: l2 →
  Forall (course_has_other_id σ cid) l1 →
  course_objs σ !! c = Some co →
  course_id co = cid →
  ∃ σ',
    SMS_update_course cid n σ = Return () σ' ∧
    course_objs σ' = <[c := updated_course n co]> (course_objs σ) ∧
    student_objs σ' = student_objs σ ∧
    instructor_objs σ' = instructor_objs σ ∧
    enrollment_objs σ' = enrollment_objs σ ∧
    list_objs σ' = list_objs σ ∧
    sms σ' = sms σ ∧
    (n = None → σ' = σ).
Proof.
  intros Hreg Hl1 Hc Hid. unfold SMS_update_course.
  mstep (SMS_find_course_found σ l1 c l2 co cid Hreg Hl1 Hc Hid).
  destruct co as [cn ci cl]. destruct n as [n|].
  - eexists. split.
    + unfold get_course. mread Hc. reflexivity.
    + simpl. split_and!; try done.
  - exists σ. split; [done|]. split_and!; try done. by rewrite insert_id.
Qed.

(** X8: [update_course] raises the not-found [ValueError] of [find_course],
    writing nothing, when no registered course carries the ID.  Otherwise it
    returns and gives the first registered course with the ID its new name,
    and nothing else changes: the course keeps its ID and its list of
    students, so [students_in_course] of the ID returns the same list object
    as before; with no name given the state is untouched. *)
Theorem SMS_update_course_spec σ ids cid n :
  course_ids σ (sms_courses (sms σ)) = Some ids →
  (cid ∉ ids →
   SMS_update_course cid n σ
   = Raise (ValueError ("No course record found for ID: " +:+ cid)) σ) ∧
  (cid ∈ ids →
   ∃ l1 c l2 (co : Course) σ',
     sms_courses (sms σ) = l1 ++ c :: l2 ∧
     Forall (course_has_other_id σ cid) l1 ∧
     course_objs σ !! c = Some co ∧ course_id co = cid ∧
     SMS_update_course cid n σ = Return () σ' ∧
     course_objs σ' = <[c := updated_course n co]> (course_objs σ) ∧
     student_objs σ' = student_objs σ ∧
     instructor_objs σ' = instructor_objs σ ∧
     enrollment_objs σ' = enrollment_objs σ ∧
     list_objs σ' = list_objs σ ∧
     sms σ' = sms σ ∧
     (n = None → σ' = σ) ∧
     SMS_students_in_course cid σ = Return (enrolled_students co) σ ∧
     SMS_students_in_course cid σ' = Return (enrolled_students co) σ').
Proof.
  intros Hids. split; intros Hcid.
  - unfold SMS_update_course. apply bind_Raise, SMS_find_course_none.
    by apply (course_ids_absent σ _ ids).
  - destruct (course_ids_present σ _ ids cid Hids Hcid)
      as (l1 & c & l2 & co & Hreg & Hl1 & Hc & Hid).
    destruct (SMS_update_course_found σ l1 c l2 co cid n Hreg Hl1 Hc Hid)
      as (σ' & Hrun & Hco & Hst & Hin & Hen & Hl & Hsms & Hnone).
    exists l1, c, l2, co, σ'. split_and!; try done.
    + unfold SMS_students_in_course.
      mstep (SMS_find_course_found σ l1 c l2 co cid Hreg Hl1 Hc Hid).
      unfold get_course. by mread Hc.
    + assert (course_objs σ' !! c = Some (updated_course n co)) as Hc'.
      { rewrite Hco. apply lookup_insert_eq. }
      assert (Forall (course_has_other_id σ' cid) l1) as Hl1'.
      { apply Forall_forall. intros x Hx.
        rewrite Forall_forall in Hl1. destruct (Hl1 x Hx) as (co' & Hx' & Hne).
        exists co'. split; [|done]. rewrite Hco, lookup_insert_ne; [done|].
        intros ->. congruence. }
      unfold SMS_students_in_course.
      rewrite <- Hsms in Hreg.
      mstep (SMS_find_course_found σ' l1 c l2 _ cid Hreg Hl1' Hc' Hid).
      unfold get_course. by mread Hc'.
Qed.

Lemma SMS_update_course_spec_witness :
  (course_ids campus_term (sms_courses (sms campus_term)) = Some ["C1"] ∧
   ("C9" ∉ ["C1"]) ∧
   "C1" ∈ ["C1"]) ∧
  SMS_update_course "C9" (Some "Logic") campus_term
  = Raise (ValueError "No course record found for ID: C9") campus_term ∧
  ∃ c (co : Course) σ',
    course_objs campus_term !! c = Some co ∧
    SMS_update_course "C1" (Some "Logic") campus_term = Return () σ' ∧
    course_objs σ' = <[c := updated_course (Some "Logic") co]> (course_objs campus_term) ∧
    SMS_students_in_course "C1" σ' = Return (enrolled_students co) σ'.
Proof.
  assert (course_ids campus_term (sms_courses (sms campus_term)) = Some ["C1"])
    as H1 by reflexivity.
  assert ("C9" ∉ ["C1"]) as H2 by compute_done.
  assert ("C1" ∈ ["C1"]) as H3 by compute_done.
  split; [done|].
  destruct (SMS_update_course_spec campus_term ["C1"] "C9" (Some "Logic") H1)
    as [Hnone _].
  destruct (SMS_update_course_spec campus_term ["C1"] "C1" (Some "Logic") H1)
    as [_ Hsome].
  split; [exact (Hnone H2)|].
  destruct (Hsome H3)
    as (l1 & c & l2 & co & σ' & _ & _ & Hc & _ & Hrun & Hco & _ & _ & _ & _ & _ & _
        & _ & Hquery).
  by exists c, co, σ'.
Defined.

(** ** Further properties: grading through the registry *)

Lemma Enrollment_assign_grade_runs σ e (en : Enrollment) (st : Student) g :
  enrollment_objs σ !! e = Some en →
  student_objs σ !! student en = Some st →
  g ∈ grade_system →
  Enrollment_assign_grade e g σ = Return () (graded σ e g en st).
Proof.
  intros He Hs Hg. unfold Enrollment_assign_grade.
  rewrite bool_decide_eq_true_2 by done.
  unfold get_enrollment. mread He.
  set (en' := mkEnrollment (student en) (course en) (Some g)).
  assert (put_enrollment e en' σ
          = Return () (set_enrollment_objs <[e := en']> σ)) as Hput by done.
  mstep Hput. set (σ1 := set_enrollment_objs _ σ).
  assert (enrollment_objs σ1 !! e = Some en') as He' by apply lookup_insert_eq.
  mread He'. unfold get_student.
  by mread (Hs : student_objs σ1 !! student en' = Some st).
Qed.

Lemma Enrollment_assign_grade_invalid σ e g :
  g ∉ grade_system →
  Enrollment_assign_grade e g σ = Raise (ValueError "Invalid grading system") σ.
Proof.
  intros Hg. unfold Enrollment_assign_grade. by rewrite bool_decide_eq_false_2.
Qed.

Lemma scan_enrollments_none σ xs cid sid :
  Forall (other_enrollment σ cid sid) xs →
  scan_enrollments xs cid sid σ = Return None σ.
Proof.
  induction 1 as [|x r (e & st & He & Hs & Hother) _ IH]; [done|].
  simpl. unfold get_enrollment, get_student. mread He. mread Hs.
  destruct (decide (id_number st = sid)) as [Heq|Hne]; [|done].
  destruct Hother as [?|(co & Hc & Hne)]; [done|].
  unfold get_course. mread Hc. by rewrite decide_False.
Qed.

Lemma scan_enrollments_found σ l1 x l2 (e : Enrollment) (st : Student)
    (co : Course) cid sid :
  Forall (other_enrollment σ cid sid) l1 →
  enrollment_objs σ !! x = Some e →
  student_objs σ !! student e = Some st → id_number st = sid →
  course_objs σ !! course e = Some co → course_id co = cid →
  scan_enrollments (l1 ++ x :: l2) cid sid σ = Return (Some x) σ.
Proof.
  intros Hl1 He Hs Hsid Hc Hcid.
  induction Hl1 as [|y r (e' & st' & He' & Hs' & Hother) _ IH]; simpl.
  - unfold get_enrollment, get_student, get_course.
    mread He. mread Hs. rewrite decide_True by done. mread Hc.
    by rewrite decide_True.
  - unfold get_enrollment, get_student. mread He'. mread Hs'.
    destruct (decide (id_number st' = sid)) as [Heq|Hne]; [|done].
    destruct Hother as [?|(co' & Hc' & Hne)]; [done|].
    unfold get_course. mread Hc'. by rewrite decide_False.
Qed.

Lemma SMS_find_enrollment_none σ cid sid :
  Forall (other_enrollment σ cid sid) (sms_enrollments (sms σ)) →
  SMS_find_enrollment cid sid σ
  = Raise (ValueError ("StudentID " +:+ sid +:+
                       " is not enrolled in courseID " +:+ cid)) σ.
Proof.
  intros Hall. unfold SMS_find_enrollment.
  assert (get_sms σ = Return (sms σ) σ) as Hget by done. mstep Hget.
  by mstep (scan_enrollments_none σ _ cid sid Hall).
Qed.

Lemma SMS_find_enrollment_found σ l1 x l2 (e : Enrollment) (st : Student)
    (co : Course) cid sid :
  sms_enrollments (sms σ) = l1 ++ x :: l2 →
  Forall (other_enrollment σ cid sid) l1 →
  enrollment_objs σ !! x = Some e →
  student_objs σ !! student e = Some st → id_number st = sid →
  course_objs σ !! course e = Some co → course_id co = cid →
  SMS_find_enrollment cid sid σ = Return x σ.
Proof.
  intros Hreg Hl1 He Hs Hsid Hc Hcid. unfold SMS_find_enrollment.
  assert (get_sms σ = Return (sms σ) σ) as Hget by done. mstep Hget.
  rewrite Hreg.
  by mstep (scan_enrollments_found σ l1 x l2 e st co cid sid Hl1 He Hs Hsid Hc Hcid).
Qed.

(** X9: [find_enrollment(cid, sid)] writes nothing; it returns the first
    enrollment of the registry's list whose student carries [sid] and whose
    course carries [cid], and raises the not-enrolled [ValueError], naming
    both IDs, when the list has none. *)
Theorem SMS_find_enrollment_spec σ cid sid :
  (Forall (other_enrollment σ cid sid) (sms_enrollments (sms σ)) →
   SMS_find_enrollment cid sid σ
   = Raise (ValueError ("StudentID " +:+ sid +:+
                        " is not enrolled in courseID " +:+ cid)) σ) ∧
  (∀ l1 x l2 (e : Enrollment) (st : Student) (co : Course),
     sms_enrollments (sms σ) = l1 ++ x :: l2 →
     Forall (other_enrollment σ cid sid) l1 →
     enrollment_objs σ !! x = Some e →
     student_objs σ !! student e = Some st → id_number st = sid →
     course_objs σ !! course e = Some co → course_id co = cid →
     SMS_find_enrollment cid sid σ = Return x σ).
Proof.
  split.
  - apply SMS_find_enrollment_none.
  - intros l1 x l2 e st co. apply SMS_find_enrollment_found.
Qed.

Lemma SMS_find_enrollment_spec_witness :
  (Forall (other_enrollment campus_registered "C1" "S1")
          (sms_enrollments (sms campus_registered)) ∧
   sms_enrollments (sms campus_term) = [] ++ 0 :: [] ∧
   Forall (other_enrollment campus_term "C1" "S1") [] ∧
   enrollment_objs campus_term !! 0 = Some (mkEnrollment 1 10 None) ∧
   student_objs campus_term !! 1
     = Some (mkStudent (mkPerson "Ada" "S1") "CS" [(10, None)]) ∧
   course_objs campus_term !! 10 = Some algorithms) ∧
  SMS_find_enrollment "C1" "S1" campus_registered
  = Raise (ValueError "StudentID S1 is not enrolled in courseID C1")
          campus_registered ∧
  SMS_find_enrollment "C1" "S1" campus_term = Return 0 campus_term.
Proof.
  assert (Forall (other_enrollment campus_registered "C1" "S1")
                 (sms_enrollments (sms campus_registered))) as H1 by constructor.
  assert (sms_enrollments (sms campus_term) = [] ++ 0 :: []) as H2 by reflexivity.
  assert (Forall (other_enrollment campus_term "C1" "S1") []) as H3 by constructor.
  assert (enrollment_objs campus_term !! 0 = Some (mkEnrollment 1 10 None)) as H4
    by reflexivity.
  assert (student_objs campus_term !! 1
          = Some (mkStudent (mkPerson "Ada" "S1") "CS" [(10, None)])) as H5
    by reflexivity.
  assert (course_objs campus_term !! 10 = Some algorithms) as H6 by reflexivity.
  split; [done|]. split.
  - exact (proj1 (SMS_find_enrollment_spec campus_registered "C1" "S1") H1).
  - exact (proj2 (SMS_find_enrollment_spec campus_term "C1" "S1")
             [] 0 [] _ _ _ H2 H3 H4 H5 eq_refl H6 eq_refl).
Defined.

(** X10: [assign_grade] of the registry looks for the enrollment before it
    looks at the grade.  With no matching enrollment it raises the
    not-enrolled [ValueError] for every grade, valid or not.  With a match,
    a grade from A to F is written to the enrollment and to the student's
    dictionary, and any other grade raises the invalid-grade [ValueError];
    both errors leave the state untouched. *)
Theorem SMS_assign_grade_spec σ cid sid g :
  (Forall (other_enrollment σ cid sid) (sms_enrollments (sms σ)) →
   SMS_assign_grade cid sid g σ
   = Raise (ValueError ("StudentID " +:+ sid +:+
                        " is not enrolled in courseID " +:+ cid)) σ) ∧
  (∀ l1 x l2 (e : Enrollment) (st : Student) (co : Course),
     sms_enrollments (sms σ) = l1 ++ x :: l2 →
     Forall (other_enrollment σ cid sid) l1 →
     enrollment_objs σ !! x = Some e →
     student_objs σ !! student e = Some st → id_number st = sid →
     course_objs σ !! course e = Some co → course_id co = cid →
     (g ∈ ["A"; "B"; "C"; "D"; "E"; "F"] →
      ∃ σ' (st' : Student),
        SMS_assign_grade cid sid g σ = Return () σ' ∧
        enrollment_objs σ' !! x
        = Some (mkEnrollment (student e) (course e) (Some g)) ∧
        student_objs σ' !! student e = Some st' ∧
        dict_get (course e) (courses st') = Some (Some g) ∧
        sms σ' = sms σ ∧ list_objs σ' = list_objs σ) ∧
     (g ∉ ["A"; "B"; "C"; "D"; "E"; "F"] →
      SMS_assign_grade cid sid g σ
      = Raise (ValueError "Invalid grading system") σ)).
Proof.
  split.
  - intros Hall. unfold SMS_assign_grade.
    by apply bind_Raise, SMS_find_enrollment_none.
  - intros l1 x l2 e st co Hreg Hl1 He Hs Hsid Hc Hcid.
    pose proof (SMS_find_enrollment_found σ l1 x l2 e st co cid sid
                  Hreg Hl1 He Hs Hsid Hc Hcid) as Hfind.
    split; intros Hg; unfold SMS_assign_grade; mstep Hfind.
    + exists (graded σ x g e st). eexists. split_and!.
      * by apply Enrollment_assign_grade_runs.
      * simpl. by rewrite lookup_insert_eq.
      * simpl. by rewrite lookup_insert_eq.
      * simpl. apply dict_get_set.
      * done.
      * done.
    + by apply Enrollment_assign_grade_invalid.
Qed.

Lemma SMS_assign_grade_spec_witness :
  (Forall (other_enrollment campus_registered "C1" "S1")
          (sms_enrollments (sms campus_registered)) ∧
   sms_enrollments (sms campus_term) = [] ++ 0 :: [] ∧
   Forall (other_enrollment campus_term "C1" "S1") [] ∧
   enrollment_objs campus_term !! 0 = Some (mkEnrollment 1 10 None) ∧
   student_objs campus_term !! 1
     = Some (mkStudent (mkPerson "Ada" "S1") "CS" [(10, None)]) ∧
   course_objs campus_term !! 10 = Some algorithms ∧
   "A" ∈ ["A"; "B"; "C"; "D"; "E"; "F"] ∧
   ("Z" ∉ ["A"; "B"; "C"; "D"; "E"; "F"])) ∧
  SMS_assign_grade "C1" "S1" "Z" campus_registered
  = Raise (ValueError "StudentID S1 is not enrolled in courseID C1")
          campus_registered ∧
  (∃ σ' (st' : Student),
     SMS_assign_grade "C1" "S1" "A" campus_term = Return () σ' ∧
     enrollment_objs σ' !! 0 = Some (mkEnrollment 1 10 (Some "A")) ∧
     student_objs σ' !! 1 = Some st' ∧
     dict_get 10 (courses st') = Some (Some "A") ∧
     sms σ' = sms campus_term ∧ list_objs σ' = list_objs campus_term) ∧
  SMS_assign_grade "C1" "S1" "Z" campus_term
  = Raise (ValueError "Invalid grading system") campus_term.
Proof.
  assert (Forall (other_enrollment campus_registered "C1" "S1")
                 (sms_enrollments (sms campus_registered))) as H1 by constructor.
  assert (sms_enrollments (sms campus_term) = [] ++ 0 :: []) as H2 by reflexivity.
  assert (Forall (other_enrollment campus_term "C1" "S1") []) as H3 by constructor.
  assert (enrollment_objs campus_term !! 0 = Some (mkEnrollment 1 10 None)) as H4
    by reflexivity.
  assert (student_objs campus_term !! 1
          = Some (mkStudent (mkPerson "Ada" "S1") "CS" [(10, None)])) as H5
    by reflexivity.
  assert (course_objs campus_term !! 10 = Some algorithms) as H6 by reflexivity.
  assert ("A" ∈ ["A"; "B"; "C"; "D"; "E"; "F"]) as H7 by compute_done.
  assert ("Z" ∉ ["A"; "B"; "C"; "D"; "E"; "F"]) as H8 by compute_done.
  split; [by split_and!|]. split_and!.
  - exact (proj1 (SMS_assign_grade_spec campus_registered "C1" "S1" "Z") H1).
  - exact (proj1 (proj2 (SMS_assign_grade_spec campus_term "C1" "S1" "A")
                    [] 0 [] _ _ _ H2 H3 H4 H5 eq_refl H6 eq_refl) H7).
  - exact (proj2 (proj2 (SMS_assign_grade_spec campus_term "C1" "S1" "Z")
                    [] 0 [] _ _ _ H2 H3 H4 H5 eq_refl H6 eq_refl) H8).
Defined.

(** ** Further properties: grading twice, enrolling again, sharing a list *)

(** X11: grading an enrollment twice keeps the later grade, in the record
    and in the student's dictionary, and adds no key to the dictionary that
    the first grading had not left there; when the second grade is not one
    of A to F the call raises and the first grade stays. *)
Theorem Enrollment_assign_grade_twice σ e (en : Enrollment) (st : Student) g1 g2 :
  enrollment_objs σ !! e = Some en →
  student_objs σ !! student en = Some st →
  g1 ∈ ["A"; "B"; "C"; "D"; "E"; "F"] →
  (g2 ∈ ["A"; "B"; "C"; "D"; "E"; "F"] →
   ∃ σ' (st' : Student),
     (Enrollment_assign_grade e g1;; Enrollment_assign_grade e g2) σ
     = Return () σ' ∧
     enrollment_objs σ' !! e = Some (mkEnrollment (student en) (course en) (Some g2)) ∧
     student_objs σ' !! student en = Some st' ∧
     dict_get (course en) (courses st') = Some (Some g2) ∧
     dict_keys (courses st')
     = dict_keys (dict_set (course en) (Some g1) (courses st)) ∧
     (course en ∈ dict_keys (courses st) →
      dict_keys (courses st') = dict_keys (courses st))) ∧
  (g2 ∉ ["A"; "B"; "C"; "D"; "E"; "F"] →
   (Enrollment_assign_grade e g1;; Enrollment_assign_grade e g2) σ
   = Raise (ValueError "Invalid grading system") (graded σ e g1 en st)).
Proof.
  intros He Hs Hg1.
  pose proof (Enrollment_assign_grade_runs σ e en st g1 He Hs Hg1) as Hrun1.
  split; intros Hg2; mstep Hrun1.
  - set (σ1 := graded σ e g1 en st).
    set (en1 := mkEnrollment (student en) (course en) (Some g1)).
    set (st1 := mkStudent (Student_super st) (major st)
                  (dict_set (course en) (Some g1) (courses st))).
    assert (enrollment_objs σ1 !! e = Some en1) as He1 by apply lookup_insert_eq.
    assert (student_objs σ1 !! student en1 = Some st1) as Hs1
      by apply lookup_insert_eq.
    exists (graded σ1 e g2 en1 st1). eexists. split_and!.
    + by apply Enrollment_assign_grade_runs.
    + simpl. by rewrite lookup_insert_eq.
    + simpl. by rewrite lookup_insert_eq.
    + simpl. apply dict_get_set.
    + simpl. apply dict_keys_set_old, dict_set_key_in.
    + intros Hkey. simpl.
      rewrite dict_keys_set_old by apply dict_set_key_in.
      by apply dict_keys_set_old.
  - by apply Enrollment_assign_grade_invalid.
Qed.

Lemma Enrollment_assign_grade_twice_witness :
  (enrollment_objs campus_graded !! 0 = Some (mkEnrollment 1 10 (Some "A")) ∧
   student_objs campus_graded !! 1
     = Some (mkStudent (mkPerson "Ada" "S1") "CS" [(10, Some "A")]) ∧
   "B" ∈ ["A"; "B"; "C"; "D"; "E"; "F"] ∧
   "C" ∈ ["A"; "B"; "C"; "D"; "E"; "F"] ∧
   ("Z" ∉ ["A"; "B"; "C"; "D"; "E"; "F"]) ∧
   10 ∈ dict_keys [(10, Some "A")]) ∧
  (∃ σ' (st' : Student),
     (Enrollment_assign_grade 0 "B";; Enrollment_assign_grade 0 "C") campus_graded
     = Return () σ' ∧
     enrollment_objs σ' !! 0 = Some (mkEnrollment 1 10 (Some "C")) ∧
     student_objs σ' !! 1 = Some st' ∧
     dict_get 10 (courses st') = Some (Some "C") ∧
     dict_keys (courses st') = [10]) ∧
  (Enrollment_assign_grade 0 "B";; Enrollment_assign_grade 0 "Z") campus_graded
  = Raise (ValueError "Invalid grading system")
          (graded campus_graded 0 "B" (mkEnrollment 1 10 (Some "A"))
             (mkStudent (mkPerson "Ada" "S1") "CS" [(10, Some "A")])).
Proof.
  assert (enrollment_objs campus_graded !! 0 = Some (mkEnrollment 1 10 (Some "A")))
    as H1 by reflexivity.
  assert (student_objs campus_graded !! 1
          = Some (mkStudent (mkPerson "Ada" "S1") "CS" [(10, Some "A")]))
    as H2 by reflexivity.
  assert ("B" ∈ ["A"; "B"; "C"; "D"; "E"; "F"]) as H3 by compute_done.
  assert ("C" ∈ ["A"; "B"; "C"; "D"; "E"; "F"]) as H4 by compute_done.
  assert ("Z" ∉ ["A"; "B"; "C"; "D"; "E"; "F"]) as H5 by compute_done.
  assert (10 ∈ dict_keys [(10, Some "A")]) as H6 by compute_done.
  split; [by split_and!|]. split.
  - destruct (proj1 (Enrollment_assign_grade_twice campus_graded 0 _ _ "B" "C"
                       H1 H2 H3) H4)
      as (σ' & st' & Hrun & He & Hs & Hget & _ & Hkeys).
    exists σ', st'. split_and!; try done. exact (Hkeys H6).
  - exact (proj2 (Enrollment_assign_grade_twice campus_graded 0 _ _ "B" "Z"
                    H1 H2 H3) H5).
Defined.

Lemma Course_remove_student_found σ c (co : Course) l1 s l2 (st : Student) sid :
  course_objs σ !! c = Some co →
  list_objs σ !! enrolled_students co = Some (l1 ++ s :: l2) →
  Forall (carries_other_id σ sid) l1 →
  student_objs σ !! s = Some st →
  id_number st = sid →
  Course_remove_student c sid σ
  = Return () (set_list_objs <[enrolled_students co := l1 ++ l2]> σ).
Proof.
  intros Hc Hxs Hl1 Hs Hid. unfold Course_remove_student.
  mstep (Course_find_enrolled_student_found σ c co l1 s l2 st sid Hc Hxs Hl1 Hs Hid).
  unfold get_course. mread Hc. unfold list_remove, get_list. mread Hxs.
  rewrite py_remove_first; [done|]. by eapply carries_other_id_not_in.
Qed.

(** X12: [remove_student] of a course followed by [add_student] of the
    student it removed.  When the student was listed once, both calls
    return: the student is enrolled again, now last in the list, and the
    grade the dictionary held for the course is replaced by no grade, on the
    key that [remove_student] had left there.  When the student was listed
    more than once, [remove_student] takes out the first entry only and
    [add_student] raises the duplicate-enrollment [ValueError]; the list is
    then the old one without that first entry and the student objects are
    as they were. *)
Theorem Course_remove_then_add_student σ c (co : Course) l1 s l2 (st : Student) sid :
  course_objs σ !! c = Some co →
  list_objs σ !! enrolled_students co = Some (l1 ++ s :: l2) →
  Forall (carries_other_id σ sid) l1 →
  student_objs σ !! s = Some st →
  id_number st = sid →
  (s ∉ l1 ++ l2 →
   ∃ σ' (st' : Student),
     (Course_remove_student c sid;; Course_add_student c s) σ = Return () σ' ∧
     list_objs σ' !! enrolled_students co = Some ((l1 ++ l2) ++ [s]) ∧
     student_objs σ' !! s = Some st' ∧
     dict_get c (courses st') = Some None ∧
     (c ∈ dict_keys (courses st) →
      dict_keys (courses st') = dict_keys (courses st))) ∧
  (s ∈ l1 ++ l2 →
   ∃ σ',
     (Course_remove_student c sid;; Course_add_student c s) σ
     = Raise (ValueError ("Student ID " +:+ sid +:+
                          " is already enrolled in course " +:+ course_name co)) σ' ∧
     list_objs σ' !! enrolled_students co = Some (l1 ++ l2) ∧
     student_objs σ' = student_objs σ).
Proof.
  intros Hc Hxs Hl1 Hs Hid.
  pose proof (Course_remove_student_found σ c co l1 s l2 st sid Hc Hxs Hl1 Hs Hid)
    as Hrm.
  set (σ1 := set_list_objs <[enrolled_students co := l1 ++ l2]> σ) in Hrm.
  assert (list_objs σ1 !! enrolled_students co = Some (l1 ++ l2)) as Hxs1
    by apply lookup_insert_eq.
  split; intros Hlisted; mstep Hrm.
  - exists (enrolled σ1 s c None st co (l1 ++ l2)). eexists. split_and!.
    + by apply (Course_add_student_runs σ1 c s co st (l1 ++ l2)).
    + simpl. by rewrite lookup_insert_eq.
    + simpl. by rewrite lookup_insert_eq.
    + simpl. apply dict_get_set.
    + intros Hkey. simpl. by apply dict_keys_set_old.
  - exists σ1. split_and!; [|done..].
    rewrite <- Hid.
    by apply (Course_add_student_raises σ1 c s co st (l1 ++ l2)).
Qed.

Lemma Course_remove_then_add_student_witness :
  (course_objs campus_graded !! 10 = Some algorithms ∧
   list_objs campus_graded !! 20 = Some ([] ++ 1 :: []) ∧
   Forall (carries_other_id campus_graded "S1") [] ∧
   student_objs campus_graded !! 1
     = Some (mkStudent (mkPerson "Ada" "S1") "CS" [(10, Some "A")]) ∧
   (1 ∉ ([] ++ [] : list loc)) ∧
   10 ∈ dict_keys [(10, Some "A")] ∧
   course_objs (campus_with [1; 1]) !! 10 = Some algorithms ∧
   list_objs (campus_with [1; 1]) !! 20 = Some ([] ++ 1 :: [1]) ∧
   Forall (carries_other_id (campus_with [1; 1]) "S1") [] ∧
   student_objs (campus_with [1; 1]) !! 1 = Some ada ∧
   1 ∈ [] ++ [1]) ∧
  (∃ σ' (st' : Student),
     (Course_remove_student 10 "S1";; Course_add_student 10 1) campus_graded
     = Return () σ' ∧
     list_objs σ' !! 20 = Some [1] ∧
     student_objs σ' !! 1 = Some st' ∧
     dict_get 10 (courses st') = Some None ∧
     dict_keys (courses st') = [10]) ∧
  (∃ σ',
     (Course_remove_student 10 "S1";; Course_add_student 10 1) (campus_with [1; 1])
     = Raise (ValueError "Student ID S1 is already enrolled in course Algorithms") σ' ∧
     list_objs σ' !! 20 = Some [1] ∧
     student_objs σ' = student_objs (campus_with [1; 1])).
Proof.
  assert (course_objs campus_graded !! 10 = Some algorithms) as H1 by reflexivity.
  assert (list_objs campus_graded !! 20 = Some ([] ++ 1 :: [])) as H2
    by reflexivity.
  assert (Forall (carries_other_id campus_graded "S1") []) as H3 by constructor.
  assert (student_objs campus_graded !! 1
          = Some (mkStudent (mkPerson "Ada" "S1") "CS" [(10, Some "A")]))
    as H4 by reflexivity.
  assert (1 ∉ ([] ++ [] : list loc)) as H5 by compute_done.
  assert (10 ∈ dict_keys [(10, Some "A")]) as H6 by compute_done.
  assert (course_objs (campus_with [1; 1]) !! 10 = Some algorithms) as H7
    by reflexivity.
  assert (list_objs (campus_with [1; 1]) !! 20 = Some ([] ++ 1 :: [1])) as H8
    by reflexivity.
  assert (Forall (carries_other_id (campus_with [1; 1]) "S1") []) as H9
    by constructor.
  assert (student_objs (campus_with [1; 1]) !! 1 = Some ada) as H10 by reflexivity.
  assert (1 ∈ [] ++ [1]) as H11 by compute_done.
  split; [by split_and!|]. split.
  - destruct (proj1 (Course_remove_then_add_student campus_graded 10 algorithms
                       [] 1 [] _ "S1" H1 H2 H3 H4 eq_refl) H5)
      as (σ' & st' & Hrun & Hl & Hs & Hget & Hkeys).
    exists σ', st'. split_and!; try done. exact (Hkeys H6).
  - exact (proj2 (Course_remove_then_add_student (campus_with [1; 1]) 10 algorithms
                    [] 1 [1] ada "S1" H7 H8 H9 H10 eq_refl) H11).
Defined.

Lemma fresh_after_insert {A} (m : gmap nat A) (x : A) :
  fresh (dom (<[fresh (dom m) := x]> m)) ≠ fresh (dom m).
Proof.
  intros Heq.
  apply (is_fresh (dom (<[fresh (dom m) := x]> m))).
  rewrite Heq at 1. rewrite dom_insert_L. set_solver.
Qed.

Lemma lookup_fresh {A} (m : gmap nat A) : m !! fresh (dom m) = None.
Proof. apply not_elem_of_dom, is_fresh. Qed.

(** X13: two courses constructed without a list get two new, empty list
    objects: enrolling a student in the first returns, puts the student in
    the first course's list and leaves the second course's list empty, and
    the list objects that existed before are as they were. *)
Theorem Course_init_own_lists σ n1 i1 n2 i2 s (st : Student) :
  student_objs σ !! s = Some st →
  ∃ c1 c2 (co1 co2 : Course) σ',
    two_courses n1 i1 n2 i2 None s σ = Return (c1, c2) σ' ∧
    c1 ≠ c2 ∧
    course_objs σ !! c1 = None ∧ course_objs σ !! c2 = None ∧
    course_objs σ' !! c1 = Some co1 ∧ course_objs σ' !! c2 = Some co2 ∧
    enrolled_students co1 ≠ enrolled_students co2 ∧
    list_objs σ' !! enrolled_students co1 = Some [s] ∧
    list_objs σ' !! enrolled_students co2 = Some [] ∧
    (∀ l xs, list_objs σ !! l = Some xs → list_objs σ' !! l = Some xs).
Proof.
  intros Hs. unfold two_courses.
  set (l1 := fresh (dom (list_objs σ))).
  set (c1 := fresh (dom (course_objs σ))).
  set (co1 := mkCourse n1 i1 l1).
  set (σ1 := set_course_objs <[c1 := co1]> (set_list_objs <[l1 := []]> σ)).
  assert (Course_init n1 i1 None σ = Return c1 σ1) as Hrun1 by reflexivity.
  set (l2 := fresh (dom (list_objs σ1))).
  set (c2 := fresh (dom (course_objs σ1))).
  set (co2 := mkCourse n2 i2 l2).
  set (σ2 := set_course_objs <[c2 := co2]> (set_list_objs <[l2 := []]> σ1)).
  assert (Course_init n2 i2 None σ1 = Return c2 σ2) as Hrun2 by reflexivity.
  assert (c2 ≠ c1) as Hc by apply fresh_after_insert.
  assert (l2 ≠ l1) as Hl by apply fresh_after_insert.
  assert (course_objs σ2 !! c1 = Some co1) as Hc1.
  { simpl. rewrite lookup_insert_ne by done. apply lookup_insert_eq. }
  assert (list_objs σ2 !! enrolled_students co1 = Some []) as Hl1.
  { simpl. rewrite lookup_insert_ne by done. apply lookup_insert_eq. }
  exists c1, c2, co1, co2, (enrolled σ2 s c1 None st co1 []).
  split_and!.
  - mstep Hrun1. mstep Hrun2.
    by mstep (Course_add_student_runs σ2 c1 s co1 st [] Hc1 Hl1 Hs
                (not_elem_of_nil s)).
  - done.
  - apply lookup_fresh.
  - destruct (course_objs σ !! c2) eqn:E; [|done].
    pose proof (lookup_fresh (course_objs σ1)) as Hf.
    fold c2 in Hf. simpl in Hf. rewrite lookup_insert_ne in Hf by done.
    congruence.
  - done.
  - simpl. apply lookup_insert_eq.
  - done.
  - simpl. apply lookup_insert_eq.
  - simpl. rewrite lookup_insert_ne by done. apply lookup_insert_eq.
  - intros l xs Hlx. simpl.
    assert (l ≠ l1) as Hne1.
    { intros ->. pose proof (lookup_fresh (list_objs σ)) as Hf.
      fold l1 in Hf. congruence. }
    assert (l ≠ l2) as Hne2.
    { intros ->. pose proof (lookup_fresh (list_objs σ1)) as Hf.
      fold l2 in Hf. simpl in Hf. rewrite lookup_insert_ne in Hf by done.
      congruence. }
    by rewrite !lookup_insert_ne.
Qed.

Lemma Course_init_own_lists_witness :
  student_objs campus !! 1 = Some ada ∧
  ∃ c1 c2 (co1 co2 : Course) σ',
    two_courses "Logic" "C2" "Sets" "C3" None 1 campus = Return (c1, c2) σ' ∧
    c1 ≠ c2 ∧
    course_objs campus !! c1 = None ∧ course_objs campus !! c2 = None ∧
    course_objs σ' !! c1 = Some co1 ∧ course_objs σ' !! c2 = Some co2 ∧
    enrolled_students co1 ≠ enrolled_students co2 ∧
    list_objs σ' !! enrolled_students co1 = Some [1] ∧
    list_objs σ' !! enrolled_students co2 = Some [] ∧
    (∀ l xs, list_objs campus !! l = Some xs → list_objs σ' !! l = Some xs).
Proof.
  assert (student_objs campus !! 1 = Some ada) as H1 by reflexivity.
  split; [done|].
  exact (Course_init_own_lists campus "Logic" "C2" "Sets" "C3" 1 ada H1).
Defined.

(** X14: a course keeps the list it is constructed with, without copying
    it.  Two courses constructed with one list object share their
    enrollments: after [add_student] on the first, the student is in the
    list both courses refer to, and [add_student] of the same student on the
    second raises the duplicate-enrollment [ValueError]. *)
Theorem Course_init_shared_list σ l xs n1 i1 n2 i2 s (st : Student) :
  list_objs σ !! l = Some xs →
  student_objs σ !! s = Some st →
  s ∉ xs →
  ∃ c1 c2 σ',
    two_courses n1 i1 n2 i2 (Some l) s σ = Return (c1, c2) σ' ∧
    c1 ≠ c2 ∧
    course_objs σ' !! c1 = Some (mkCourse n1 i1 l) ∧
    course_objs σ' !! c2 = Some (mkCourse n2 i2 l) ∧
    list_objs σ' !! l = Some (xs ++ [s]) ∧
    Course_add_student c2 s σ'
    = Raise (ValueError ("Student ID " +:+ id_number st +:+
                         " is already enrolled in course " +:+ n2)) σ'.
Proof.
  intros Hl Hs Hout. unfold two_courses.
  set (c1 := fresh (dom (course_objs σ))).
  set (co1 := mkCourse n1 i1 l).
  set (σ1 := set_course_objs <[c1 := co1]> σ).
  assert (Course_init n1 i1 (Some l) σ = Return c1 σ1) as Hrun1 by reflexivity.
  set (c2 := fresh (dom (course_objs σ1))).
  set (co2 := mkCourse n2 i2 l).
  set (σ2 := set_course_objs <[c2 := co2]> σ1).
  assert (Course_init n2 i2 (Some l) σ1 = Return c2 σ2) as Hrun2 by reflexivity.
  assert (c2 ≠ c1) as Hc by apply fresh_after_insert.
  assert (course_objs σ2 !! c1 = Some co1) as Hc1.
  { simpl. rewrite lookup_insert_ne by done. apply lookup_insert_eq. }
  set (σ3 := enrolled σ2 s c1 None st co1 xs).
  assert (course_objs σ3 !! c2 = Some co2) as Hc2 by apply lookup_insert_eq.
  assert (list_objs σ3 !! enrolled_students co2 = Some (xs ++ [s])) as Hl3
    by apply lookup_insert_eq.
  assert (student_objs σ3 !! s
          = Some (mkStudent (Student_super st) (major st)
                    (dict_set c1 None (courses st)))) as Hs3
    by apply lookup_insert_eq.
  exists c1, c2, σ3. split_and!; try done.
  - mstep Hrun1. mstep Hrun2.
    by mstep (Course_add_student_runs σ2 c1 s co1 st xs Hc1 Hl Hs Hout).
  - apply (Course_add_student_raises σ3 c2 s co2 _ (xs ++ [s]) Hc2 Hl3 Hs3).
    apply elem_of_app. right. apply list_elem_of_here.
Qed.

Lemma Course_init_shared_list_witness :
  (list_objs campus !! 20 = Some [] ∧
   student_objs campus !! 1 = Some ada ∧
   1 ∉ ([] : list loc)) ∧
  ∃ c1 c2 σ',
    two_courses "Logic" "C2" "Sets" "C3" (Some 20) 1 campus = Return (c1, c2) σ' ∧
    c1 ≠ c2 ∧
    course_objs σ' !! c1 = Some (mkCourse "Logic" "C2" 20) ∧
    course_objs σ' !! c2 = Some (mkCourse "Sets" "C3" 20) ∧
    list_objs σ' !! 20 = Some ([] ++ [1]) ∧
    Course_add_student c2 1 σ'
    = Raise (ValueError "Student ID S1 is already enrolled in course Sets") σ'.
Proof.
  assert (list_objs campus !! 20 = Some []) as H1 by reflexivity.
  assert (student_objs campus !! 1 = Some ada) as H2 by reflexivity.
  assert (1 ∉ ([] : list loc)) as H3 by apply not_elem_of_nil.
  split; [done|].
  exact (Course_init_shared_list campus 20 [] "Logic" "C2" "Sets" "C3" 1 ada
           H1 H2 H3).
Defined.

(** ** Further properties: instructors *)

Lemma scan_instructors_none σ xs iid :
  Forall (instructor_has_other_id σ iid) xs →
  scan_instructors xs iid σ = Return None σ.
Proof.
  induction 1 as [|x r (i & Hx & Hne) _ IH]; [done|].
  simpl. unfold get_instructor. mread Hx. by rewrite decide_False.
Qed.

Lemma scan_instructors_found σ l1 x l2 (i : Instructor) iid :
  Forall (instructor_has_other_id σ iid) l1 →
  instructor_objs σ !! x = Some i →
  id_number i = iid →
  scan_instructors (l1 ++ x :: l2) iid σ = Return (Some x) σ.
Proof.
  intros Hl1 Hx Hid. induction Hl1 as [|y r (i' & Hy & Hne) _ IH]; simpl.
  - unfold get_instructor. mread Hx. by rewrite decide_True.
  - unfold get_instructor. mread Hy. by rewrite decide_False.
Qed.

Lemma SMS_find_instructor_found σ l1 x l2 (i : Instructor) iid :
  sms_instructors (sms σ) = l1 ++ x :: l2 →
  Forall (instructor_has_other_id σ iid) l1 →
  instructor_objs σ !! x = Some i →
  id_number i = iid →
  SMS_find_instructor iid σ = Return x σ.
Proof.
  intros Hreg Hl1 Hx Hid. unfold SMS_find_instructor.
  assert (get_sms σ = Return (sms σ) σ) as Hget by done. mstep Hget.
  rewrite Hreg. by mstep (scan_instructors_found σ l1 x l2 i iid Hl1 Hx Hid).
Qed.

Lemma SMS_find_instructor_none σ iid :
  Forall (instructor_has_other_id σ iid) (sms_instructors (sms σ)) →
  SMS_find_instructor iid σ
  = Raise (ValueError ("No instructor record found for ID: " +:+ iid)) σ.
Proof.
  intros Hall. unfold SMS_find_instructor.
  assert (get_sms σ = Return (sms σ) σ) as Hget by done. mstep Hget.
  by mstep (scan_instructors_none σ _ iid Hall).
Qed.

Lemma instructor_has_other_id_not_in σ iid l (x : loc) (i : Instructor) :
  Forall (instructor_has_other_id σ iid) l →
  instructor_objs σ !! x = Some i → id_number i = iid → x ∉ l.
Proof.
  intros Hl Hx Hid Hin. rewrite Forall_forall in Hl.
  destruct (Hl x Hin) as (i' & Hx' & Hne). congruence.
Qed.

(** X15: for the first registered instructor that carries an ID:
    [find_instructor] returns it and writes nothing; [remove_instructor]
    returns and leaves the registry's list of instructors without that
    entry, the other three lists and all objects being as they were;
    [update_instructor] replaces the name and the department by the values
    given, keeps a field not given and the ID, changes nothing else, and
    with neither field given leaves the state untouched. *)
Theorem SMS_instructor_found σ l1 x l2 (i : Instructor) iid n d :
  sms_instructors (sms σ) = l1 ++ x :: l2 →
  Forall (instructor_has_other_id σ iid) l1 →
  instructor_objs σ !! x = Some i →
  id_number i = iid →
  SMS_find_instructor iid σ = Return x σ ∧
  (∃ σ',
     SMS_remove_instructor iid σ = Return () σ' ∧
     sms_instructors (sms σ') = l1 ++ l2 ∧
     length (sms_instructors (sms σ')) + 1 = length (sms_instructors (sms σ)) ∧
     sms_students (sms σ') = sms_students (sms σ) ∧
     sms_courses (sms σ') = sms_courses (sms σ) ∧
     sms_enrollments (sms σ') = sms_enrollments (sms σ) ∧
     instructor_objs σ' = instructor_objs σ ∧
     student_objs σ' = student_objs σ ∧
     course_objs σ' = course_objs σ ∧
     enrollment_objs σ' = enrollment_objs σ ∧
     list_objs σ' = list_objs σ) ∧
  ∃ σ',
    SMS_update_instructor iid n d σ = Return () σ' ∧
    instructor_objs σ' !! x = Some (updated_instructor n d i) ∧
    instructor_objs σ' = <[x := updated_instructor n d i]> (instructor_objs σ) ∧
    student_objs σ' = student_objs σ ∧
    course_objs σ' = course_objs σ ∧
    enrollment_objs σ' = enrollment_objs σ ∧
    list_objs σ' = list_objs σ ∧
    sms σ' = sms σ ∧
    (n = None → d = None → σ' = σ).
Proof.
  intros Hreg Hl1 Hx Hid.
  pose proof (SMS_find_instructor_found σ l1 x l2 i iid Hreg Hl1 Hx Hid) as Hfind.
  split_and!; [done| |].
  - exists (set_sms (instructors_set (l1 ++ l2)) σ). split_and!; try done.
    + unfold SMS_remove_instructor. mstep Hfind.
      assert (get_sms σ = Return (sms σ) σ) as Hget by done. mstep Hget.
      rewrite Hreg, py_remove_first; [done|].
      by eapply instructor_has_other_id_not_in.
    + simpl. rewrite Hreg, !length_app. simpl. lia.
  - assert (∃ σ',
        SMS_update_instructor iid n d σ = Return () σ' ∧
        instructor_objs σ' = <[x := updated_instructor n d i]> (instructor_objs σ) ∧
        student_objs σ' = student_objs σ ∧
        course_objs σ' = course_objs σ ∧
        enrollment_objs σ' = enrollment_objs σ ∧
        list_objs σ' = list_objs σ ∧
        sms σ' = sms σ ∧
        (n = None → d = None → σ' = σ))
      as (σ' & Hrun & Hobjs & Hst & Hco & Hen & Hli & Hsms & Hnone).
    { unfold SMS_update_instructor. mstep Hfind.
      destruct i as [[nm idn] dp]. destruct n as [n|], d as [d|].
      + eexists. split.
        * unfold bind, get_instructor, deref, put_instructor, ret. simpl.
          rewrite Hx. simpl. rewrite lookup_insert_eq. reflexivity.
        * simpl. rewrite insert_insert_eq.
          split_and!; try done; intros; discriminate.
      + eexists. split.
        * unfold bind, get_instructor, deref, put_instructor, ret. simpl.
          rewrite Hx. reflexivity.
        * simpl. split_and!; try done; intros; discriminate.
      + eexists. split.
        * unfold bind, get_instructor, deref, put_instructor, ret. simpl.
          rewrite Hx. reflexivity.
        * simpl. split_and!; try done; intros; discriminate.
      + exists σ. split; [done|]. split_and!; try done. by rewrite insert_id. }
    exists σ'. split_and!; try done.
    rewrite Hobjs. apply lookup_insert_eq.
Qed.

Lemma SMS_instructor_found_witness :
  (sms_instructors (sms campus_staff) = [5] ++ 6 :: [] ∧
   Forall (instructor_has_other_id campus_staff "I2") [5] ∧
   instructor_objs campus_staff !! 6
     = Some (mkInstructor (mkPerson "Emmy" "I2") "Maths")) ∧
  SMS_find_instructor "I2" campus_staff = Return 6 campus_staff ∧
  (∃ σ',
     SMS_remove_instructor "I2" campus_staff = Return () σ' ∧
     sms_instructors (sms σ') = [5] ∧
     instructor_objs σ' = instructor_objs campus_staff) ∧
  ∃ σ',
    SMS_update_instructor "I2" None (Some "Physics") campus_staff = Return () σ' ∧
    instructor_objs σ' !! 6 = Some (mkInstructor (mkPerson "Emmy" "I2") "Physics") ∧
    sms σ' = sms campus_staff.
Proof.
  assert (sms_instructors (sms campus_staff) = [5] ++ 6 :: []) as H1 by reflexivity.
  assert (Forall (instructor_has_other_id campus_staff "I2") [5]) as H2.
  { constructor; [|constructor]. eexists. split; [reflexivity|compute_done]. }
  assert (instructor_objs campus_staff !! 6
          = Some (mkInstructor (mkPerson "Emmy" "I2") "Maths")) as H3
    by reflexivity.
  split; [done|].
  destruct (SMS_instructor_found campus_staff [5] 6 [] _ "I2" None (Some "Physics")
              H1 H2 H3 eq_refl)
    as (Hfind & (σ1 & Hrem & Hlist & _ & _ & _ & _ & Hins & _)
        & σ' & Hrun & Hobj & _ & _ & _ & _ & _ & Hsms & _).
  split_and!; [exact Hfind| |].
  - exists σ1. by split_and!.
  - exists σ'. by split_and!.
Defined.

(** X16: when no registered instructor carries the ID, [find_instructor],
    [remove_instructor] and [update_instructor] all raise the same not-found
    [ValueError], naming the ID, and write nothing. *)
Theorem SMS_instructor_not_found σ iid n d :
  Forall (instructor_has_other_id σ iid) (sms_instructors (sms σ)) →
  SMS_find_instructor iid σ
  = Raise (ValueError ("No instructor record found for ID: " +:+ iid)) σ ∧
  SMS_remove_instructor iid σ
  = Raise (ValueError ("No instructor record found for ID: " +:+ iid)) σ ∧
  SMS_update_instructor iid n d σ
  = Raise (ValueError ("No instructor record found for ID: " +:+ iid)) σ.
Proof.
  intros Hall. pose proof (SMS_find_instructor_none σ iid Hall) as Hfind.
  split_and!; [done| |].
  - unfold SMS_remove_instructor. by apply bind_Raise.
  - unfold SMS_update_instructor. by apply bind_Raise.
Qed.

Lemma SMS_instructor_not_found_witness :
  Forall (instructor_has_other_id campus_staff "I3")
         (sms_instructors (sms campus_staff)) ∧
  SMS_find_instructor "I3" campus_staff
  = Raise (ValueError "No instructor record found for ID: I3") campus_staff ∧
  SMS_remove_instructor "I3" campus_staff
  = Raise (ValueError "No instructor record found for ID: I3") campus_staff ∧
  SMS_update_instructor "I3" (Some "K. G.") None campus_staff
  = Raise (ValueError "No instructor record found for ID: I3") campus_staff.
Proof.
  assert (Forall (instructor_has_other_id campus_staff "I3")
                 (sms_instructors (sms campus_staff))) as H1.
  { repeat constructor; eexists; (split; [reflexivity|compute_done]). }
  split; [done|].
  exact (SMS_instructor_not_found campus_staff "I3" (Some "K. G.") None H1).
Defined.

(** X17: an instructor whose ID no registered instructor carries is, once
    added with [add_instructor], what [find_instructor] of that ID returns;
    the addition puts it last in the registry's list. *)
Theorem SMS_add_then_find_instructor σ x (i : Instructor) iid :
  Forall (instructor_has_other_id σ iid) (sms_instructors (sms σ)) →
  instructor_objs σ !! x = Some i →
  id_number i = iid →
  (SMS_add_instructor x;; SMS_find_instructor iid) σ
  = Return x (set_sms (with_instructor x) σ).
Proof.
  intros Hall Hx Hid.
  assert (x ∉ sms_instructors (sms σ)) as Hout
    by by eapply instructor_has_other_id_not_in.
  mstep (SMS_add_instructor_new σ x Hout).
  by apply (SMS_find_instructor_found _ (sms_instructors (sms σ)) x [] i).
Qed.

Lemma SMS_add_then_find_instructor_witness :
  (Forall (instructor_has_other_id campus_staff "I3")
          (sms_instructors (sms campus_staff)) ∧
   instructor_objs campus_staff !! 7
     = Some (mkInstructor (mkPerson "Kurt" "I3") "Logic")) ∧
  (SMS_add_instructor 7;; SMS_find_instructor "I3") campus_staff
  = Return 7 (set_sms (with_instructor 7) campus_staff).
Proof.
  assert (Forall (instructor_has_other_id campus_staff "I3")
                 (sms_instructors (sms campus_staff))) as H1.
  { repeat constructor; eexists; (split; [reflexivity|compute_done]). }
  assert (instructor_objs campus_staff !! 7
          = Some (mkInstructor (mkPerson "Kurt" "I3") "Logic")) as H2
    by reflexivity.
  split; [done|].
  exact (SMS_add_then_find_instructor campus_staff 7 _ "I3" H1 H2 eq_refl).
Defined.

(** ** Further properties: what no sequence of calls does *)

Lemma keeps_ret {F A} (f : State → F) (a : A) : keeps f (ret a).
Proof. by intros σ. Qed.

Lemma keeps_raise {F A} (f : State → F) (e : exn) : keeps f (raise (A := A) e).
Proof. by intros σ. Qed.

Lemma keeps_deref {F A} (f : State → F) (store : State → gmap nat A) l :
  keeps f (deref store l).
Proof. intros σ. unfold deref. by destruct (store σ !! l). Qed.

Lemma keeps_get_sms {F} (f : State → F) : keeps f get_sms.
Proof. by intros σ. Qed.

Lemma keeps_bind {F A B} (f : State → F) (m : M A) (k : A → M B) :
  keeps f m → (∀ a, keeps f (k a)) → keeps f (bind m k).
Proof.
  intros Hm Hk σ. unfold bind. specialize (Hm σ).
  destruct (m σ) as [a σ1|e σ1|]; [|done..].
  specialize (Hk a σ1). destruct (k a σ1); congruence.
Qed.

Lemma keeps_bind_raise {F A B} (f : State → F) (e : exn) (k : A → M B) :
  keeps f (bind (raise e) k).
Proof. by intros σ. Qed.

Lemma keeps_state_after {F A} (f : State → F) (m : M A) σ :
  keeps f m → f (state_after m σ) = f σ.
Proof.
  intros Hm. specialize (Hm σ). unfold state_after. by destruct (m σ).
Qed.

Lemma keeps_scan_students {F} (f : State → F) xs sid :
  keeps f (scan_students xs sid).
Proof.
  induction xs as [|x rest IH]; simpl; [apply keeps_ret|].
  apply keeps_bind; [apply keeps_deref|]. intros st.
  destruct (decide (id_number st = sid)); [apply keeps_ret|done].
Qed.

Lemma keeps_scan_instructors {F} (f : State → F) xs iid :
  keeps f (scan_instructors xs iid).
Proof.
  induction xs as [|x rest IH]; simpl; [apply keeps_ret|].
  apply keeps_bind; [apply keeps_deref|]. intros i.
  destruct (decide (id_number i = iid)); [apply keeps_ret|done].
Qed.

Lemma keeps_scan_courses {F} (f : State → F) xs cid :
  keeps f (scan_courses xs cid).
Proof.
  induction xs as [|x rest IH]; simpl; [apply keeps_ret|].
  apply keeps_bind; [apply keeps_deref|]. intros co.
  destruct (decide (course_id co = cid)); [apply keeps_ret|done].
Qed.

Lemma keeps_scan_enrollments {F} (f : State → F) xs cid sid :
  keeps f (scan_enrollments xs cid sid).
Proof.
  induction xs as [|x rest IH]; simpl; [apply keeps_ret|].
  apply keeps_bind; [apply keeps_deref|]. intros e.
  apply keeps_bind; [apply keeps_deref|]. intros st.
  destruct (decide (id_number st = sid)); [|done].
  apply keeps_bind; [apply keeps_deref|]. intros co.
  destruct (decide (course_id co = cid)); [apply keeps_ret|done].
Qed.

Create HintDb methods.
#[local] Hint Unfold void Student_init Instructor_init Course_init
  Enrollment_init Student_add_course Course_enrollment Course_add_student
  Course_find_enrolled_student Course_remove_student Enrollment_assign_grade
  SMS_add_student SMS_find_student SMS_remove_student SMS_update_student
  SMS_add_instructor SMS_find_instructor SMS_remove_instructor
  SMS_update_instructor SMS_add_course SMS_find_course SMS_remove_course
  SMS_update_course SMS_enroll_student SMS_find_enrollment SMS_assign_grade
  SMS_students_in_course SMS_student_courses list_append list_remove
  get_student get_instructor get_course get_enrollment get_list
  unbound_name : methods.

(** One step of showing that a method keeps a part of the state: through
    the method's commands, down to the reads and writes. *)
Ltac keeps_step :=
  match goal with
  | |- keeps _ (bind (raise _) _) => apply keeps_bind_raise
  | |- keeps _ (bind _ _) => apply keeps_bind; [|intros ?]
  | |- keeps _ (ret _) => apply keeps_ret
  | |- keeps _ (raise _) => apply keeps_raise
  | |- keeps _ (deref _ _) => apply keeps_deref
  | |- keeps _ get_sms => apply keeps_get_sms
  | |- keeps _ (scan_students _ _) => apply keeps_scan_students
  | |- keeps _ (scan_instructors _ _) => apply keeps_scan_instructors
  | |- keeps _ (scan_courses _ _) => apply keeps_scan_courses
  | |- keeps _ (scan_enrollments _ _ _) => apply keeps_scan_enrollments
  | |- keeps _ (match ?x with _ => _ end) => destruct x
  | |- keeps _ _ => by intros ?
  end.
Ltac keeps_all := autounfold with methods; repeat keeps_step.

(** Every call keeps the registry's list of enrollments. *)
Lemma perform_keeps_enrollments c : keeps registered_enrollments (perform c).
Proof. destruct c; simpl; keeps_all. Qed.

Lemma perform_all_cons c rest σ :
  perform_all (c :: rest) σ = perform_all rest (state_after (perform c) σ).
Proof. done. Qed.

Lemma perform_all_keeps_enrollments calls σ :
  registered_enrollments (perform_all calls σ) = registered_enrollments σ.
Proof.
  revert σ. induction calls as [|c rest IH]; intros σ; [done|].
  rewrite perform_all_cons, IH.
  apply keeps_state_after, perform_keeps_enrollments.
Qed.

(** X18: no call on the module changes the registry's list of enrollments:
    after any sequence of constructor and method calls the list is the one
    the sequence started with ([enroll_student], the one method that would
    append to it, never gets that far).  So in a registry that [__init__]
    has set up, whatever calls follow, [find_enrollment] and the registry's
    [assign_grade] raise the not-enrolled [ValueError] for every pair of
    IDs and every grade. *)
Theorem registered_enrollments_never_change calls σ :
  registered_enrollments (perform_all calls σ) = registered_enrollments σ ∧
  ∀ cid sid g,
    let σ' := perform_all calls (state_after SMS_init σ) in
    SMS_find_enrollment cid sid σ'
    = Raise (ValueError ("StudentID " +:+ sid +:+
                         " is not enrolled in courseID " +:+ cid)) σ' ∧
    SMS_assign_grade cid sid g σ'
    = Raise (ValueError ("StudentID " +:+ sid +:+
                         " is not enrolled in courseID " +:+ cid)) σ'.
Proof.
  split; [apply perform_all_keeps_enrollments|].
  intros cid sid g σ'.
  assert (Forall (other_enrollment σ' cid sid) (sms_enrollments (sms σ'))) as Hall.
  { change (sms_enrollments (sms σ')) with (registered_enrollments σ').
    subst σ'. rewrite perform_all_keeps_enrollments. constructor. }
  split.
  - by apply SMS_find_enrollment_none.
  - unfold SMS_assign_grade. by apply bind_Raise, SMS_find_enrollment_none.
Qed.

(** Reading methods leave the whole state as it is. *)
Lemma SMS_find_student_cases sid σ :
  (∃ s, SMS_find_student sid σ = Return s σ) ∨
  (∃ e, SMS_find_student sid σ = Raise e σ) ∨
  SMS_find_student sid σ = Fault.
Proof. apply SMS_find_student_pure. Qed.

Lemma SMS_find_instructor_cases iid σ :
  (∃ i, SMS_find_instructor iid σ = Return i σ) ∨
  (∃ e, SMS_find_instructor iid σ = Raise e σ) ∨
  SMS_find_instructor iid σ = Fault.
Proof.
  assert (keeps (λ σ, σ) (SMS_find_instructor iid)) as H by keeps_all.
  specialize (H σ). destruct (SMS_find_instructor iid σ) as [i σ1|e σ1|].
  - left. exists i. by rewrite H.
  - right. left. exists e. by rewrite H.
  - by right; right.
Qed.

Lemma SMS_find_course_cases cid σ :
  (∃ c, SMS_find_course cid σ = Return c σ) ∨
  (∃ e, SMS_find_course cid σ = Raise e σ) ∨
  SMS_find_course cid σ = Fault.
Proof.
  assert (keeps (λ σ, σ) (SMS_find_course cid)) as H by keeps_all.
  specialize (H σ). destruct (SMS_find_course cid σ) as [c σ1|e σ1|].
  - left. exists c. by rewrite H.
  - right. left. exists e. by rewrite H.
  - by right; right.
Qed.

Lemma py_remove_sublist x xs xs' :
  py_remove x xs = Some xs' → xs' `sublist_of` xs.
Proof.
  revert xs'. induction xs as [|y r IH]; intros xs'; simpl; [done|].
  destruct (decide (y = x)).
  - intros [= <-]. by apply sublist_cons.
  - destruct (py_remove x r) as [r'|]; [|done].
    intros [= <-]. apply sublist_skip. by apply IH.
Qed.

Lemma py_remove_NoDup x xs xs' :
  py_remove x xs = Some xs' → NoDup xs → NoDup xs'.
Proof. intros H Hnd. eapply sublist_NoDup; [done|by eapply py_remove_sublist]. Qed.

Lemma NoDup_snoc_new {A} (xs : list A) x : NoDup xs → x ∉ xs → NoDup (xs ++ [x]).
Proof.
  intros Hnd Hx. apply NoDup_app. split_and!; [done| |apply NoDup_singleton].
  intros y Hy ->%list_elem_of_singleton. done.
Qed.

(** What the six writing methods of the registry leave. *)
Lemma SMS_add_student_cases σ s :
  state_after (SMS_add_student s) σ = σ ∨
  (s ∉ sms_students (sms σ)) ∧
  state_after (SMS_add_student s) σ = set_sms (with_student s) σ.
Proof.
  unfold state_after. destruct (decide (s ∈ sms_students (sms σ))).
  - left. by rewrite SMS_add_student_present.
  - right. by rewrite SMS_add_student_new.
Qed.

Lemma SMS_add_instructor_cases σ i :
  state_after (SMS_add_instructor i) σ = σ ∨
  (i ∉ sms_instructors (sms σ)) ∧
  state_after (SMS_add_instructor i) σ = set_sms (with_instructor i) σ.
Proof.
  unfold state_after. destruct (decide (i ∈ sms_instructors (sms σ))).
  - left. by rewrite SMS_add_instructor_present.
  - right. by rewrite SMS_add_instructor_new.
Qed.

Lemma SMS_add_course_cases σ c :
  state_after (SMS_add_course c) σ = σ ∨
  (c ∉ sms_courses (sms σ)) ∧
  state_after (SMS_add_course c) σ = set_sms (with_course c) σ.
Proof.
  unfold state_after. destruct (decide (c ∈ sms_courses (sms σ))).
  - left. by rewrite SMS_add_course_present.
  - right. by rewrite SMS_add_course_new.
Qed.

Lemma SMS_remove_student_cases σ sid :
  state_after (SMS_remove_student sid) σ = σ ∨
  ∃ x xs', py_remove x (sms_students (sms σ)) = Some xs' ∧
           state_after (SMS_remove_student sid) σ = set_sms (students_set xs') σ.
Proof.
  unfold state_after, SMS_remove_student.
  destruct (SMS_find_student_cases sid σ) as [[s Hs]|[[e He]|Hf]].
  - mstep Hs. assert (get_sms σ = Return (sms σ) σ) as Hget by done. mstep Hget.
    destruct (py_remove s (sms_students (sms σ))) as [xs'|] eqn:E; [|by left].
    right. by exists s, xs'.
  - left. by rewrite (bind_Raise _ _ _ _ _ He).
  - left. unfold bind. by rewrite Hf.
Qed.

Lemma SMS_remove_instructor_cases σ iid :
  state_after (SMS_remove_instructor iid) σ = σ ∨
  ∃ x xs', py_remove x (sms_instructors (sms σ)) = Some xs' ∧
           state_after (SMS_remove_instructor iid) σ
           = set_sms (instructors_set xs') σ.
Proof.
  unfold state_after, SMS_remove_instructor.
  destruct (SMS_find_instructor_cases iid σ) as [[s Hs]|[[e He]|Hf]].
  - mstep Hs. assert (get_sms σ = Return (sms σ) σ) as Hget by done. mstep Hget.
    destruct (py_remove s (sms_instructors (sms σ))) as [xs'|] eqn:E; [|by left].
    right. by exists s, xs'.
  - left. by rewrite (bind_Raise _ _ _ _ _ He).
  - left. unfold bind. by rewrite Hf.
Qed.

Lemma SMS_remove_course_cases σ cid :
  state_after (SMS_remove_course cid) σ = σ ∨
  ∃ x xs', py_remove x (sms_courses (sms σ)) = Some xs' ∧
           state_after (SMS_remove_course cid) σ = set_sms (courses_set xs') σ.
Proof.
  unfold state_after, SMS_remove_course.
  destruct (SMS_find_course_cases cid σ) as [[s Hs]|[[e He]|Hf]].
  - mstep Hs. assert (get_sms σ = Return (sms σ) σ) as Hget by done. mstep Hget.
    destruct (py_remove s (sms_courses (sms σ))) as [xs'|] eqn:E; [|by left].
    right. by exists s, xs'.
  - left. by rewrite (bind_Raise _ _ _ _ _ He).
  - left. unfold bind. by rewrite Hf.
Qed.

Lemma perform_keeps_sms c : touches_registry c = false → keeps sms (perform c).
Proof. destruct c; simpl; intros; try discriminate; keeps_all. Qed.

Lemma perform_registry_NoDup c σ :
  registry_NoDup σ → registry_NoDup (state_after (perform c) σ).
Proof.
  intros (Hs & Hi & Hc). unfold registry_NoDup.
  destruct (touches_registry c) eqn:Ht.
  - destruct c; try discriminate; simpl.
    + destruct (SMS_add_student_cases σ s) as [->|[Hout ->]]; [done|].
      simpl. split_and!; try done. by apply NoDup_snoc_new.
    + destruct (SMS_remove_student_cases σ sid) as [->|(x & xs' & Hrm & ->)]; [done|].
      simpl. split_and!; try done. by eapply py_remove_NoDup.
    + destruct (SMS_add_instructor_cases σ i) as [->|[Hout ->]]; [done|].
      simpl. split_and!; try done. by apply NoDup_snoc_new.
    + destruct (SMS_remove_instructor_cases σ iid) as [->|(x & xs' & Hrm & ->)];
        [done|].
      simpl. split_and!; try done. by eapply py_remove_NoDup.
    + destruct (SMS_add_course_cases σ c) as [->|[Hout ->]]; [done|].
      simpl. split_and!; try done. by apply NoDup_snoc_new.
    + destruct (SMS_remove_course_cases σ cid) as [->|(x & xs' & Hrm & ->)]; [done|].
      simpl. split_and!; try done. by eapply py_remove_NoDup.
  - by rewrite (keeps_state_after sms (perform c) σ (perform_keeps_sms c Ht)).
Qed.

(** X19: a registry whose lists are its own (no course has been constructed
    on one of them) never lists an object twice: when none of its lists of
    students, instructors and courses holds an object twice, none does after
    any sequence of constructor and method calls in which a course is
    constructed with no list or with a list object other than the
    registry's. *)
Theorem registry_NoDup_kept calls σ :
  registry_NoDup σ → registry_NoDup (perform_all calls σ).
Proof.
  revert σ. induction calls as [|c rest IH]; intros σ Hσ; [done|].
  rewrite perform_all_cons. by apply IH, perform_registry_NoDup.
Qed.

Lemma registry_NoDup_kept_witness :
  registry_NoDup campus ∧ registry_NoDup (perform_all busy_day campus).
Proof.
  assert (registry_NoDup campus) as H1 by (split_and!; apply NoDup_nil_2).
  split; [done|].
  exact (registry_NoDup_kept busy_day campus H1).
Defined.

(** What the two writing methods of a course leave. *)
Lemma Enrollment_init_faults σ s c g (co : Course) xs :
  student_objs σ !! s = None →
  course_objs σ !! c = Some co →
  list_objs σ !! enrolled_students co = Some xs →
  Enrollment_init s c g σ = Fault.
Proof.
  intros HS HC Hxs. unfold Enrollment_init.
  set (e := fresh (dom (enrollment_objs σ))).
  set (E := mkEnrollment s c g).
  assert (new_enrollment E σ = Return e (set_enrollment_objs <[e := E]> σ))
    as Hnew by done.
  mstep Hnew.
  assert (enrollment_objs (set_enrollment_objs <[e := E]> σ) !! e = Some E)
    as HE by apply lookup_insert_eq.
  unfold get_enrollment at 1. mread HE.
  set (σ1 := set_enrollment_objs <[e := E]> σ) in *.
  mstep (Course_enrollment_runs σ1 c e co E xs HC HE eq_refl Hxs).
  set (σ2 := set_list_objs _ σ1).
  unfold get_enrollment. mread (HE : enrollment_objs σ2 !! e = Some E).
  unfold Student_add_course, get_student, bind, deref. simpl. by rewrite HS.
Qed.

Lemma Course_add_student_cases σ c s :
  state_after (Course_add_student c s) σ = σ ∨
  ∃ (co : Course) (st : Student) xs,
    course_objs σ !! c = Some co ∧
    list_objs σ !! enrolled_students co = Some xs ∧
    student_objs σ !! s = Some st ∧
    (s ∉ xs) ∧
    state_after (Course_add_student c s) σ = enrolled σ s c None st co xs.
Proof.
  unfold state_after.
  destruct (course_objs σ !! c) as [co|] eqn:Hc; cycle 1.
  { left. unfold Course_add_student, bind, get_course, deref. by rewrite Hc. }
  destruct (list_objs σ !! enrolled_students co) as [xs|] eqn:Hxs; cycle 1.
  { left. unfold Course_add_student, get_course, get_list. mread Hc.
    unfold bind, deref. by rewrite Hxs. }
  destruct (student_objs σ !! s) as [st|] eqn:Hs.
  - destruct (decide (s ∈ xs)) as [Hin|Hout].
    + left. by rewrite (Course_add_student_raises σ c s co st xs).
    + right. exists co, st, xs. split_and!; try done.
      by rewrite (Course_add_student_runs σ c s co st xs).
  - left. unfold Course_add_student, get_course, get_list. mread Hc. mread Hxs.
    unfold py_in. destruct (decide (s ∈ xs)) as [Hin|Hout].
    + rewrite bool_decide_eq_true_2 by done.
      unfold bind, get_student, deref. by rewrite Hs.
    + rewrite bool_decide_eq_false_2 by done.
      unfold bind at 1. by rewrite (Enrollment_init_faults σ s c None co xs).
Qed.

Lemma Course_find_enrolled_student_cases c sid σ :
  (∃ r, Course_find_enrolled_student c sid σ = Return r σ) ∨
  (∃ e, Course_find_enrolled_student c sid σ = Raise e σ) ∨
  Course_find_enrolled_student c sid σ = Fault.
Proof.
  assert (keeps (λ σ, σ) (Course_find_enrolled_student c sid)) as H by keeps_all.
  specialize (H σ). destruct (Course_find_enrolled_student c sid σ) as [r σ1|e σ1|].
  - left. exists r. by rewrite H.
  - right. left. exists e. by rewrite H.
  - by right; right.
Qed.

Lemma Course_remove_student_cases σ c sid :
  state_after (Course_remove_student c sid) σ = σ ∨
  ∃ (co : Course) xs x xs',
    course_objs σ !! c = Some co ∧
    list_objs σ !! enrolled_students co = Some xs ∧
    py_remove x xs = Some xs' ∧
    state_after (Course_remove_student c sid) σ
    = set_list_objs <[enrolled_students co := xs']> σ.
Proof.
  unfold state_after, Course_remove_student.
  destruct (Course_find_enrolled_student_cases c sid σ) as [[r Hr]|[[e He]|Hf]].
  - mstep Hr. destruct r as [x|]; [|by left].
    destruct (course_objs σ !! c) as [co|] eqn:Hc; cycle 1.
    { left. unfold bind, get_course, deref. by rewrite Hc. }
    unfold get_course. mread Hc. unfold list_remove, get_list.
    destruct (list_objs σ !! enrolled_students co) as [xs|] eqn:Hxs; cycle 1.
    { left. unfold bind, deref. by rewrite Hxs. }
    mread Hxs. destruct (py_remove x xs) as [xs'|] eqn:Hrm; [|by left].
    right. by exists co, xs, x, xs'.
  - left. by rewrite (bind_Raise _ _ _ _ _ He).
  - left. unfold bind. by rewrite Hf.
Qed.

Lemma perform_keeps_lists c : touches_lists c = false → keeps list_objs (perform c).
Proof.
  destruct c as [| | ? ? [?|]| | | | | | | | | | | | | | | | | | | | | | | |];
    simpl; intros; try discriminate; keeps_all.
Qed.

Lemma perform_lists_NoDup c σ :
  by_the_book c = true → lists_NoDup σ →
  lists_NoDup (state_after (perform c) σ).
Proof.
  intros Hbook Hσ. destruct (touches_lists c) eqn:Ht.
  - destruct c as [| | ? ? [?|]| | | | | | | | | | | | | | | | | | | | | | | |];
      try discriminate; simpl.
    + intros l xs. unfold state_after, void, Course_init, bind, new_list, new_course.
      simpl. intros [[_ <-]|[_ Hl]]%lookup_insert_Some; [apply NoDup_nil_2|].
      by eapply Hσ.
    + destruct (Course_add_student_cases σ c s)
        as [->|(co & st & xs & Hc & Hxs & Hs & Hout & ->)]; [done|].
      intros l ys. simpl.
      intros [[_ <-]|[_ Hl]]%lookup_insert_Some; [|by eapply Hσ].
      apply NoDup_snoc_new; [by eapply Hσ|done].
    + destruct (Course_remove_student_cases σ c sid)
        as [->|(co & xs & x & xs' & Hc & Hxs & Hrm & ->)]; [done|].
      intros l ys. simpl.
      intros [[_ <-]|[_ Hl]]%lookup_insert_Some; [|by eapply Hσ].
      eapply py_remove_NoDup; [done|by eapply Hσ].
  - intros l xs.
    rewrite (keeps_state_after list_objs (perform c) σ (perform_keeps_lists c Ht)).
    apply Hσ.
Qed.

(** X20: as long as no [Enrollment] is constructed directly (and its two
    callbacks, [Course.enrollment] and [Student.add_course], are not called
    directly), no course ever lists a student twice: when no list object
    holds an element twice, none does after any sequence of the other
    constructor and method calls, [Course.add_student] and
    [Course.remove_student] among them. *)
Theorem lists_NoDup_kept calls σ :
  Forall (λ c, by_the_book c = true) calls →
  lists_NoDup σ →
  lists_NoDup (perform_all calls σ).
Proof.
  intros Hcalls. revert σ.
  induction Hcalls as [|c rest Hc _ IH]; intros σ Hσ; [done|].
  rewrite perform_all_cons. by apply IH, perform_lists_NoDup.
Qed.

Lemma lists_NoDup_kept_witness :
  (Forall (λ c, by_the_book c = true) busy_day ∧ lists_NoDup campus) ∧
  lists_NoDup (perform_all busy_day campus) ∧
  list_objs (perform_all busy_day campus) !! 20 = Some [1].
Proof.
  assert (Forall (λ c, by_the_book c = true) busy_day) as H1
    by (repeat constructor).
  assert (lists_NoDup campus) as H2.
  { intros l xs. unfold campus. simpl.
    intros [_ <-]%lookup_singleton_Some. apply NoDup_nil_2. }
  split; [done|]. split.
  - exact (lists_NoDup_kept busy_day campus H1 H2).
  - vm_compute. reflexivity.
Defined.

(** ** Further properties: the constructor of an enrollment *)

(** X21: the constructor of [Enrollment] takes any grade: given a string
    that is not one of A to F it raises nothing, and the string becomes the
    grade of the new record and the value of the course in the student's
    dictionary; [assign_grade] with the same string on the new enrollment
    raises the invalid-grade [ValueError]. *)
Theorem Enrollment_init_takes_any_grade σ s c g (st : Student) (co : Course) xs :
  student_objs σ !! s = Some st →
  course_objs σ !! c = Some co →
  list_objs σ !! enrolled_students co = Some xs →
  g ∉ ["A"; "B"; "C"; "D"; "E"; "F"] →
  ∃ e σ' (st' : Student),
    Enrollment_init s c (Some g) σ = Return e σ' ∧
    enrollment_objs σ' !! e = Some (mkEnrollment s c (Some g)) ∧
    student_objs σ' !! s = Some st' ∧
    dict_get c (courses st') = Some (Some g) ∧
    Enrollment_assign_grade e g σ'
    = Raise (ValueError "Invalid grading system") σ'.
Proof.
  intros Hs Hc Hxs Hg.
  exists (fresh (dom (enrollment_objs σ))), (enrolled σ s c (Some g) st co xs).
  eexists. split_and!.
  - by apply Enrollment_init_runs.
  - simpl. by rewrite lookup_insert_eq.
  - simpl. by rewrite lookup_insert_eq.
  - simpl. apply dict_get_set.
  - by apply Enrollment_assign_grade_invalid.
Qed.

Lemma Enrollment_init_takes_any_grade_witness :
  (student_objs campus !! 2 = Some grace ∧
   course_objs campus !! 10 = Some algorithms ∧
   list_objs campus !! 20 = Some [] ∧
   ("A+" ∉ ["A"; "B"; "C"; "D"; "E"; "F"])) ∧
  ∃ e σ' (st' : Student),
    Enrollment_init 2 10 (Some "A+") campus = Return e σ' ∧
    enrollment_objs σ' !! e = Some (mkEnrollment 2 10 (Some "A+")) ∧
    student_objs σ' !! 2 = Some st' ∧
    dict_get 10 (courses st') = Some (Some "A+") ∧
    Enrollment_assign_grade e "A+" σ'
    = Raise (ValueError "Invalid grading system") σ'.
Proof.
  assert (student_objs campus !! 2 = Some grace) as H1 by reflexivity.
  assert (course_objs campus !! 10 = Some algorithms) as H2 by reflexivity.
  assert (list_objs campus !! 20 = Some []) as H3 by reflexivity.
  assert ("A+" ∉ ["A"; "B"; "C"; "D"; "E"; "F"]) as H4 by compute_done.
  split; [done|].
  exact (Enrollment_init_takes_any_grade campus 2 10 "A+" grace algorithms []
           H1 H2 H3 H4).
Defined.
